(** * Job market analyzer: relational store, semantic index and analytics

    A shallow embedding of the storage and analytics core of the
    repository:

    - [src/data_collection/models.py]  (module [Models]),
    - [src/etl/database.py]            (module [Database]),
    - [src/rag/vector_store.py]        (module [VectorStore]),
    - [src/analytics/analyzer.py]      (module [Analyzer]),

    followed by a small runtime for closed examples (module [Demo]), the
    notions used to state the properties (module [Spec]) and the
    properties themselves.

    Conventions of the embedding.
    - Python [str] values are Rocq strings; case conversion and the
      case-insensitivity of SQL [LIKE] are those of the ASCII letters.
    - Python numbers ([int], [float] without NaN) are exact rationals [Q].
      Where pandas introduces NaN, NaN is a value of its own ([Analyzer.cell]).
    - Library calls whose result is opaque to the program (MD5, ISO-8601
      and JSON text, the nearest-neighbour query) are fields of the classes
      [Runtime] and [AnnIndex]; the random UUID drawn by every record
      construction is an explicit argument.
    - Exceptions are explicit: a function that may raise returns a
      [Py.result]. *)

From Stdlib Require Import ZArith QArith Qround String Ascii List Bool Lia Lqa.
From Stdlib Require Import Sorting Permutation OrdersEx.
From stdpp Require Import gmap strings list.
Import ListNotations.

#[local] Open Scope string_scope.
Set Warnings "-clear-no-such-hyp".

(** ** Python builtins used by the sources *)

Module Py.

Inductive exn : Type :=
| TypeError
| ValueError
| KeyError
| IntegrityError.

Inductive result (A : Type) : Type :=
| Return (a : A)
| Raise (e : exn).
Arguments Return {A} a.
Arguments Raise {A} e.

Definition bind {A B : Type} (m : result A) (k : A -> result B) : result B :=
  match m with
  | Return a => k a
  | Raise e => Raise e
  end.

(** [c.lower()] on one ASCII character. *)
Definition lower_ascii (c : ascii) : ascii :=
  let n := nat_of_ascii c in
  if ((65 <=? n) && (n <=? 90))%nat then ascii_of_nat (n + 32) else c.

(** [s.lower()] *)
Fixpoint lower (s : string) : string :=
  match s with
  | EmptyString => EmptyString
  | String c s' => String (lower_ascii c) (lower s')
  end.

(** [sub in s] on strings. *)
Fixpoint contains (sub s : string) : bool :=
  if String.prefix sub s then true
  else match s with
       | EmptyString => false
       | String _ s' => contains sub s'
       end.

(** [x in l] on a list of strings. *)
Definition mem (x : string) (l : list string) : bool :=
  existsb (String.eqb x) l.

(** Truth value of a string, of an optional string, of a number. *)
Definition truthy_str (s : string) : bool :=
  negb (String.eqb s EmptyString).

Definition truthy_opt_str (o : option string) : bool :=
  match o with
  | Some s => truthy_str s
  | None => false
  end.

Definition Qeqb (a b : Q) : bool := Qle_bool a b && Qle_bool b a.
Definition Qltb (a b : Q) : bool := negb (Qle_bool b a).

Definition truthy_num (q : Q) : bool := negb (Qeqb q 0).

Definition truthy_opt_num (o : option Q) : bool :=
  match o with
  | Some q => truthy_num q
  | None => false
  end.

(** [l[:n]] for an arbitrary integer [n]. *)
Definition slice_to {A : Type} (n : Z) (l : list A) : list A :=
  if (0 <=? n)%Z then take (Z.to_nat n) l
  else take (length l - Z.to_nat (- n)) l.

(** [l[i:j]] for natural [i <= j]. *)
Definition slice {A : Type} (i j : nat) (l : list A) : list A :=
  take (j - i) (drop i l).

(** Rounding of a rational to the nearest integer, ties to even. *)
Definition round_half_even (q : Q) : Z :=
  let f := Qfloor q in
  let d := (q - inject_Z f)%Q in
  if Qltb d (1 # 2) then f
  else if Qltb (1 # 2) d then (f + 1)%Z
  else if Z.even f then f else (f + 1)%Z.

(** [round(q, ndigits)] *)
Definition round_ndigits (ndigits : nat) (q : Q) : Q :=
  let scale := inject_Z (10 ^ Z.of_nat ndigits) in
  (inject_Z (round_half_even (q * scale)) / scale)%Q.

(** [max(0, q)] *)
Definition max0 (q : Q) : Q :=
  if Qltb 0 q then q else 0%Q.

(** [d[k] = d.get(k, 0) + 1] on a dictionary kept in insertion order. *)
Fixpoint dict_incr (k : string) (d : list (string * nat)) : list (string * nat) :=
  match d with
  | [] => [(k, 1)]
  | (k', n) :: rest =>
      if String.eqb k' k then (k', S n) :: rest
      else (k', n) :: dict_incr k rest
  end.

(** The tally of the keys of a list, in order of first occurrence. *)
Definition tally {A : Type} (key : A -> string) (l : list A) : list (string * nat) :=
  fold_left (fun d x => dict_incr (key x) d) l [].

(** [sorted(items, key=lambda x: x[1], reverse=True)] on counts: a stable
    sort by descending count. *)
Fixpoint insert_by_count (x : string * nat) (sorted : list (string * nat))
  : list (string * nat) :=
  match sorted with
  | [] => [x]
  | y :: rest =>
      if (snd x <? snd y)%nat then y :: insert_by_count x rest
      else x :: sorted
  end.

Definition sorted_by_count (items : list (string * nat)) : list (string * nat) :=
  foldr insert_by_count [] items.

(** [min(l)] and [max(l)] on a non-empty list of numbers. *)
Definition min_list (x : Q) (l : list Q) : Q :=
  fold_left (fun m y => if Qltb y m then y else m) l x.

Definition max_list (x : Q) (l : list Q) : Q :=
  fold_left (fun m y => if Qltb m y then y else m) l x.

(** [s.split(',')[0]]: the text before the first comma. *)
Fixpoint before_comma (s : string) : string :=
  match s with
  | EmptyString => EmptyString
  | String c s' =>
      if Ascii.eqb c "," then EmptyString else String c (before_comma s')
  end.

End Py.

(** ** Library functions the program calls but does not define *)

Record datetime : Type := {
  year : Z; month : Z; day : Z;
  hour : Z; minute : Z; second : Z; microsecond : Z
}.

Class Runtime : Type := {
  (** [hashlib.md5(s.encode()).hexdigest()] *)
  md5_hexdigest : string -> string;
  (** [d.isoformat()] and [datetime.fromisoformat(s)]; the latter raises
      [ValueError] on text that is not ISO-8601. *)
  isoformat : datetime -> string;
  fromisoformat : string -> option datetime;
  (** [json.dumps(l)] and [json.loads(s)] on lists of strings. *)
  json_dumps : list string -> string;
  json_loads : string -> option (list string);
  (** [f"{q:,.0f}"] *)
  format_thousands : Q -> string
}.

(** The documented contracts of these functions: parsing inverts
    printing, and JSON text is never empty. *)
Class RuntimeLaws (R : Runtime) : Prop := {
  fromisoformat_isoformat : forall d, fromisoformat (isoformat d) = Some d;
  isoformat_nonempty : forall d, isoformat d <> EmptyString;
  json_loads_dumps : forall l, json_loads (json_dumps l) = Some l;
  json_dumps_nonempty : forall l, json_dumps l <> EmptyString
}.

(** ** [src/data_collection/models.py] *)

Module Models.

Record JobPosting : Type := {
  title : string;
  company : string;
  location : string;
  description : string;
  salary_min : option Q;
  salary_max : option Q;
  salary_currency : string;
  job_type : string;
  experience_level : string;
  remote : bool;
  skills : list string;
  source : string;
  url : option string;
  posted_date : option datetime;
  scraped_at : datetime;
  id : string
}.

(** The constructor arguments: every field except [id], which the
    dataclass declares with [init=False]. *)
Record init_args : Type := {
  a_title : string;
  a_company : string;
  a_location : string;
  a_description : string;
  a_salary_min : option Q;
  a_salary_max : option Q;
  a_salary_currency : string;
  a_job_type : string;
  a_experience_level : string;
  a_remote : bool;
  a_skills : list string;
  a_source : string;
  a_url : option string;
  a_posted_date : option datetime;
  a_scraped_at : datetime
}.

Definition fields_of (j : JobPosting) : init_args :=
  {| a_title := title j; a_company := company j; a_location := location j;
     a_description := description j;
     a_salary_min := salary_min j; a_salary_max := salary_max j;
     a_salary_currency := salary_currency j; a_job_type := job_type j;
     a_experience_level := experience_level j; a_remote := remote j;
     a_skills := skills j; a_source := source j; a_url := url j;
     a_posted_date := posted_date j; a_scraped_at := scraped_at j |}.

Section WithRuntime.
Context `{RT : Runtime}.

(** [__post_init__]: [uuid4] is the text of the UUID drawn by this
    construction. *)
Definition __post_init__ (t c l uuid4 : string) : string :=
  String.substring 0 16 (md5_hexdigest (t ++ c ++ l ++ uuid4)).

(** The call [JobPosting] with keyword arguments [a]. *)
Definition new (a : init_args) (uuid4 : string) : JobPosting :=
  {| title := a_title a; company := a_company a; location := a_location a;
     description := a_description a;
     salary_min := a_salary_min a; salary_max := a_salary_max a;
     salary_currency := a_salary_currency a; job_type := a_job_type a;
     experience_level := a_experience_level a; remote := a_remote a;
     skills := a_skills a; source := a_source a; url := a_url a;
     posted_date := a_posted_date a; scraped_at := a_scraped_at a;
     id := __post_init__ (a_title a) (a_company a) (a_location a) uuid4 |}.

(** A date entry of the dictionary form: absent ([None]), ISO text,
    or a [datetime] object. *)
Inductive date_value : Type :=
| DateNone
| DateStr (s : string)
| DateObj (d : datetime).

(** The dictionary form: the keys written by [asdict]. The key ['id']
    may be missing from a dictionary handed to [from_dict]. *)
Record job_dict : Type := {
  d_title : string;
  d_company : string;
  d_location : string;
  d_description : string;
  d_salary_min : option Q;
  d_salary_max : option Q;
  d_salary_currency : string;
  d_job_type : string;
  d_experience_level : string;
  d_remote : bool;
  d_skills : list string;
  d_source : string;
  d_url : option string;
  d_posted_date : date_value;
  d_scraped_at : date_value;
  d_id : option string
}.

Definition to_dict (j : JobPosting) : job_dict :=
  {| d_title := title j; d_company := company j; d_location := location j;
     d_description := description j;
     d_salary_min := salary_min j; d_salary_max := salary_max j;
     d_salary_currency := salary_currency j; d_job_type := job_type j;
     d_experience_level := experience_level j; d_remote := remote j;
     d_skills := skills j; d_source := source j; d_url := url j;
     d_posted_date :=
       match posted_date j with
       | Some d => DateStr (isoformat d)
       | None => DateNone
       end;
     d_scraped_at := DateStr (isoformat (scraped_at j));
     d_id := Some (id j) |}.

(** [if isinstance(v, str): v = datetime.fromisoformat(v)] *)
Definition parse_if_str (v : date_value) : Py.result date_value :=
  match v with
  | DateStr s =>
      match fromisoformat s with
      | Some d => Py.Return (DateObj d)
      | None => Py.Raise Py.ValueError
      end
  | _ => Py.Return v
  end.

(** The constructor stores whatever it is given; the embedding keeps
    the record typed, so a [scraped_at] of [None] is a [TypeError]
    here (the dataclass would store it and fail at first use). *)
Definition from_dict (data : job_dict) (uuid4 : string)
  : Py.result JobPosting :=
  Py.bind (parse_if_str (d_posted_date data)) (fun pd =>
  Py.bind (parse_if_str (d_scraped_at data)) (fun sa =>
    match sa with
    | DateObj s =>
        Py.Return (new
          {| a_title := d_title data; a_company := d_company data;
             a_location := d_location data;
             a_description := d_description data;
             a_salary_min := d_salary_min data;
             a_salary_max := d_salary_max data;
             a_salary_currency := d_salary_currency data;
             a_job_type := d_job_type data;
             a_experience_level := d_experience_level data;
             a_remote := d_remote data;
             a_skills := d_skills data; a_source := d_source data;
             a_url := d_url data;
             a_posted_date :=
               match pd with DateObj d => Some d | _ => None end;
             a_scraped_at := s |} uuid4)
    | _ => Py.Raise Py.TypeError
    end)).

End WithRuntime.

(** *** [extract_skills_from_description] *)

Definition common_skills : list string :=
  [ "python"; "javascript"; "java"; "c++"; "sql"; "aws"; "azure";
    "docker"; "kubernetes"; "react"; "node.js"; "typescript";
    "machine learning"; "deep learning"; "nlp"; "computer vision";
    "tensorflow"; "pytorch"; "pandas"; "numpy"; "scikit-learn";
    "git"; "linux"; "agile"; "scrum"; "api"; "rest"; "graphql";
    "postgresql"; "mongodb"; "redis"; "elasticsearch"; "spark";
    "airflow"; "kafka"; "ci/cd"; "jenkins"; "terraform";
    "langchain"; "llm"; "rag"; "openai"; "anthropic"; "gpt";
    "data engineering"; "data science"; "analytics"; "etl";
    "power bi"; "tableau"; "excel"; "statistics"; "a/b testing" ].

(** [list(set(l))] on strings. The language does not fix the order in
    which a set is iterated, so the order is left to the interpreter;
    what the language guarantees is stated apart. *)
Class SetIteration : Type := {
  list_of_set : list string -> list string
}.

Definition set_iteration_laws (S : SetIteration) : Prop :=
  forall l, List.NoDup (list_of_set l) /\
            forall x, In x (list_of_set l) <-> In x l.

(** [self.skills = value] *)
Definition set_skills (job : JobPosting) (value : list string) : JobPosting :=
  {| title := title job;
     company := company job;
     location := location job;
     description := description job;
     salary_min := salary_min job;
     salary_max := salary_max job;
     salary_currency := salary_currency job;
     job_type := job_type job;
     experience_level := experience_level job;
     remote := remote job;
     skills := value;
     source := source job;
     url := url job;
     posted_date := posted_date job;
     scraped_at := scraped_at job;
     id := id job |}.

(** The posting after the call and the list returned. *)
Definition extract_skills_from_description `{SI : SetIteration}
    (job : JobPosting) : JobPosting * list string :=
  let desc_lower := Py.lower (description job) in
  let found := List.filter (fun s => Py.contains s desc_lower) common_skills in
  let job' := set_skills job (list_of_set found) in
  (job', skills job').

End Models.


(** ** [src/etl/database.py] *)

Module Database.

(** *** The SQLite engine, as far as the program's statements use it *)

(** [text LIKE pattern]: [%] matches any run of characters, [_] any one
    character, everything else itself, ASCII letters without regard to
    case. *)
Fixpoint like (pattern : string) : string -> bool :=
  match pattern with
  | EmptyString =>
      fun text => match text with EmptyString => true | _ => false end
  | String c pattern' =>
      if Ascii.eqb c "%" then
        fix any_run (text : string) : bool :=
          like pattern' text ||
          match text with
          | EmptyString => false
          | String _ text' => any_run text'
          end
      else if Ascii.eqb c "_" then
        fun text =>
          match text with
          | EmptyString => false
          | String _ text' => like pattern' text'
          end
      else
        fun text =>
          match text with
          | EmptyString => false
          | String d text' =>
              Ascii.eqb (Py.lower_ascii c) (Py.lower_ascii d) &&
              like pattern' text'
          end
  end.

(** A row of table [jobs]. Column [created_at] (filled by the engine,
    dropped again by [_row_to_job]) is left out. *)
Record jobs_row : Type := {
  col_id : string;
  col_title : string;
  col_company : string;
  col_location : string;
  col_description : string;
  col_salary_min : option Q;
  col_salary_max : option Q;
  col_salary_currency : string;
  col_job_type : string;
  col_experience_level : string;
  col_remote : Z;
  col_skills : string;
  col_source : string;
  col_url : option string;
  col_posted_date : option string;
  col_scraped_at : string
}.

(** The content of the database file: table [jobs] and table
    [job_skills] (rows [(job_id, skill)] in order of their autoincrement
    key). *)
Record JobDatabase : Type := {
  jobs : list jobs_row;
  job_skills : list (string * string)
}.

Definition init_db : JobDatabase := {| jobs := []; job_skills := [] |}.

Definition has_id (db : JobDatabase) (i : string) : bool :=
  existsb (fun r => String.eqb (col_id r) i) (jobs db).

(** [INSERT OR IGNORE INTO jobs ...]: the new database and the cursor's
    [rowcount]. The primary key is the only constraint a typed row can
    violate. *)
Definition insert_or_ignore (r : jobs_row) (db : JobDatabase)
  : JobDatabase * Z :=
  if has_id db (col_id r) then (db, 0%Z)
  else ({| jobs := jobs db ++ [r]; job_skills := job_skills db |}, 1%Z).

(** [INSERT INTO job_skills (job_id, skill) VALUES (?, ?)] *)
Definition insert_skill (job_id skill : string) (db : JobDatabase)
  : JobDatabase * Z :=
  ({| jobs := jobs db; job_skills := job_skills db ++ [(job_id, skill)] |},
   1%Z).

(** The statements [insert_job] sends to the engine. An [engine_faults]
    tells which of them fail with [sqlite3.Error]. *)
Inductive statement : Type :=
| StmtInsertJob
| StmtInsertSkill (k : nat)
| StmtCommit.

Definition engine_faults : Type := statement -> bool.

Definition no_faults : engine_faults := fun _ => false.

Inductive sqlite3_Error : Type := Sqlite3Error (at_ : statement).

(** [cursor.execute(...)] inside the open transaction. *)
Definition execute (faults : engine_faults) (s : statement)
    (run : JobDatabase -> JobDatabase * Z) (db : JobDatabase)
  : sqlite3_Error + JobDatabase * Z :=
  if faults s then inl (Sqlite3Error s) else inr (run db).

(** [sqlite3.connect(self.db_path)], which [_get_connection] runs when a
    method enters its [with] statement: it raises
    [sqlite3.OperationalError], a [sqlite3.Error], when the database file
    cannot be opened. *)
Inductive sqlite3_OperationalError : Type := UnableToOpenDatabaseFile.

Definition _get_connection (openable : bool)
  : sqlite3_OperationalError + unit :=
  if openable then inr tt else inl UnableToOpenDatabaseFile.

(** What the caller of [insert_job] observes: the flag returned, or the
    exception that left the method. *)
Inductive insert_outcome : Type :=
| Returned (inserted : bool)
| Propagated (e : sqlite3_OperationalError).

Section WithRuntime.
Context `{RT : Runtime}.

(** The tuple of values bound to the [INSERT] statement. *)
Definition insert_values (job : Models.JobPosting) : jobs_row :=
  {| col_id := Models.id job;
     col_title := Models.title job;
     col_company := Models.company job;
     col_location := Models.location job;
     col_description := Models.description job;
     col_salary_min := Models.salary_min job;
     col_salary_max := Models.salary_max job;
     col_salary_currency := Models.salary_currency job;
     col_job_type := Models.job_type job;
     col_experience_level := Models.experience_level job;
     col_remote := if Models.remote job then 1%Z else 0%Z;
     col_skills := json_dumps (Models.skills job);
     col_source := Models.source job;
     col_url := Models.url job;
     col_posted_date :=
       match Models.posted_date job with
       | Some d => Some (isoformat d)
       | None => None
       end;
     col_scraped_at := isoformat (Models.scraped_at job) |}.

(** [for skill in job.skills: cursor.execute(INSERT INTO job_skills ...)],
    [k] counting the statements; the last statement sets [rowcount]. *)
Fixpoint insert_skills (faults : engine_faults) (job_id : string) (k : nat)
    (skills : list string) (db : JobDatabase) (rowcount : Z)
  : sqlite3_Error + JobDatabase * Z :=
  match skills with
  | [] => inr (db, rowcount)
  | skill :: rest =>
      match execute faults (StmtInsertSkill k)
              (insert_skill job_id (Py.lower skill)) db with
      | inl e => inl e
      | inr (db', rowcount') =>
          insert_skills faults job_id (S k) rest db' rowcount'
      end
  end.

(** The body of the [try] block of [insert_job]: the transaction's
    working state and the value of [cursor.rowcount > 0], or the
    [sqlite3.Error] raised. *)
Definition insert_job_try (faults : engine_faults) (db : JobDatabase)
    (job : Models.JobPosting) : sqlite3_Error + bool * JobDatabase :=
  match execute faults StmtInsertJob
          (insert_or_ignore (insert_values job)) db with
  | inl e => inl e
  | inr (db1, rowcount) =>
      match (if (0 <? rowcount)%Z
             then insert_skills faults (Models.id job) 0
                    (Models.skills job) db1 rowcount
             else inr (db1, rowcount)) with
      | inl e => inl e
      | inr (db2, rowcount') =>
          if faults StmtCommit then inl (Sqlite3Error StmtCommit)
          else inr ((0 <? rowcount')%Z, db2)
      end
  end.

(** [insert_job] on an open connection: the returned flag and the
    database afterwards. The [except sqlite3.Error] clause returns
    [False]; the connection is then closed with the transaction
    uncommitted, which discards it. *)
Definition insert_job (faults : engine_faults) (db : JobDatabase)
    (job : Models.JobPosting) : bool * JobDatabase :=
  match insert_job_try faults db job with
  | inr (inserted, db') => (inserted, db')
  | inl _ => (false, db)
  end.

(** [insert_job] from its first line. The [with self._get_connection()]
    statement is entered before the [try]: an error of [connect] is not
    caught and leaves the method, nothing having been written. With the
    connection open the method goes on as [insert_job] above. *)
Definition insert_job_connecting (openable : bool) (faults : engine_faults)
    (db : JobDatabase) (job : Models.JobPosting)
  : insert_outcome * JobDatabase :=
  match _get_connection openable with
  | inl e => (Propagated e, db)
  | inr _ =>
      let '(inserted, db') := insert_job faults db job in
      (Returned inserted, db')
  end.

(** [insert_many]: [(inserted, skipped)] and the database afterwards. *)
Fixpoint insert_many (faults : engine_faults) (db : JobDatabase)
    (jobs : list Models.JobPosting) : (nat * nat) * JobDatabase :=
  match jobs with
  | [] => ((0, 0), db)
  | job :: rest =>
      let '(b, db1) := insert_job faults db job in
      let '((inserted, skipped), db2) := insert_many faults db1 rest in
      if b then ((S inserted, skipped), db2)
      else ((inserted, S skipped), db2)
  end.

(** [clear_all] *)
Definition clear_all (db : JobDatabase) : JobDatabase := init_db.

(** *** Reading rows back *)

(** [_row_to_job]. The key ['id'] of the row is dropped and the
    constructor draws a new one from [uuid4]. A date cell that is falsy is
    passed on unparsed by the source; every row the program writes holds
    ISO text in [scraped_at] and ISO text or [NULL] in [posted_date], and
    the typed record cannot hold anything else. *)
Definition _row_to_job (row : jobs_row) (uuid4 : string)
  : Py.result Models.JobPosting :=
  Py.bind
    (if Py.truthy_str (col_skills row) then
       match json_loads (col_skills row) with
       | Some l => Py.Return l
       | None => Py.Raise Py.ValueError
       end
     else Py.Return []) (fun skills =>
  Py.bind
    (if Py.truthy_opt_str (col_posted_date row) then
       match fromisoformat (default EmptyString (col_posted_date row)) with
       | Some d => Py.Return (Some d)
       | None => Py.Raise Py.ValueError
       end
     else Py.Return None) (fun posted_date =>
  Py.bind
    (if Py.truthy_str (col_scraped_at row) then
       match fromisoformat (col_scraped_at row) with
       | Some d => Py.Return d
       | None => Py.Raise Py.ValueError
       end
     else Py.Raise Py.TypeError) (fun scraped_at =>
  Py.Return (Models.new
    {| Models.a_title := col_title row;
       Models.a_company := col_company row;
       Models.a_location := col_location row;
       Models.a_description := col_description row;
       Models.a_salary_min := col_salary_min row;
       Models.a_salary_max := col_salary_max row;
       Models.a_salary_currency := col_salary_currency row;
       Models.a_job_type := col_job_type row;
       Models.a_experience_level := col_experience_level row;
       Models.a_remote := negb (col_remote row =? 0)%Z;
       Models.a_skills := skills;
       Models.a_source := col_source row;
       Models.a_url := col_url row;
       Models.a_posted_date := posted_date;
       Models.a_scraped_at := scraped_at |} uuid4)))).

(** [[self._row_to_job(row) for row in rows]]: the [k]-th construction
    of the call draws [uuids k]. *)
Fixpoint rows_to_jobs (rows : list jobs_row) (uuids : nat -> string) (k : nat)
  : Py.result (list Models.JobPosting) :=
  match rows with
  | [] => Py.Return []
  | row :: rest =>
      Py.bind (_row_to_job row (uuids k)) (fun job =>
      Py.bind (rows_to_jobs rest uuids (S k)) (fun jobs =>
      Py.Return (job :: jobs)))
  end.

(** [get_job] *)
Definition get_job (db : JobDatabase) (job_id : string) (uuid4 : string)
  : Py.result (option Models.JobPosting) :=
  match List.find (fun r => String.eqb (col_id r) job_id) (jobs db) with
  | Some row => Py.bind (_row_to_job row uuid4) (fun j => Py.Return (Some j))
  | None => Py.Return None
  end.

(** *** [search_jobs] *)

(** [if v: conditions.append(...)] for a text filter: the condition is
    part of the query when the argument is a non-empty string. *)
Definition when_text (v : option string) (cond : string -> bool) : bool :=
  match v with
  | Some s => if Py.truthy_str s then cond s else true
  | None => true
  end.

(** The [WHERE] clause assembled by [search_jobs], evaluated on one row.
    A comparison with [NULL] is not true. *)
Definition where_clause (query company location experience_level : option string)
    (remote_only : bool) (min_salary : option Q) (r : jobs_row) : bool :=
  when_text query (fun q =>
    let search := "%" ++ q ++ "%" in
    like search (col_title r) || like search (col_description r) ||
    like search (col_company r)) &&
  when_text company (fun c => like ("%" ++ c ++ "%") (col_company r)) &&
  when_text location (fun l => like ("%" ++ l ++ "%") (col_location r)) &&
  when_text experience_level (fun e => String.eqb (col_experience_level r) e) &&
  (if remote_only then (col_remote r =? 1)%Z else true) &&
  (if Py.truthy_opt_num min_salary then
     match col_salary_min r, min_salary with
     | Some s, Some m => Qle_bool m s
     | _, _ => false
     end
   else true).

(** [ORDER BY scraped_at DESC]: text comparison; rows with equal keys
    keep their table order. *)
Fixpoint insert_desc (r : jobs_row) (sorted : list jobs_row) : list jobs_row :=
  match sorted with
  | [] => [r]
  | x :: rest =>
      if String.leb (col_scraped_at x) (col_scraped_at r) then r :: sorted
      else x :: insert_desc r rest
  end.

Definition order_by_scraped_at_desc (rows : list jobs_row) : list jobs_row :=
  foldr insert_desc [] rows.

(** [LIMIT n]: a negative [n] means no upper bound. *)
Definition sql_limit {A : Type} (n : Z) (rows : list A) : list A :=
  if (n <? 0)%Z then rows else take (Z.to_nat n) rows.

(** The limit is written into the text of the query. The engine holds
    integers in 64 bits and reads a longer literal as a floating-point
    number, which [LIMIT] refuses: the statement fails with
    [sqlite3.IntegrityError] (datatype mismatch). *)
Definition fits_int64 (n : Z) : bool :=
  (- 2 ^ 63 <=? n)%Z && (n <? 2 ^ 63)%Z.

(** The post-filter on skills: it runs when [skills] is a non-empty
    list. *)
Definition has_any_skill (skills_lower : list string) (job : Models.JobPosting)
  : bool :=
  existsb (fun s => Py.mem s (map Py.lower (Models.skills job))) skills_lower.

Definition search_jobs (db : JobDatabase)
    (query company location : option string) (skills : option (list string))
    (experience_level : option string) (remote_only : bool)
    (min_salary : option Q) (limit : Z) (uuids : nat -> string)
  : Py.result (list Models.JobPosting) :=
  if negb (fits_int64 limit) then Py.Raise Py.IntegrityError
  else
  let rows :=
    sql_limit limit
      (order_by_scraped_at_desc
         (List.filter
            (where_clause query company location experience_level
               remote_only min_salary) (jobs db))) in
  Py.bind (rows_to_jobs rows uuids 0) (fun jobs =>
  match skills with
  | Some (s :: ss) =>
      let skills_lower := map Py.lower (s :: ss) in
      Py.Return (List.filter (has_any_skill skills_lower) jobs)
  | _ => Py.Return jobs
  end).

(** [get_all_jobs] *)
Definition get_all_jobs (db : JobDatabase) (limit : Z) (uuids : nat -> string)
  : Py.result (list Models.JobPosting) :=
  search_jobs db None None None None None false None limit uuids.

End WithRuntime.

(** *** [get_stats] *)

(** Aggregates over a set of rows: [SUM] and [AVG] are [NULL] when no
    (non-[NULL]) value enters them. *)
Definition sql_sum (l : list Z) : option Z :=
  match l with
  | [] => None
  | _ => Some (foldr Z.add 0%Z l)
  end.

Definition sql_avg (l : list Q) : option Q :=
  match l with
  | [] => None
  | _ => Some (foldr Qplus 0%Q l / inject_Z (Z.of_nat (length l)))%Q
  end.

(** The entries of the dictionary returned by [get_stats] that the
    analytics below read. The grouped counts ([by_experience],
    [top_companies], [top_skills]) come from queries that always succeed
    and are not represented. *)
Record stats : Type := {
  total_jobs : Z;
  remote_distribution : option Z * option Z;
  salary_by_experience : list (string * (Q * Q))
}.

(** One group of the salary query, turned into a dictionary entry:
    [round(None, 0)] raises [TypeError]. *)
Definition salary_entry (rows : list jobs_row) (level : string)
  : Py.result (string * (Q * Q)) :=
  let group :=
    List.filter (fun r => String.eqb (col_experience_level r) level) rows in
  match sql_avg (omap col_salary_min group),
        sql_avg (omap col_salary_max group) with
  | Some avg_min, Some avg_max =>
      Py.Return (level, (Py.round_ndigits 0 avg_min, Py.round_ndigits 0 avg_max))
  | _, _ => Py.Raise Py.TypeError
  end.

Fixpoint salary_entries (rows : list jobs_row) (levels : list string)
  : Py.result (list (string * (Q * Q))) :=
  match levels with
  | [] => Py.Return []
  | level :: rest =>
      Py.bind (salary_entry rows level) (fun e =>
      Py.bind (salary_entries rows rest) (fun es =>
      Py.Return (e :: es)))
  end.

Definition get_stats (db : JobDatabase) : Py.result stats :=
  let remote :=
    sql_sum (map (fun r => if (col_remote r =? 1)%Z then 1%Z else 0%Z)
               (jobs db)) in
  let onsite :=
    sql_sum (map (fun r => if (col_remote r =? 0)%Z then 1%Z else 0%Z)
               (jobs db)) in
  let with_salary :=
    List.filter (fun r => bool_decide (is_Some (col_salary_min r))) (jobs db) in
  Py.bind
    (salary_entries with_salary
       (remove_dups (map col_experience_level with_salary))) (fun by_level =>
  Py.Return
    {| total_jobs := Z.of_nat (length (jobs db));
       remote_distribution := (remote, onsite);
       salary_by_experience := by_level |}).

(** *** The grouped counts of [get_stats]

    [SELECT key, COUNT( * ) ... GROUP BY key ORDER BY count DESC LIMIT n],
    read into a dictionary. The engine leaves the order of groups with
    equal counts open; here they keep the order of first occurrence. *)
Definition by_experience (db : JobDatabase) : list (string * nat) :=
  Py.sorted_by_count (Py.tally col_experience_level (jobs db)).

Definition top_companies (db : JobDatabase) : list (string * nat) :=
  take 10 (Py.sorted_by_count (Py.tally col_company (jobs db))).

Definition top_skills (db : JobDatabase) : list (string * nat) :=
  take 20 (Py.sorted_by_count (Py.tally snd (job_skills db))).

End Database.

(** ** [src/rag/vector_store.py] *)

Module VectorStore.

(** The metadata bag of an indexed document. [add_jobs] writes every
    key; [search] reads [salary_min] with a default, so that key may be
    absent from a bag handed back by the index. *)
Record metadata : Type := {
  m_company : string;
  m_location : string;
  m_experience_level : string;
  m_remote : string;
  m_salary_min : option Q;
  m_salary_max : option Q;
  m_skills : string;
  m_source : string
}.

Record entry : Type := {
  e_id : string;
  e_document : string;
  e_metadata : metadata
}.

(** The content of the Chroma collection [job_postings]. *)
Definition collection : Type := list entry.

(** [collection.get()['ids']] *)
Definition collection_ids (c : collection) : list string := map e_id c.

(** [collection.add(documents, metadatas, ids)]. [add_jobs] calls it only
    with ids that are pairwise distinct and absent from the collection,
    where Chroma stores every entry. *)
Definition collection_add (c : collection) (batch : list entry) : collection :=
  (c ++ batch)%list.

(** The filter language of the index, as far as [search] uses it: one
    equality [{key: {"$eq": value}}], or [{"$and": [...]}] around
    several. *)
Inductive condition : Type :=
| WhereEq (key value : string).

Inductive where_doc : Type :=
| WhereOne (cond : condition)
| WhereAnd (conditions : list condition).

(** One candidate returned by a query: the parallel lists [ids],
    [documents], [metadatas], [distances] read at one position. *)
Record hit : Type := {
  h_id : string;
  h_document : string;
  h_metadata : metadata;
  h_distance : Q
}.

(** The embedding and nearest-neighbour search of the external index:
    [collection.query(query_texts=[q], n_results=n, where=w, include=...)]. *)
Class AnnIndex : Type := {
  collection_query :
    collection -> string -> Z -> option where_doc -> Py.result (list hit)
}.

Record search_result : Type := {
  document : string;
  result_metadata : metadata;
  similarity_score : Q;
  result_id : string
}.

Definition newline : string := String (ascii_of_nat 10) EmptyString.

(** [a or 0] on an optional number. *)
Definition or_zero (a : option Q) : Q :=
  match a with
  | Some q => if Py.truthy_num q then q else 0%Q
  | None => 0%Q
  end.

Section WithRuntime.
Context `{RT : Runtime}.

(** [_job_to_document] *)
Definition _job_to_document (job : Models.JobPosting) : string :=
  let head :=
    [ "Job Title: " ++ Models.title job;
      "Company: " ++ Models.company job;
      "Location: " ++ Models.location job;
      "Experience Level: " ++ Models.experience_level job ] in
  let tail :=
    [ "Remote: " ++ (if Models.remote job then "Yes" else "No");
      "Skills: " ++ String.concat ", " (Models.skills job);
      "Description: " ++ Models.description job ] in
  let salary :=
    if Py.truthy_opt_num (Models.salary_min job) &&
       Py.truthy_opt_num (Models.salary_max job)
    then [ "Salary: $" ++ format_thousands (or_zero (Models.salary_min job)) ++
           " - $" ++ format_thousands (or_zero (Models.salary_max job)) ]
    else [] in
  String.concat newline (head ++ salary ++ tail)%list.

Definition job_metadata (job : Models.JobPosting) : metadata :=
  {| m_company := Models.company job;
     m_location := Models.location job;
     m_experience_level := Models.experience_level job;
     m_remote := if Models.remote job then "True" else "False";
     m_salary_min := Some (or_zero (Models.salary_min job));
     m_salary_max := Some (or_zero (Models.salary_max job));
     m_skills := String.concat ", " (take 10 (Models.skills job));
     m_source := Models.source job |}.

Definition job_entry (job : Models.JobPosting) : entry :=
  {| e_id := Models.id job;
     e_document := _job_to_document job;
     e_metadata := job_metadata job |}.

(** The inner loop of [add_jobs] over one batch: the ids seen so far, the
    entries prepared for this batch and the number of skipped records. *)
Fixpoint prepare_batch (existing_ids : gset string) (batch : list Models.JobPosting)
    (seen_ids : gset string) (pending : list entry) (skipped : nat)
  : gset string * list entry * nat :=
  match batch with
  | [] => (seen_ids, pending, skipped)
  | job :: rest =>
      if bool_decide (Models.id job ∈ existing_ids) ||
         bool_decide (Models.id job ∈ seen_ids)
      then prepare_batch existing_ids rest seen_ids pending (S skipped)
      else prepare_batch existing_ids rest ({[Models.id job]} ∪ seen_ids)
             (pending ++ [job_entry job])%list skipped
  end.

(** The state carried by the outer loop of [add_jobs]. *)
Record add_state : Type := {
  st_collection : collection;
  st_seen_ids : gset string;
  st_added : nat;
  st_skipped : nat
}.

(** One iteration of [for i in range(0, total, batch_size)]. *)
Definition add_batch (existing_ids : gset string) (jobs : list Models.JobPosting)
    (batch_size : nat) (st : add_state) (i : nat) : add_state :=
  let batch := Py.slice i (i + batch_size) jobs in
  let '(seen_ids, pending, skipped) :=
    prepare_batch existing_ids batch (st_seen_ids st) [] (st_skipped st) in
  match pending with
  | [] =>
      {| st_collection := st_collection st; st_seen_ids := seen_ids;
         st_added := st_added st; st_skipped := skipped |}
  | _ =>
      {| st_collection := collection_add (st_collection st) pending;
         st_seen_ids := seen_ids;
         st_added := st_added st + length pending;
         st_skipped := skipped |}
  end.

(** [range(0, total, step)] for a positive [step]. *)
Definition range_step (total step : nat) : list nat :=
  map (fun k => k * step) (seq 0 ((total + step - 1) / step)).

(** [add_jobs]: [(added, skipped)] and the collection afterwards.
    A [batch_size] of zero makes [range] raise [ValueError]; a negative
    one makes the range empty. *)
Definition add_jobs (c : collection) (jobs : list Models.JobPosting)
    (batch_size : Z) : Py.result ((nat * nat) * collection) :=
  let total := length jobs in
  let existing_ids : gset string := list_to_set (collection_ids c) in
  let start :=
    {| st_collection := c; st_seen_ids := ∅; st_added := 0; st_skipped := 0 |} in
  if (batch_size =? 0)%Z then Py.Raise Py.ValueError
  else
    let starts :=
      if (batch_size <? 0)%Z then []
      else range_step total (Z.to_nat batch_size) in
    let final :=
      fold_left (add_batch existing_ids jobs (Z.to_nat batch_size)) starts start in
    Py.Return ((st_added final, st_skipped final), st_collection final).

End WithRuntime.

Section WithIndex.
Context `{IX : AnnIndex}.

(** The [where] argument built by [search]. *)
Definition where_conditions (experience_level : option string)
    (remote_only : bool) : option where_doc :=
  let filters :=
    ((match experience_level with
      | Some e =>
          if Py.truthy_str e then [WhereEq "experience_level" e] else []
      | None => []
      end) ++
     (if remote_only then [WhereEq "remote" "True"] else []))%list in
  match filters with
  | [] => None
  | [f] => Some (WhereOne f)
  | _ => Some (WhereAnd filters)
  end.

(** [min_salary and metadata.get('salary_min', 0) < min_salary] *)
Definition below_floor (min_salary : option Q) (m : metadata) : bool :=
  match min_salary with
  | Some floor =>
      Py.truthy_num floor && Py.Qltb (default 0%Q (m_salary_min m)) floor
  | None => false
  end.

Definition to_result (h : hit) : search_result :=
  {| document := h_document h;
     result_metadata := h_metadata h;
     similarity_score := Py.round_ndigits 3 (Py.max0 (1 - h_distance h));
     result_id := h_id h |}.

(** The loop of [search] over the candidates. *)
Fixpoint process_results (min_salary : option Q) (hits : list hit)
  : list search_result :=
  match hits with
  | [] => []
  | h :: rest =>
      if below_floor min_salary (h_metadata h)
      then process_results min_salary rest
      else to_result h :: process_results min_salary rest
  end.

Definition search (c : collection) (query : string) (n_results : Z)
    (experience_level : option string) (remote_only : bool)
    (min_salary : option Q) : Py.result (list search_result) :=
  Py.bind
    (collection_query c query (n_results * 2)
       (where_conditions experience_level remote_only)) (fun results =>
  Py.Return (Py.slice_to n_results (process_results min_salary results))).

End WithIndex.

(** *** The remaining operations of the vector store *)

(** [collection.get(ids=[job_id], include=["documents"])['documents']] *)
Definition collection_get_documents (c : collection) (job_id : string)
  : list string :=
  map e_document (List.filter (fun e => String.eqb (e_id e) job_id) c).

(** The dictionary returned by [get_collection_stats]. *)
Record collection_stats : Type := {
  total_documents : nat;
  experience_levels : list (string * nat);
  remote_count : nat;
  top_companies : list (string * nat)
}.

Definition get_collection_stats (c : collection) : collection_stats :=
  {| total_documents := length c;
     experience_levels :=
       Py.tally (fun e => m_experience_level (e_metadata e)) c;
     remote_count :=
       length (List.filter
                 (fun e => String.eqb (m_remote (e_metadata e)) "True") c);
     top_companies :=
       take 10 (Py.sorted_by_count
                  (Py.tally (fun e => m_company (e_metadata e)) c)) |}.

(** [clear]: the collection is dropped and created anew. *)
Definition clear (c : collection) : collection := [].

Section MoreSearch.
Context `{IX : AnnIndex}.

(** [search_by_skills] *)
Definition search_by_skills (c : collection) (skills : list string)
    (n_results : Z) : Py.result (list search_result) :=
  search c ("Jobs requiring skills: " ++ String.concat ", " skills) n_results
    None false None.

(** [find_similar_jobs]: [search(...)[1:]] on the stored document of the
    posting. *)
Definition find_similar_jobs (c : collection) (job_id : string) (n_results : Z)
  : Py.result (list search_result) :=
  match collection_get_documents c job_id with
  | [] => Py.Return []
  | doc :: _ =>
      Py.bind (search c doc (n_results + 1) None false None) (fun results =>
      Py.Return (drop 1 results))
  end.

End MoreSearch.

End VectorStore.

(** ** [src/analytics/analyzer.py] *)

Module Analyzer.

(** *** The data frame *)

(** A float as pandas and Python compute with it, and a cell of a salary
    column. *)
Inductive pyfloat : Type :=
| NaN
| Num (q : Q).

Inductive cell : Type :=
| PyNone
| Float (x : pyfloat).

(** One row of the frame built by [get_jobs_dataframe]. *)
Record frame_row : Type := {
  f_id : string;
  f_title : string;
  f_company : string;
  f_location : string;
  f_salary_min : cell;
  f_salary_max : cell;
  f_experience_level : string;
  f_remote : bool;
  f_skills : list string;
  f_posted_date : option datetime;
  f_source : string
}.

Definition is_none (o : option Q) : bool :=
  match o with
  | None => true
  | Some _ => false
  end.

(** The cell pandas stores for one value of a salary column. A column
    in which some value is a number becomes a float column and its
    [None] values become NaN; a column of [None] only keeps them. *)
Definition column_cell (all_none : bool) (v : option Q) : cell :=
  match v with
  | Some q => Float (Num q)
  | None => if all_none then PyNone else Float NaN
  end.

Definition frame_of_jobs (jobs : list Models.JobPosting) : list frame_row :=
  let min_all_none := forallb (fun j => is_none (Models.salary_min j)) jobs in
  let max_all_none := forallb (fun j => is_none (Models.salary_max j)) jobs in
  map (fun job =>
    {| f_id := Models.id job;
       f_title := Models.title job;
       f_company := Models.company job;
       f_location := Models.location job;
       f_salary_min := column_cell min_all_none (Models.salary_min job);
       f_salary_max := column_cell max_all_none (Models.salary_max job);
       f_experience_level := Models.experience_level job;
       f_remote := Models.remote job;
       f_skills := Models.skills job;
       f_posted_date := Models.posted_date job;
       f_source := Models.source job |}) jobs.

(** Truth value of a cell: [None] and zero are false, NaN is true. *)
Definition cell_truthy (c : cell) : bool :=
  match c with
  | PyNone => false
  | Float NaN => true
  | Float (Num q) => Py.truthy_num q
  end.

Definition fadd (a b : pyfloat) : pyfloat :=
  match a, b with
  | Num x, Num y => Num (x + y)
  | _, _ => NaN
  end.

Definition fdiv (a : pyfloat) (d : Q) : pyfloat :=
  match a with
  | Num x => Num (x / d)
  | NaN => NaN
  end.

(** [a < b] on floats: false as soon as one side is NaN. *)
Definition flt (a b : pyfloat) : bool :=
  match a, b with
  | Num x, Num y => Py.Qltb x y
  | _, _ => false
  end.

(** [round(x, 0)] *)
Definition fround0 (a : pyfloat) : pyfloat :=
  match a with
  | Num x => Num (Py.round_ndigits 0 x)
  | NaN => NaN
  end.

(** [a + b] on cells: [None] is not a number. *)
Definition cell_add (a b : cell) : Py.result pyfloat :=
  match a, b with
  | Float x, Float y => Py.Return (fadd x y)
  | _, _ => Py.Raise Py.TypeError
  end.

(** *** [get_skill_salary_correlation] *)

(** [skill_salaries[skill].append(v)] on a dictionary kept in insertion
    order. *)
Fixpoint dict_append (skill : string) (v : pyfloat)
    (d : list (string * list pyfloat)) : list (string * list pyfloat) :=
  match d with
  | [] => [(skill, [v])]
  | (k, vs) :: rest =>
      if String.eqb k skill then (k, (vs ++ [v])%list) :: rest
      else (k, vs) :: dict_append skill v rest
  end.

(** The loop over the rows of the frame. *)
Fixpoint accumulate (rows : list frame_row) (skill_salaries : list (string * list pyfloat))
  : Py.result (list (string * list pyfloat)) :=
  match rows with
  | [] => Py.Return skill_salaries
  | row :: rest =>
      match f_skills row with
      | _ :: _ =>
          if cell_truthy (f_salary_max row) then
            Py.bind (cell_add (f_salary_min row) (f_salary_max row)) (fun s =>
              let avg_salary := fdiv s 2 in
              accumulate rest
                (fold_left (fun d skill => dict_append skill avg_salary d)
                   (f_skills row) skill_salaries))
          else accumulate rest skill_salaries
      | [] => accumulate rest skill_salaries
      end
  end.

(** [sum(salaries) / len(salaries)] *)
Definition mean (salaries : list pyfloat) : pyfloat :=
  fdiv (fold_left fadd salaries (Num 0)) (inject_Z (Z.of_nat (length salaries))).

(** The comprehension keeping the skills with at least five entries. *)
Definition skill_avg_salary (skill_salaries : list (string * list pyfloat))
  : list (string * pyfloat) :=
  map (fun kv => (fst kv, fround0 (mean (snd kv))))
    (List.filter (fun kv => (5 <=? length (snd kv))%nat) skill_salaries).

(** [sorted(items, key=lambda x: x[1], reverse=True)]: a stable sort by
    descending value. On values without NaN every stable sort returns
    this list; with NaN among the values the order Python returns depends
    on the steps of its sorting algorithm and is not represented. *)
Fixpoint insert_by_value (x : string * pyfloat) (sorted : list (string * pyfloat))
  : list (string * pyfloat) :=
  match sorted with
  | [] => [x]
  | y :: rest =>
      if flt (snd x) (snd y) then y :: insert_by_value x rest
      else x :: sorted
  end.

Definition sorted_desc (items : list (string * pyfloat)) : list (string * pyfloat) :=
  foldr insert_by_value [] items.

Definition skill_salary_correlation_of_frame (df : list frame_row)
  : Py.result (list (string * pyfloat)) :=
  Py.bind (accumulate df []) (fun skill_salaries =>
  Py.Return (take 15 (sorted_desc (skill_avg_salary skill_salaries)))).

(** *** [get_base_role], the classifier inside [get_salary_by_role] *)

Definition get_base_role (title : string) : string :=
  let title_lower := Py.lower title in
  if Py.contains "data engineer" title_lower then "Data Engineer"
  else if Py.contains "machine learning" title_lower ||
          Py.contains "ml engineer" title_lower then "ML Engineer"
  else if Py.contains "ai engineer" title_lower then "AI Engineer"
  else if Py.contains "data scientist" title_lower then "Data Scientist"
  else if Py.contains "backend" title_lower then "Backend Engineer"
  else if Py.contains "full stack" title_lower ||
          Py.contains "fullstack" title_lower then "Full Stack Engineer"
  else if Py.contains "devops" title_lower ||
          Py.contains "sre" title_lower then "DevOps Engineer"
  else if Py.contains "analytics" title_lower then "Analytics Engineer"
  else "Other".

(** The rule table of the classifier as the specification words it: an
    ordered list of (keywords, role), the first rule with a keyword
    occurring in the lower-cased title wins, ["Other"] when none does. *)
Definition role_rules : list (list string * string) :=
  [ (["data engineer"], "Data Engineer");
    (["machine learning"; "ml engineer"], "ML Engineer");
    (["ai engineer"], "AI Engineer");
    (["data scientist"], "Data Scientist");
    (["backend"], "Backend Engineer");
    (["full stack"; "fullstack"], "Full Stack Engineer");
    (["devops"; "sre"], "DevOps Engineer");
    (["analytics"], "Analytics Engineer") ].

Definition rule_matches (title_lower : string) (rule : list string * string) : bool :=
  existsb (fun kw => Py.contains kw title_lower) (fst rule).

Definition first_matching_role (rules : list (list string * string))
    (title : string) : string :=
  match List.find (rule_matches (Py.lower title)) rules with
  | Some rule => snd rule
  | None => "Other"
  end.

(** *** [get_remote_stats] *)

Record remote_stats : Type := {
  remote_count : Z;
  onsite_count : Z;
  remote_percentage : Q;
  onsite_percentage : Q
}.

(** [total = remote + onsite] on the two sums read from the statistics:
    a sum that is [None] makes the addition raise [TypeError]. Returns the
    two counts with their total. *)
Definition add_counts (remote onsite : option Z) : Py.result (Z * Z * Z) :=
  match remote, onsite with
  | Some r, Some o => Py.Return (r, o, (r + o)%Z)
  | _, _ => Py.Raise Py.TypeError
  end.

(** [round(part / total * 100, 1) if total > 0 else 0], on exact
    rationals: the interpreter computes in binary floating point, whose
    result can differ from this one in the last digit. *)
Definition percentage (part total : Z) : Q :=
  if (0 <? total)%Z
  then Py.round_ndigits 1 (inject_Z part / inject_Z total * 100)
  else 0%Q.

Definition get_remote_stats (db : Database.JobDatabase) : Py.result remote_stats :=
  Py.bind (Database.get_stats db) (fun stats =>
  let '(remote_dist_remote, remote_dist_on_site) :=
    Database.remote_distribution stats in
  Py.bind (add_counts remote_dist_remote remote_dist_on_site)
    (fun '(remote, onsite, total) =>
  Py.Return
    {| remote_count := remote;
       onsite_count := onsite;
       remote_percentage := percentage remote total;
       onsite_percentage := percentage onsite total |})).

Section WithRuntime.
Context `{RT : Runtime}.

(** [get_jobs_dataframe] *)
Definition get_jobs_dataframe (db : Database.JobDatabase) (uuids : nat -> string)
  : Py.result (list frame_row) :=
  Py.bind (Database.get_all_jobs db 10000 uuids) (fun jobs =>
  Py.Return (frame_of_jobs jobs)).

Definition get_skill_salary_correlation (db : Database.JobDatabase)
    (uuids : nat -> string) : Py.result (list (string * pyfloat)) :=
  Py.bind (get_jobs_dataframe db uuids) skill_salary_correlation_of_frame.

End WithRuntime.

(** *** The accessors built on [get_stats] *)

(** [get_skill_demand]: the first [top_n] entries of the skill counts.
    The call runs [get_stats] in full, so an error there is an error
    here. *)
Definition get_skill_demand (db : Database.JobDatabase) (top_n : Z)
  : Py.result (list (string * nat)) :=
  Py.bind (Database.get_stats db) (fun _ =>
  Py.Return (Py.slice_to top_n (Database.top_skills db))).

(** [get_top_companies] *)
Definition get_top_companies (db : Database.JobDatabase) (top_n : Z)
  : Py.result (list (string * nat)) :=
  Py.bind (Database.get_stats db) (fun _ =>
  Py.Return (Py.slice_to top_n (Database.top_companies db))).

(** [get_experience_distribution] *)
Definition get_experience_distribution (db : Database.JobDatabase)
  : Py.result (list (string * nat)) :=
  Py.bind (Database.get_stats db) (fun _ =>
  Py.Return (Database.by_experience db)).

(** [get_salary_by_experience] *)
Definition get_salary_by_experience (db : Database.JobDatabase)
  : Py.result (list (string * (Q * Q))) :=
  Py.bind (Database.get_stats db) (fun stats =>
  Py.Return (Database.salary_by_experience stats)).

(** *** [simplify_location], the function applied to the location
    column inside [get_location_distribution] *)

Definition simplify_location (loc : option string) : string :=
  match loc with
  | None => "Unknown"
  | Some loc =>
      if negb (Py.truthy_str loc) then "Unknown"
      else
        let loc_lower := Py.lower loc in
        if Py.contains "remote" loc_lower then "Remote"
        else if Py.contains "san francisco" loc_lower ||
                Py.contains "sf" loc_lower then "San Francisco"
        else if Py.contains "new york" loc_lower ||
                Py.contains "nyc" loc_lower then "New York"
        else if Py.contains "seattle" loc_lower then "Seattle"
        else if Py.contains "austin" loc_lower then "Austin"
        else if Py.contains "los angeles" loc_lower ||
                Py.contains "la" loc_lower then "Los Angeles"
        else Py.before_comma loc
  end.

End Analyzer.

(** ** The collectors of real postings ([real_collectors.py]) *)

Module RealCollectors.

(** [any(x in text for x in keywords)] *)
Definition any_in (keywords : list string) (text : string) : bool :=
  existsb (fun x => Py.contains x text) keywords.

Module RemotiveCollector.

Definition _guess_experience_level (title : string) : string :=
  let title_lower := Py.lower title in
  if any_in ["senior"; "sr."; "sr "; "lead"; "principal"; "staff"] title_lower
  then
    if Py.contains "principal" title_lower || Py.contains "staff" title_lower
    then "Principal"
    else if Py.contains "lead" title_lower then "Lead"
    else "Senior"
  else if any_in ["junior"; "jr."; "jr "; "entry"; "associate"; "intern"]
            title_lower
  then "Entry"
  else "Mid".

End RemotiveCollector.

Module ArbeitnowCollector.

Definition _guess_experience_level (title : string) : string :=
  let title_lower := Py.lower title in
  if any_in ["senior"; "sr."; "lead"; "principal"; "staff"] title_lower
  then
    if Py.contains "principal" title_lower || Py.contains "staff" title_lower
    then "Principal"
    else if Py.contains "lead" title_lower then "Lead"
    else "Senior"
  else if any_in ["junior"; "jr."; "entry"; "intern"] title_lower
  then "Entry"
  else "Mid".

End ArbeitnowCollector.

End RealCollectors.

(** ** Loading both stores ([refresh_data.py]) *)

Module Refresh.

Section WithRuntime.
Context `{RT : Runtime}.

(** [refresh_with_sample_data], from the list [jobs] that the collection
    manager returned, on an engine without storage errors: the counts it
    prints as new in the database and in the vector store, and the two
    stores afterwards. *)
Definition refresh_with_sample_data (jobs : list Models.JobPosting)
    (clear_first : bool) (db : Database.JobDatabase)
    (vs : VectorStore.collection)
  : Py.result ((nat * nat) * (Database.JobDatabase * VectorStore.collection)) :=
  let db0 := if clear_first then Database.clear_all db else db in
  let vs0 := if clear_first then VectorStore.clear vs else vs in
  let '((inserted, skipped), db1) :=
    Database.insert_many Database.no_faults db0 jobs in
  Py.bind (VectorStore.add_jobs vs0 jobs 100) (fun '((added, _), vs1) =>
  Py.Return ((inserted, added), (db1, vs1))).

End WithRuntime.

End Refresh.

(** ** A small runtime for closed examples

    MD5 is replaced by writing the text back to front (so that the
    random part comes first), ISO-8601 text is produced for the
    two timestamps the examples use, and JSON text is read back by
    looking it up among the skill lists of the examples. *)

Module Demo.

Definition t2024 : datetime :=
  {| year := 2024; month := 1; day := 1;
     hour := 0; minute := 0; second := 0; microsecond := 0 |}.

Definition t2025 : datetime :=
  {| year := 2025; month := 1; day := 1;
     hour := 0; minute := 0; second := 0; microsecond := 0 |}.

Definition demo_isoformat (d : datetime) : string :=
  if (year d =? 2024)%Z then "2024-01-01T00:00:00" else "2025-01-01T00:00:00".

Definition demo_fromisoformat (s : string) : option datetime :=
  if String.eqb s "2024-01-01T00:00:00" then Some t2024
  else if String.eqb s "2025-01-01T00:00:00" then Some t2025
  else None.

Definition demo_json_dumps (l : list string) : string :=
  "[" ++ String.concat ", " l ++ "]".

Definition demo_skill_lists : list (list string) :=
  [ []; ["python"]; ["Python"; "SQL"]; ["java"]; ["python"; "aws"] ].

Definition demo_json_loads (s : string) : option (list string) :=
  List.find (fun l => String.eqb (demo_json_dumps l) s) demo_skill_lists.

#[export] Instance runtime : Runtime :=
  {| md5_hexdigest := String.rev;
     isoformat := demo_isoformat;
     fromisoformat := demo_fromisoformat;
     json_dumps := demo_json_dumps;
     json_loads := demo_json_loads;
     format_thousands := fun q => "0" |}.

(** A posting built by the constructor from the fields that vary in the
    examples. *)
Definition posting_at (scraped_at : datetime) (title company : string)
    (salary : option Q * option Q) (remote : bool) (skills : list string)
    (uuid4 : string) : Models.JobPosting :=
  Models.new
    {| Models.a_title := title; Models.a_company := company;
       Models.a_location := "Remote"; Models.a_description := "d";
       Models.a_salary_min := fst salary; Models.a_salary_max := snd salary;
       Models.a_salary_currency := "USD"; Models.a_job_type := "Full-time";
       Models.a_experience_level := "Mid"; Models.a_remote := remote;
       Models.a_skills := skills; Models.a_source := "sample";
       Models.a_url := None; Models.a_posted_date := None;
       Models.a_scraped_at := scraped_at |} uuid4.

Definition posting : string -> string -> option Q * option Q -> bool ->
                     list string -> string -> Models.JobPosting :=
  posting_at t2024.

(** The database after inserting the given postings into an empty one. *)
Definition db_of (jobs : list Models.JobPosting) : Database.JobDatabase :=
  snd (Database.insert_many Database.no_faults Database.init_db jobs).

Definition uuids (k : nat) : string :=
  String (ascii_of_nat (97 + k)) "-read".

(** An engine on which [conn.commit()] fails, and one on which the second
    skill row cannot be written. *)
Definition commit_fails : Database.engine_faults :=
  fun s => match s with Database.StmtCommit => true | _ => false end.

Definition second_skill_fails : Database.engine_faults :=
  fun s => match s with Database.StmtInsertSkill 1 => true | _ => false end.

Definition analyst : Models.JobPosting :=
  posting "Data Analyst" "Acme" (Some 90000%Q, Some 110000%Q) true
    ["Python"; "SQL"] "0c5f".

Definition engineer : Models.JobPosting :=
  posting "Data Engineer" "Initech" (Some 150000%Q, Some 190000%Q) false
    ["python"; "aws"] "77aa".

Definition intern : Models.JobPosting :=
  posting "Intern" "Initech" (None, None) false ["java"] "9d01".

(** A stand-in for the external index: it returns the stored entries
    that satisfy the filter, in stored order and at most [n] of them, each
    at a distance read off the length of its document; like Chroma it
    rejects a request for no or a negative number of results. *)
Definition meta_lookup (m : VectorStore.metadata) (key : string) : option string :=
  if String.eqb key "experience_level" then Some (VectorStore.m_experience_level m)
  else if String.eqb key "remote" then Some (VectorStore.m_remote m)
  else None.

Definition holds (m : VectorStore.metadata) (c : VectorStore.condition) : bool :=
  match c with
  | VectorStore.WhereEq key value =>
      match meta_lookup m key with
      | Some v => String.eqb v value
      | None => false
      end
  end.

Definition satisfies (w : option VectorStore.where_doc) (m : VectorStore.metadata)
  : bool :=
  match w with
  | None => true
  | Some (VectorStore.WhereOne c) => holds m c
  | Some (VectorStore.WhereAnd cs) => forallb (holds m) cs
  end.

Definition demo_distance (query : string) (e : VectorStore.entry) : Q :=
  inject_Z (Z.of_nat (String.length (VectorStore.e_document e))) / 128.

Definition demo_query (c : VectorStore.collection) (query : string) (n : Z)
    (w : option VectorStore.where_doc) : Py.result (list VectorStore.hit) :=
  if (n <=? 0)%Z then Py.Raise Py.TypeError
  else
    Py.Return
      (take (Z.to_nat n)
         (map (fun e =>
                 {| VectorStore.h_id := VectorStore.e_id e;
                    VectorStore.h_document := VectorStore.e_document e;
                    VectorStore.h_metadata := VectorStore.e_metadata e;
                    VectorStore.h_distance := demo_distance query e |})
            (List.filter (fun e => satisfies w (VectorStore.e_metadata e)) c))).

#[export] Instance index : VectorStore.AnnIndex :=
  {| VectorStore.collection_query := demo_query |}.

(** A store with the three postings, and one in which a posting without
    SQL was scraped after the analyst. *)
Definition store : Database.JobDatabase := db_of [analyst; engineer; intern].

Definition newcomer : Models.JobPosting :=
  posting_at t2025 "Java Developer" "Globex" (None, None) true ["java"] "e1e1".

Definition store_with_newcomer : Database.JobDatabase :=
  db_of [analyst; newcomer].

(** A store with five postings that list the skill [python]; four of
    them state a salary range, the fifth states none. *)
Definition python_job (title uuid4 : string) (salary : option Q * option Q)
  : Models.JobPosting :=
  posting title "Acme" salary true ["python"] uuid4.

Definition salary_store : Database.JobDatabase :=
  db_of [ python_job "Backend Developer" "a001" (Some 100000%Q, Some 120000%Q);
          python_job "Data Engineer" "a002" (Some 110000%Q, Some 130000%Q);
          python_job "ML Engineer" "a003" (Some 120000%Q, Some 140000%Q);
          python_job "Data Scientist" "a004" (Some 130000%Q, Some 150000%Q);
          python_job "Python Tutor" "a005" (None, None) ].

(** The collection after indexing the three postings, and the four
    candidates the index is asked for by a search for two results. *)
Definition indexed : VectorStore.collection :=
  map VectorStore.job_entry [analyst; engineer; intern].

Definition candidates : list VectorStore.hit :=
  match demo_query indexed "python" 4 None with
  | Py.Return hits => hits
  | Py.Raise _ => []
  end.

(** Three postings with distinct ids, loaded after a [clear_all]. *)
Definition fresh_batch : list Models.JobPosting := [analyst; engineer; intern].

(** A store in which the only posting at level [Mid] with a salary floor
    has no ceiling. *)
Definition open_ended : Models.JobPosting :=
  posting "Consultant" "Hooli" (Some 50000%Q, None) false ["python"] "c0de".

Definition store_with_gap : Database.JobDatabase := db_of [open_ended].

(** An index that fails on every query. *)
Definition failing_index : VectorStore.AnnIndex :=
  {| VectorStore.collection_query := fun _ _ _ _ => Py.Raise Py.ValueError |}.

(** An interpreter that iterates a set in the order of first insertion. *)
Definition set_iteration : Models.SetIteration :=
  {| Models.list_of_set := remove_dups |}.

(** A posting whose tags were stored as skills before its description
    is scanned. *)
Definition tagged : Models.JobPosting :=
  Models.new
    {| Models.a_title := "Web Developer"; Models.a_company := "Globex";
       Models.a_location := "Berlin";
       Models.a_description := "We use JavaScript and PostgreSQL.";
       Models.a_salary_min := None; Models.a_salary_max := None;
       Models.a_salary_currency := "USD"; Models.a_job_type := "Full-time";
       Models.a_experience_level := "Mid"; Models.a_remote := false;
       Models.a_skills := ["vue"; "css"]; Models.a_source := "arbeitnow";
       Models.a_url := None; Models.a_posted_date := None;
       Models.a_scraped_at := t2024 |} "ab12".

(** An index that answers every query with the three entries at the
    distances [0.25], [0.2344] and [1.5]. *)
Definition neighbours : list VectorStore.hit :=
  zip_with
    (fun (e : VectorStore.entry) (d : Q) =>
       {| VectorStore.h_id := VectorStore.e_id e;
          VectorStore.h_document := VectorStore.e_document e;
          VectorStore.h_metadata := VectorStore.e_metadata e;
          VectorStore.h_distance := d |})
    indexed [1 # 4; 2344 # 10000; 3 # 2].

Definition ranking_index : VectorStore.AnnIndex :=
  {| VectorStore.collection_query := fun _ _ _ _ => Py.Return neighbours |}.

(** A store in which two postings of one level have a salary floor and
    only one of them a ceiling. *)
Definition store_mixed : Database.JobDatabase := db_of [analyst; open_ended].

(** A posting at another experience level, and a store that holds two
    levels. *)
Definition lead : Models.JobPosting :=
  Models.new
    {| Models.a_title := "Lead Engineer"; Models.a_company := "Hooli";
       Models.a_location := "Austin, TX"; Models.a_description := "d";
       Models.a_salary_min := Some 200000%Q;
       Models.a_salary_max := Some 240000%Q;
       Models.a_salary_currency := "USD"; Models.a_job_type := "Full-time";
       Models.a_experience_level := "Lead"; Models.a_remote := false;
       Models.a_skills := ["python"]; Models.a_source := "sample";
       Models.a_url := None; Models.a_posted_date := None;
       Models.a_scraped_at := t2024 |} "1ead".

Definition store_levels : Database.JobDatabase :=
  db_of [analyst; engineer; lead].

End Demo.

(** ** Notions used to state the properties *)

Module Spec.

(** The [job_skills] rows [insert_job] writes for a posting. *)
Definition skill_rows (job : Models.JobPosting) : list (string * string) :=
  map (fun skill => (Models.id job, Py.lower skill)) (Models.skills job).

(** A storage error occurs during [insert_job]: one of the statements the
    call executes fails. The skill rows are executed only when the main
    row is new. *)
Definition write_error_occurs (faults : Database.engine_faults)
    (db : Database.JobDatabase) (job : Models.JobPosting) : Prop :=
  faults Database.StmtInsertJob = true \/
  (Database.has_id db (Models.id job) = false /\
   exists k, (k < length (Models.skills job))%nat /\
             faults (Database.StmtInsertSkill k) = true) \/
  faults Database.StmtCommit = true.







(** A dictionary form, respectively a row, with another id. *)
Definition with_id (supplied : option string) (d : Models.job_dict)
  : Models.job_dict :=
  {| Models.d_title := Models.d_title d;
     Models.d_company := Models.d_company d;
     Models.d_location := Models.d_location d;
     Models.d_description := Models.d_description d;
     Models.d_salary_min := Models.d_salary_min d;
     Models.d_salary_max := Models.d_salary_max d;
     Models.d_salary_currency := Models.d_salary_currency d;
     Models.d_job_type := Models.d_job_type d;
     Models.d_experience_level := Models.d_experience_level d;
     Models.d_remote := Models.d_remote d;
     Models.d_skills := Models.d_skills d;
     Models.d_source := Models.d_source d;
     Models.d_url := Models.d_url d;
     Models.d_posted_date := Models.d_posted_date d;
     Models.d_scraped_at := Models.d_scraped_at d;
     Models.d_id := supplied |}.

Definition with_col_id (stored : string) (r : Database.jobs_row)
  : Database.jobs_row :=
  {| Database.col_id := stored;
     Database.col_title := Database.col_title r;
     Database.col_company := Database.col_company r;
     Database.col_location := Database.col_location r;
     Database.col_description := Database.col_description r;
     Database.col_salary_min := Database.col_salary_min r;
     Database.col_salary_max := Database.col_salary_max r;
     Database.col_salary_currency := Database.col_salary_currency r;
     Database.col_job_type := Database.col_job_type r;
     Database.col_experience_level := Database.col_experience_level r;
     Database.col_remote := Database.col_remote r;
     Database.col_skills := Database.col_skills r;
     Database.col_source := Database.col_source r;
     Database.col_url := Database.col_url r;
     Database.col_posted_date := Database.col_posted_date r;
     Database.col_scraped_at := Database.col_scraped_at r |}.

(** The texts written for the dates and the skills of a posting are read
    back to the values they were written from. *)
Definition reads_back `{RT : Runtime} (j : Models.JobPosting) : Prop :=
  fromisoformat (isoformat (Models.scraped_at j)) = Some (Models.scraped_at j) /\
  isoformat (Models.scraped_at j) <> EmptyString /\
  (forall d, Models.posted_date j = Some d ->
     fromisoformat (isoformat d) = Some d /\ isoformat d <> EmptyString) /\
  json_loads (json_dumps (Models.skills j)) = Some (Models.skills j) /\
  json_dumps (Models.skills j) <> EmptyString.


(** Every row of the store holds the values [insert_job] binds for some
    posting whose texts read back. *)
Definition written_by_insert `{RT : Runtime} (db : Database.JobDatabase) : Prop :=
  forall r, In r (Database.jobs db) ->
    exists j, r = Database.insert_values j /\ reads_back j.

(** The calls that write to the relational store, and a sequence of
    them run from a given state. *)
Inductive store_call : Type :=
| CallInsertJob (faults : Database.engine_faults) (job : Models.JobPosting)
| CallInsertMany (faults : Database.engine_faults) (jobs : list Models.JobPosting)
| CallClearAll.

Definition run_call `{RT : Runtime} (db : Database.JobDatabase) (c : store_call)
  : Database.JobDatabase :=
  match c with
  | CallInsertJob faults job => snd (Database.insert_job faults db job)
  | CallInsertMany faults jobs => snd (Database.insert_many faults db jobs)
  | CallClearAll => Database.clear_all db
  end.

Definition run_calls `{RT : Runtime} (calls : list store_call)
    (db : Database.JobDatabase) : Database.JobDatabase :=
  fold_left run_call calls db.

(** The keys of [jobs] are pairwise distinct, and every row of
    [job_skills] belongs to a stored posting and holds a lower-case skill. *)
Definition keys_unique (db : Database.JobDatabase) : Prop :=
  List.NoDup (map Database.col_id (Database.jobs db)).

Definition skills_belong (db : Database.JobDatabase) : Prop :=
  forall job_id skill, In (job_id, skill) (Database.job_skills db) ->
    Database.has_id db job_id = true /\ Py.lower skill = skill.

(** Most recently scraped first: the ISO text of [later] does not
    exceed that of [earlier]. *)
Definition scraped_not_before `{RT : Runtime} (earlier later : Models.JobPosting)
  : Prop :=
  String.leb (isoformat (Models.scraped_at later))
    (isoformat (Models.scraped_at earlier)) = true.

(** Rows in the order of [ORDER BY scraped_at DESC]. *)
Definition newest_first (a b : Database.jobs_row) : Prop :=
  String.leb (Database.col_scraped_at b) (Database.col_scraped_at a) = true.

(** The number of elements of a list with a given key, and the entries
    of a tally in descending order of count. *)
Definition occurrences {A : Type} (key : A -> string) (k : string) (l : list A)
  : nat :=
  length (List.filter (fun x => String.eqb (key x) k) l).

Definition count_not_below (a b : string * nat) : Prop := (snd b <= snd a)%nat.

(** Some experience level has postings with a salary floor, none of
    which has a salary ceiling. *)
Definition salary_gap (db : Database.JobDatabase) : Prop :=
  exists r, In r (Database.jobs db) /\
    Database.col_salary_min r <> None /\
    forall r', In r' (Database.jobs db) ->
      Database.col_experience_level r' = Database.col_experience_level r ->
      Database.col_salary_min r' <> None ->
      Database.col_salary_max r' = None.

(** [d.get(k, 0)] on a tally. *)
Fixpoint dict_count (k : string) (d : list (string * nat)) : nat :=
  match d with
  | [] => 0
  | (k', n) :: rest => if String.eqb k' k then n else dict_count k rest
  end.

(** Column [remote] holds [0] or [1]. *)
Definition remote_is_flag (db : Database.JobDatabase) : Prop :=
  forall r, In r (Database.jobs db) ->
    Database.col_remote r = 0%Z \/ Database.col_remote r = 1%Z.

(** Every posting with a salary floor has a salary ceiling. *)
Definition floors_have_ceilings (db : Database.JobDatabase) : Prop :=
  forall r, In r (Database.jobs db) ->
    Database.col_salary_min r <> None -> Database.col_salary_max r <> None.

(** The postings of a list that carry an id not yet known, each id at
    its first occurrence. *)
Fixpoint first_new (known : gset string) (jobs : list Models.JobPosting)
  : list Models.JobPosting :=
  match jobs with
  | [] => []
  | job :: rest =>
      if bool_decide (Models.id job ∈ known) then first_new known rest
      else job :: first_new ({[Models.id job]} ∪ known) rest
  end.

(** The fixed labels of [simplify_location]. *)
Definition location_labels : list string :=
  [ "Unknown"; "Remote"; "San Francisco"; "New York"; "Seattle"; "Austin";
    "Los Angeles" ].

(** The keywords [simplify_location] looks for. *)
Definition location_keywords : list string :=
  [ "remote"; "san francisco"; "sf"; "new york"; "nyc"; "seattle"; "austin";
    "los angeles"; "la" ].

End Spec.

(** * Properties *)

(** ** Facts about the Python builtins *)

Lemma Qltb_lt (a b : Q) : Py.Qltb a b = true <-> (a < b)%Q.
Proof.
  unfold Py.Qltb. rewrite negb_true_iff.
  split; intros Hab.
  - apply Qnot_le_lt. intros Hle. apply Qle_bool_iff in Hle. congruence.
  - destruct (Qle_bool b a) eqn:Hle; [|reflexivity].
    apply Qle_bool_iff in Hle. lra.
Qed.

Lemma Qltb_ge (a b : Q) : Py.Qltb a b = false <-> (b <= a)%Q.
Proof.
  unfold Py.Qltb. rewrite negb_false_iff. apply Qle_bool_iff.
Qed.

Lemma max0_nonneg (q : Q) : (0 <= Py.max0 q)%Q.
Proof.
  unfold Py.max0. destruct (Py.Qltb 0 q) eqn:Hq; [|lra].
  apply Qltb_lt in Hq. lra.
Qed.

Lemma max0_le (q b : Q) : (0 <= b)%Q -> (q <= b)%Q -> (Py.max0 q <= b)%Q.
Proof.
  intros Hb Hq. unfold Py.max0. now destruct (Py.Qltb 0 q).
Qed.

Lemma max0_nonpos (q : Q) : (q <= 0)%Q -> Py.max0 q = 0%Q.
Proof.
  intros Hq. unfold Py.max0. destruct (Py.Qltb 0 q) eqn:H0; [|reflexivity].
  apply Qltb_lt in H0. lra.
Qed.

(** Rounding to the nearest integer stays between integer bounds. *)
Lemma round_half_even_between (a b : Z) (x : Q) :
  (inject_Z a <= x)%Q -> (x <= inject_Z b)%Q ->
  (a <= Py.round_half_even x <= b)%Z.
Proof.
  intros Ha Hb.
  assert (Hfa : (a <= Qfloor x)%Z).
  { rewrite <- (Qfloor_Z a). now apply Qfloor_resp_le. }
  assert (Hfb : (Qfloor x <= b)%Z).
  { rewrite <- (Qfloor_Z b). now apply Qfloor_resp_le. }
  assert (Hup : (Qfloor x = b -> x - inject_Z (Qfloor x) <= 0)%Q).
  { intros ->. lra. }
  unfold Py.round_half_even.
  destruct (Py.Qltb (x - inject_Z (Qfloor x)) (1 # 2)) eqn:Hlow; [lia|].
  apply Qltb_ge in Hlow.
  assert (Hne : Qfloor x <> b).
  { intros Heq. specialize (Hup Heq). lra. }
  destruct (Py.Qltb (1 # 2) (x - inject_Z (Qfloor x))); [lia|].
  destruct (Z.even (Qfloor x)); lia.
Qed.

Lemma round_ndigits_unit (ndigits : nat) (q : Q) :
  (0 <= q)%Q -> (q <= 1)%Q ->
  (0 <= Py.round_ndigits ndigits q)%Q /\ (Py.round_ndigits ndigits q <= 1)%Q.
Proof.
  intros H0 H1. unfold Py.round_ndigits.
  set (s := (10 ^ Z.of_nat ndigits)%Z).
  assert (Hs : (0 < s)%Z) by (subst s; apply Z.pow_pos_nonneg; lia).
  assert (HsQ : (0 < inject_Z s)%Q).
  { replace 0%Q with (inject_Z 0) by reflexivity. now rewrite <- Zlt_Qlt. }
  destruct (round_half_even_between 0 s (q * inject_Z s)) as [Hlo Hhi].
  - change (inject_Z 0) with 0%Q. nra.
  - nra.
  - rewrite Zle_Qle in Hlo, Hhi. change (inject_Z 0) with 0%Q in Hlo.
    split.
    + apply Qle_shift_div_l; [exact HsQ|]. lra.
    + apply Qle_shift_div_r; [exact HsQ|]. lra.
Qed.

Lemma round_ndigits_zero (ndigits : nat) : Py.round_ndigits ndigits 0 == 0.
Proof.
  unfold Py.round_ndigits.
  set (s := (10 ^ Z.of_nat ndigits)%Z).
  assert (Hz : Py.round_half_even (0 * inject_Z s) = 0%Z).
  { assert (Hb := round_half_even_between 0 0 (0 * inject_Z s)).
    change (inject_Z 0) with 0%Q in Hb.
    assert (H0 : (0 <= 0 * inject_Z s)%Q) by lra.
    assert (H1 : (0 * inject_Z s <= 0)%Q) by lra.
    specialize (Hb H0 H1). lia. }
  rewrite Hz. unfold Qdiv. change (inject_Z 0) with 0%Q. lra.
Qed.

Lemma In_take {A : Type} (x : A) (n : nat) (l : list A) :
  In x (take n l) -> In x l.
Proof.
  revert n; induction l as [|y l IH]; intros [|n]; simpl; try tauto.
  intros [->|Hin]; eauto.
Qed.

Lemma In_slice_to {A : Type} (x : A) (n : Z) (l : list A) :
  In x (Py.slice_to n l) -> In x l.
Proof.
  unfold Py.slice_to. destruct (0 <=? n)%Z; apply In_take.
Qed.

Lemma length_slice_to {A : Type} (n : Z) (l : list A) :
  (0 <= n)%Z -> (Z.of_nat (length (Py.slice_to n l)) <= n)%Z.
Proof.
  intros Hn. unfold Py.slice_to.
  destruct (0 <=? n)%Z eqn:Hle; [|lia].
  pose proof (firstn_le_length (Z.to_nat n) l). lia.
Qed.

(** ** Insertion into the relational store *)

Section InsertJob.
Context `{RT : Runtime}.
Import Database.

Lemma insert_skills_no_faults (job_id : string) (skills : list string) :
  forall (k : nat) (db : JobDatabase) (rowcount : Z),
    insert_skills no_faults job_id k skills db rowcount =
    inr ({| jobs := jobs db;
            job_skills :=
              job_skills db ++ map (fun s => (job_id, Py.lower s)) skills |},
         match skills with [] => rowcount | _ => 1%Z end).
Proof.
  induction skills as [|s rest IH]; intros k db rowcount; simpl.
  - rewrite app_nil_r. now destruct db.
  - unfold execute; simpl. rewrite IH; simpl.
    rewrite <- app_assoc; simpl. now destruct rest.
Qed.

Lemma insert_skills_faulty (faults : engine_faults) (job_id : string)
    (skills : list string) :
  forall (k0 k : nat) (db : JobDatabase) (rowcount : Z),
    (k < length skills)%nat ->
    faults (StmtInsertSkill (k0 + k)) = true ->
    exists e, insert_skills faults job_id k0 skills db rowcount = inl e.
Proof.
  induction skills as [|s rest IH]; intros k0 k db rowcount Hk Hf; simpl in *.
  - lia.
  - unfold execute.
    destruct (faults (StmtInsertSkill k0)) eqn:Hk0; [eauto|].
    destruct k as [|k].
    + rewrite Nat.add_0_r in Hf. congruence.
    + apply (IH (S k0) k); [lia|].
      now replace (S k0 + k)%nat with (k0 + S k)%nat by lia.
Qed.

Lemma insert_job_present (faults : engine_faults) (db : JobDatabase)
    (job : Models.JobPosting) :
  has_id db (Models.id job) = true ->
  insert_job faults db job = (false, db).
Proof.
  intros Hid. unfold insert_job, insert_job_try, execute, insert_or_ignore.
  simpl. rewrite Hid.
  destruct (faults StmtInsertJob); [reflexivity|]. simpl.
  now destruct (faults StmtCommit).
Qed.

Lemma insert_job_fresh (db : JobDatabase) (job : Models.JobPosting) :
  has_id db (Models.id job) = false ->
  insert_job no_faults db job =
  (true, {| jobs := jobs db ++ [insert_values job];
            job_skills := job_skills db ++ Spec.skill_rows job |}).
Proof.
  intros Hid. unfold insert_job, insert_job_try, execute, insert_or_ignore.
  simpl. rewrite Hid. simpl.
  rewrite insert_skills_no_faults. simpl.
  unfold Spec.skill_rows. now destruct (Models.skills job).
Qed.

Lemma has_id_app (db : JobDatabase) (r : jobs_row) (js : list (string * string)) :
  has_id {| jobs := jobs db ++ [r]; job_skills := js |} (col_id r) = true.
Proof.
  unfold has_id; simpl. rewrite existsb_app; simpl.
  rewrite String.eqb_refl. now rewrite orb_true_r.
Qed.

Lemma insert_job_error (faults : engine_faults) (db : JobDatabase)
    (job : Models.JobPosting) :
  Spec.write_error_occurs faults db job ->
  exists e, insert_job_try faults db job = inl e.
Proof.
  unfold Spec.write_error_occurs, insert_job_try, execute, insert_or_ignore.
  intros [Hf | [[Hid [k [Hk Hf]]] | Hf]].
  - rewrite Hf. eauto.
  - destruct (faults StmtInsertJob); [eauto|].
    cbn [col_id insert_values]. rewrite Hid; simpl.
    destruct (insert_skills_faulty faults (Models.id job) (Models.skills job)
                0 k {| jobs := jobs db ++ [insert_values job];
                       job_skills := job_skills db |} 1%Z Hk Hf) as [e He].
    rewrite He. eauto.
  - destruct (faults StmtInsertJob); [eauto|].
    destruct (has_id db (col_id (insert_values job))); simpl.
    + rewrite Hf. eauto.
    + destruct (insert_skills _ _ _ _ _ _) as [e|[db2 rc]]; [eauto|].
      rewrite Hf. eauto.
Qed.

(** C1. Inserting a posting a second time returns [False] and leaves the
    database as the first insertion left it, so the number of rows of
    [jobs] does not change; the first insertion reports a new row exactly
    when the id was absent, and after both insertions the [job_skills]
    rows of the posting have been appended once if the main row was new
    and not at all otherwise. This holds whatever the engine does to the
    statements of the second call. *)
Theorem insert_job_twice (faults : engine_faults) (db : JobDatabase)
    (r : Models.JobPosting) :
  let first := insert_job no_faults db r in
  let second := insert_job faults (snd first) r in
  fst second = false /\
  snd second = snd first /\
  length (jobs (snd second)) = length (jobs (snd first)) /\
  fst first = negb (has_id db (Models.id r)) /\
  job_skills (snd second) =
    (job_skills db ++ (if fst first then Spec.skill_rows r else []))%list.
Proof.
  intros first second. subst first second.
  destruct (has_id db (Models.id r)) eqn:Hid.
  - rewrite (insert_job_present no_faults db r Hid); simpl.
    rewrite (insert_job_present faults db r Hid); simpl.
    now rewrite app_nil_r.
  - rewrite (insert_job_fresh db r Hid); simpl.
    rewrite insert_job_present by apply (has_id_app db (insert_values r)).
    simpl. auto.
Qed.

(** C9, as the code has it. A storage error during [insert_job] leaves
    the database as it was before the call. When it strikes a statement
    inside the [try] block (the connection being open) it is caught: the
    call returns [False], the value an insertion of an id that is already
    stored returns, so the flag does not tell the two apart. When it
    strikes while the connection is opened, before the [try] block, it is
    not caught: the exception leaves the method. *)
Theorem insert_job_error_not_inserted (openable : bool)
    (faults : engine_faults) (db : JobDatabase) (job : Models.JobPosting) :
  openable = false \/ Spec.write_error_occurs faults db job ->
  snd (insert_job_connecting openable faults db job) = db /\
  (openable = true ->
   fst (insert_job_connecting openable faults db job) = Returned false /\
   forall db' : JobDatabase,
     has_id db' (Models.id job) = true ->
     insert_job_connecting true no_faults db' job = (Returned false, db')) /\
  (openable = false ->
   fst (insert_job_connecting openable faults db job) =
     Propagated UnableToOpenDatabaseFile).
Proof.
  intros Herr. unfold insert_job_connecting, _get_connection.
  destruct openable.
  - destruct Herr as [Hopen|Herr]; [discriminate|].
    destruct (insert_job_error faults db job Herr) as [e He].
    assert (Hres : insert_job faults db job = (false, db)).
    { unfold insert_job. now rewrite He. }
    rewrite Hres. split; [reflexivity|]. split; [|discriminate].
    intros _. split; [reflexivity|].
    intros db' Hid. now rewrite (insert_job_present no_faults db' job Hid).
  - split; [reflexivity|]. split; [discriminate|reflexivity].
Qed.

End InsertJob.

Lemma insert_job_error_not_inserted_witness :
  Spec.write_error_occurs Demo.second_skill_fails Database.init_db Demo.analyst /\
  Database.insert_job_connecting (RT := Demo.runtime) true
    Demo.second_skill_fails Database.init_db Demo.analyst =
    (Database.Returned false, Database.init_db) /\
  Database.insert_job_connecting (RT := Demo.runtime) true Database.no_faults
    Demo.store Demo.analyst = (Database.Returned false, Demo.store).
Proof.
  assert (Herr : Spec.write_error_occurs Demo.second_skill_fails
                   Database.init_db Demo.analyst).
  { right; left. split; [reflexivity|].
    exists 1%nat. split; [simpl; lia|reflexivity]. }
  split; [exact Herr|].
  destruct (insert_job_error_not_inserted (RT := Demo.runtime) true
              Demo.second_skill_fails Database.init_db Demo.analyst
              (or_intror Herr)) as [Hdb [Hcaught _]].
  destruct (Hcaught eq_refl) as [Hflag Hdup].
  split.
  - rewrite <- Hdb at 2. rewrite <- Hflag. now destruct (Database.insert_job_connecting _ _ _ _).
  - apply Hdup. vm_compute. reflexivity.
Defined.

(** A storage error outside the original statement: the database file
    cannot be opened, and the call neither returns [False] nor any other
    flag, the exception leaves it. *)
Lemma insert_job_counterexample :
  Database.insert_job_connecting (RT := Demo.runtime) false Database.no_faults
    Demo.store Demo.newcomer =
    (Database.Propagated Database.UnableToOpenDatabaseFile, Demo.store) /\
  forall flag : bool,
    fst (Database.insert_job_connecting (RT := Demo.runtime) false
           Database.no_faults Demo.store Demo.newcomer) <>
    Database.Returned flag.
Proof.
  split; [reflexivity|]. intros flag. discriminate.
Qed.

(** ** Remote statistics *)

Lemma get_remote_stats_without_rows (db : Database.JobDatabase) :
  Database.jobs db = [] ->
  Analyzer.get_remote_stats db = Py.Raise Py.TypeError.
Proof.
  intros Hrows. unfold Analyzer.get_remote_stats, Database.get_stats.
  now rewrite Hrows.
Qed.

(** With at least one row both sums are numbers and the call returns. *)
Lemma add_counts_with_rows (r : Database.jobs_row) (rows : list Database.jobs_row) :
  exists remote onsite,
    Database.sql_sum
      (map (fun r => if (Database.col_remote r =? 1)%Z then 1%Z else 0%Z)
         (r :: rows)) = Some remote /\
    Database.sql_sum
      (map (fun r => if (Database.col_remote r =? 0)%Z then 1%Z else 0%Z)
         (r :: rows)) = Some onsite /\
    Analyzer.add_counts (Some remote) (Some onsite) =
      Py.Return (remote, onsite, (remote + onsite)%Z).
Proof. simpl. eauto. Qed.

(** C4 (the code departs from the claim). On a store without records the
    two sums of [get_stats] are [NULL]; [get_remote_stats] adds them before
    its guard on the total is reached and the addition raises [TypeError]. *)
Theorem get_remote_stats_empty_store_raises :
  Database.get_stats Database.init_db =
    Py.Return {| Database.total_jobs := 0;
                 Database.remote_distribution := (None, None);
                 Database.salary_by_experience := [] |} /\
  Analyzer.get_remote_stats Database.init_db = Py.Raise Py.TypeError.
Proof. split; reflexivity. Qed.

(** ** Role classification *)

(** C6. The classifier is its rule table read in order: for every title
    it returns the role of the first rule one of whose keywords occurs in
    the lower-cased title, and ["Other"] when no rule matches; the rules
    are in the stated order, and the title with both an ML and a data
    engineering keyword is a ["Data Engineer"]. *)
Theorem get_base_role_first_match (title : string) :
  Analyzer.get_base_role title =
    Analyzer.first_matching_role Analyzer.role_rules title /\
  map snd Analyzer.role_rules =
    [ "Data Engineer"; "ML Engineer"; "AI Engineer"; "Data Scientist";
      "Backend Engineer"; "Full Stack Engineer"; "DevOps Engineer";
      "Analytics Engineer" ] /\
  Analyzer.get_base_role "Senior ML Engineer / Data Engineer" = "Data Engineer".
Proof.
  split; [|split; reflexivity].
  unfold Analyzer.get_base_role, Analyzer.first_matching_role,
    Analyzer.role_rules, Analyzer.rule_matches.
  generalize (Py.lower title) as t; intros t. simpl.
  repeat match goal with
         | |- context [Py.contains ?kw t] =>
             destruct (Py.contains kw t); simpl; try reflexivity
         end.
Qed.

(** ** Semantic search *)

Section Search.
Context `{IX : VectorStore.AnnIndex}.
Import VectorStore.

Lemma In_process_results (min_salary : option Q) (hits : list hit)
    (r : search_result) :
  In r (process_results min_salary hits) <->
  exists h, In h hits /\ below_floor min_salary (h_metadata h) = false /\
            r = to_result h.
Proof.
  induction hits as [|h hits IH]; simpl.
  - split; [tauto|]. now intros [h [[] _]].
  - destruct (below_floor min_salary (h_metadata h)) eqn:Hb; simpl;
      rewrite IH; split.
    + intros [h' [Hin Hrest]]. eauto.
    + intros [h' [[->|Hin] [Hb' Hr]]]; [congruence|eauto].
    + intros [<-|[h' [Hin Hrest]]]; eauto.
    + intros [h' [[->|Hin] [Hb' Hr]]]; eauto.
Qed.

Lemma search_returns (c : collection) (query : string) (n : Z)
    (experience_level : option string) (remote_only : bool)
    (min_salary : option Q) (hits : list hit) :
  collection_query c query (n * 2)
    (where_conditions experience_level remote_only) = Py.Return hits ->
  search c query n experience_level remote_only min_salary =
  Py.Return (Py.slice_to n (process_results min_salary hits)).
Proof.
  intros Hq. unfold search. now rewrite Hq.
Qed.

Lemma In_search_result (n : Z) (min_salary : option Q) (hits : list hit)
    (r : search_result) :
  In r (Py.slice_to n (process_results min_salary hits)) ->
  exists h, In h hits /\ below_floor min_salary (h_metadata h) = false /\
            r = to_result h.
Proof.
  intros Hin. apply In_slice_to in Hin. now apply In_process_results.
Qed.

(** C3. [search] with a salary floor of 100000 asks the index for [2 * n]
    candidates; whenever the index answers, [search] returns, every result
    stems from a candidate, none has a metadata [salary_min] below 100000,
    and for a count [n] that is not negative at most [n] results are
    returned. *)
Theorem search_min_salary_floor (c : collection) (query : string) (n : Z)
    (experience_level : option string) (remote_only : bool)
    (hits : list hit) :
  collection_query c query (n * 2)
    (where_conditions experience_level remote_only) = Py.Return hits ->
  exists results,
    search c query n experience_level remote_only (Some 100000%Q) =
      Py.Return results /\
    (forall r, In r results -> exists h, In h hits /\ r = to_result h) /\
    (forall r, In r results ->
       ~ (default 0%Q (m_salary_min (result_metadata r)) < 100000)%Q) /\
    ((0 <= n)%Z -> (Z.of_nat (length results) <= n)%Z).
Proof.
  intros Hq. eexists. split; [apply search_returns, Hq|].
  split; [|split].
  - intros r Hin. apply In_search_result in Hin as [h [Hh [_ Hr]]]. eauto.
  - intros r Hin. apply In_search_result in Hin as [h [Hh [Hb Hr]]].
    subst r. simpl. unfold below_floor in Hb. simpl in Hb.
    apply Qltb_ge in Hb. lra.
  - apply length_slice_to.
Qed.

(** The rounding of [round]: the integer returned is within one half of
    the number rounded. *)
Lemma round_half_even_near (x : Q) :
  (inject_Z (Py.round_half_even x) - x <= 1 # 2)%Q /\
  (x - inject_Z (Py.round_half_even x) <= 1 # 2)%Q.
Proof.
  unfold Py.round_half_even. cbv zeta.
  pose proof (Qfloor_le x) as Hlo. pose proof (Qlt_floor x) as Hhi.
  rewrite inject_Z_plus in Hhi. change (inject_Z 1) with 1%Q in Hhi.
  set (f := Qfloor x) in *.
  destruct (Py.Qltb (x - inject_Z f) (1 # 2)) eqn:E1.
  - apply Qltb_lt in E1. split; lra.
  - apply Qltb_ge in E1.
    destruct (Py.Qltb (1 # 2) (x - inject_Z f)) eqn:E2.
    + rewrite inject_Z_plus. change (inject_Z 1) with 1%Q. split; lra.
    + apply Qltb_ge in E2.
      destruct (Z.even f); [|rewrite inject_Z_plus; change (inject_Z 1) with 1%Q];
        split; lra.
Qed.

(** [round(q, 3)] is a whole number of thousandths, the one nearest to
    [q]. *)
Lemma round_ndigits_thousandths (q : Q) :
  exists k : Z,
    Py.round_ndigits 3 q == inject_Z k / 1000 /\
    (inject_Z k - q * 1000 <= 1 # 2)%Q /\
    (q * 1000 - inject_Z k <= 1 # 2)%Q.
Proof.
  exists (Py.round_half_even (q * 1000)). split.
  - unfold Py.round_ndigits. cbv zeta.
    change (inject_Z (10 ^ Z.of_nat 3)) with 1000%Q. reflexivity.
  - apply round_half_even_near.
Qed.

(** C7. Every result of [search] carries, for the candidate it stems
    from, the score [round(max(0, 1 - distance), 3)], whatever distance
    the index returned. The score is a whole number of thousandths; for a
    distance of at most [1] it is within half a thousandth of
    [1 - distance], and for a distance of [1] or more it is [0]. It is
    never negative, and it is at most [1] for every distance that is not
    negative; only a negative distance, below minus half a thousandth,
    gives a score above [1]. *)
Theorem search_similarity_score (c : collection) (query : string) (n : Z)
    (experience_level : option string) (remote_only : bool)
    (min_salary : option Q) (hits : list hit) :
  collection_query c query (n * 2)
    (where_conditions experience_level remote_only) = Py.Return hits ->
  exists results,
    search c query n experience_level remote_only min_salary =
      Py.Return results /\
    forall r, In r results ->
      exists h, In h hits /\
        result_id r = h_id h /\ document r = h_document h /\
        result_metadata r = h_metadata h /\
        similarity_score r =
          Py.round_ndigits 3 (Py.max0 (1 - h_distance h)) /\
        (exists k : Z, similarity_score r == inject_Z k / 1000) /\
        ((h_distance h <= 1)%Q ->
         (similarity_score r - (1 - h_distance h) <= 1 # 2000)%Q /\
         ((1 - h_distance h) - similarity_score r <= 1 # 2000)%Q) /\
        ((1 <= h_distance h)%Q -> similarity_score r == 0) /\
        (0 <= similarity_score r)%Q /\
        ((0 <= h_distance h)%Q -> (similarity_score r <= 1)%Q) /\
        ((- (1 # 2000) < h_distance h)%Q -> (similarity_score r <= 1)%Q) /\
        ((h_distance h < - (1 # 2000))%Q -> (1 < similarity_score r)%Q).
Proof.
  intros Hq. eexists. split; [apply search_returns, Hq|].
  intros r Hin. apply In_search_result in Hin as [h [Hh [_ Hr]]].
  exists h. subst r. simpl. repeat (split; [reflexivity || exact Hh|]).
  set (d := h_distance h).
  destruct (round_ndigits_thousandths (Py.max0 (1 - d)))
    as [k [Hk [Hup Hdown]]].
  set (score := Py.round_ndigits 3 (Py.max0 (1 - d))) in *.
  assert (Hscore : score * 1000 == inject_Z k) by (rewrite Hk; field).
  clearbody score d.
  assert (Hmax : (0 < 1 - d)%Q /\ Py.max0 (1 - d) = (1 - d)%Q \/
                 (1 - d <= 0)%Q /\ Py.max0 (1 - d) = 0%Q).
  { unfold Py.max0. destruct (Py.Qltb 0 (1 - d)) eqn:E.
    - left. split; [now apply Qltb_lt|reflexivity].
    - right. split; [now apply Qltb_ge|reflexivity]. }
  assert (Hint : forall a : Z,
             (inject_Z k < inject_Z a)%Q -> (inject_Z k <= inject_Z (a - 1))%Q).
  { intros a Ha. rewrite <- Zlt_Qlt in Ha. rewrite <- Zle_Qle. lia. }
  assert (Hint' : forall a : Z,
             (inject_Z a < inject_Z k)%Q -> (inject_Z (a + 1) <= inject_Z k)%Q).
  { intros a Ha. rewrite <- Zlt_Qlt in Ha. rewrite <- Zle_Qle. lia. }
  split; [now exists k|].
  destruct Hmax as [[Hpos Hmax]|[Hneg Hmax]]; rewrite Hmax in Hup, Hdown.
  - split; [intros _; split; lra|].
    split; [intros Hd; lra|].
    assert (Hk0 : (inject_Z 0 <= inject_Z k)%Q).
    { apply (Hint' (-1)%Z). change (inject_Z (-1)) with (-1)%Q. lra. }
    change (inject_Z 0) with (0)%Q in Hk0.
    split; [lra|].
    assert (Hle1 : (- (1 # 2000) < d)%Q -> (score <= 1)%Q).
    { intros Hd.
      assert (Hk1 : (inject_Z k <= inject_Z (1001 - 1))%Q).
      { apply Hint. change (inject_Z 1001) with (1001)%Q. lra. }
      change (inject_Z (1001 - 1)) with (1000)%Q in Hk1. lra. }
    split; [intros Hd; apply Hle1; lra|]. split; [exact Hle1|].
    intros Hd.
    assert (Hk1 : (inject_Z (1000 + 1) <= inject_Z k)%Q).
    { apply Hint'. change (inject_Z 1000) with (1000)%Q. lra. }
    change (inject_Z (1000 + 1)) with (1001)%Q in Hk1. lra.
  - assert (Hk0 : inject_Z k == 0).
    { assert (H1 : (inject_Z k <= inject_Z (1 - 1))%Q)
        by (apply Hint; change (inject_Z 1) with (1)%Q; lra).
      assert (H2 : (inject_Z (-1 + 1) <= inject_Z k)%Q)
        by (apply Hint'; change (inject_Z (-1)) with (-1)%Q; lra).
      change (inject_Z (1 - 1)) with (0)%Q in H1.
      change (inject_Z (-1 + 1)) with (0)%Q in H2. lra. }
    assert (Hzero : score == 0) by lra.
    split; [intros Hd; split; lra|].
    split; [intros _; exact Hzero|].
    split; [lra|]. split; [intros _; lra|]. split; [intros _; lra|].
    intros Hd. lra.
Qed.

End Search.

Lemma search_min_salary_floor_witness :
  exists results,
    VectorStore.search (IX := Demo.index) Demo.indexed "python" 2 None false
      (Some 100000%Q) = Py.Return results /\
    (forall r, In r results ->
       ~ (default 0%Q (VectorStore.m_salary_min (VectorStore.result_metadata r))
          < 100000)%Q) /\
    (Z.of_nat (length results) <= 2)%Z.
Proof.
  destruct (search_min_salary_floor (IX := Demo.index) Demo.indexed "python" 2
              None false Demo.candidates eq_refl)
    as [results [Hs [_ [Hfloor Hlen]]]].
  exists results. split; [exact Hs|]. split; [exact Hfloor|].
  apply Hlen. lia.
Defined.

Lemma search_similarity_score_witness :
  exists results,
    VectorStore.search (IX := Demo.ranking_index) Demo.indexed "python" 3
      None false None = Py.Return results /\
    Forall2 Qeq (map VectorStore.similarity_score results)
      [(3 # 4)%Q; (766 # 1000)%Q; 0%Q] /\
    forall r, In r results ->
      (0 <= VectorStore.similarity_score r)%Q /\
      exists k : Z, VectorStore.similarity_score r == inject_Z k / 1000.
Proof.
  destruct (search_similarity_score (IX := Demo.ranking_index) Demo.indexed
              "python" 3 None false None Demo.neighbours eq_refl)
    as [results [Hs Hall]].
  exists results. split; [exact Hs|]. split.
  - vm_compute in Hs. injection Hs as <-.
    repeat constructor.
  - intros r Hin.
    destruct (Hall r Hin) as [h [_ [_ [_ [_ [_ [Hk [_ [_ [Hlo _]]]]]]]]]].
    split; [exact Hlo|exact Hk].
Defined.

(** ** Adding to the semantic index *)

Section AddJobs.
Context `{RT : Runtime}.
Import VectorStore.

(** What one batch does to the loop state: the entries it prepares are
    those of the postings whose id is neither indexed nor seen, each id
    once; every other posting is counted as skipped. *)
Lemma prepare_batch_spec (existing_ids : gset string)
    (batch : list Models.JobPosting) :
  forall (seen_ids : gset string) (pending : list entry) (skipped : nat),
  exists (new : list entry) (nskip : nat),
    prepare_batch existing_ids batch seen_ids pending skipped =
      (seen_ids ∪ list_to_set (map e_id new), (pending ++ new)%list,
       skipped + nskip) /\
    length new + nskip = length batch /\
    (forall j, In j batch ->
       Models.id j ∈ existing_ids \/
       Models.id j ∈ seen_ids ∪ list_to_set (map e_id new)) /\
    (forall e, In e new ->
       (e_id e ∉ existing_ids) /\ (e_id e ∉ seen_ids) /\
       exists j, In j batch /\ e = job_entry j) /\
    NoDup (map e_id new).
Proof.
  induction batch as [|job rest IH]; intros seen_ids pending skipped; simpl.
  - exists [], 0. simpl. rewrite app_nil_r, Nat.add_0_r.
    split; [f_equal; f_equal; set_solver|].
    repeat split; try tauto; try constructor.
  - destruct (bool_decide (Models.id job ∈ existing_ids)) eqn:Hex; simpl.
    + apply bool_decide_eq_true in Hex.
      destruct (IH seen_ids pending (S skipped))
        as [new [nskip [Heq [Hlen [Hcov [Hfresh Hnd]]]]]].
      exists new, (S nskip). rewrite Heq.
      split; [f_equal; lia|]. split; [lia|].
      split; [|split; [|exact Hnd]].
      * intros j [<-|Hin]; [now left|now apply Hcov].
      * intros e He. destruct (Hfresh e He) as [H1 [H2 [j [Hj Hej]]]]. eauto 6.
    + destruct (bool_decide (Models.id job ∈ seen_ids)) eqn:Hseen; simpl.
      * apply bool_decide_eq_true in Hseen.
        destruct (IH seen_ids pending (S skipped))
          as [new [nskip [Heq [Hlen [Hcov [Hfresh Hnd]]]]]].
        exists new, (S nskip). rewrite Heq.
        split; [f_equal; lia|]. split; [lia|].
        split; [|split; [|exact Hnd]].
        -- intros j [<-|Hin]; [right; set_solver|now apply Hcov].
        -- intros e He. destruct (Hfresh e He) as [H1 [H2 [j [Hj Hej]]]].
           eauto 6.
      * apply bool_decide_eq_false in Hex, Hseen.
        destruct (IH ({[Models.id job]} ∪ seen_ids)
                    (pending ++ [job_entry job])%list skipped)
          as [new [nskip [Heq [Hlen [Hcov [Hfresh Hnd]]]]]].
        exists (job_entry job :: new), nskip. rewrite Heq. simpl.
        rewrite <- app_assoc. simpl.
        split; [f_equal; f_equal; set_solver|]. split; [lia|].
        split; [|split].
        -- intros j [<-|Hin]; [right; set_solver|].
           destruct (Hcov j Hin) as [Hl|Hr]; [now left|right; set_solver].
        -- intros e [<-|He]; simpl.
           ++ repeat split; eauto.
           ++ destruct (Hfresh e He) as [H1 [H2 [j [Hj Hej]]]].
              repeat split; [exact H1|set_solver|eauto].
        -- constructor; [|exact Hnd].
           intros Hin. apply list_elem_of_In, in_map_iff in Hin as [e [Hid He]].
           destruct (Hfresh e He) as [_ [H2 _]]. rewrite Hid in H2.
           set_solver.
Qed.

(** The same for the whole loop over the batch starts. *)
Lemma add_batches_spec (existing_ids : gset string)
    (jobs : list Models.JobPosting) (size : nat) (starts : list nat) :
  forall st : add_state,
  exists (new : list entry) (nskip : nat),
    fold_left (add_batch existing_ids jobs size) starts st =
      {| st_collection := (st_collection st ++ new)%list;
         st_seen_ids := st_seen_ids st ∪ list_to_set (map e_id new);
         st_added := st_added st + length new;
         st_skipped := st_skipped st + nskip |} /\
    length new + nskip =
      length (concat (map (fun i => Py.slice i (i + size) jobs) starts)) /\
    (forall j, In j (concat (map (fun i => Py.slice i (i + size) jobs) starts)) ->
       Models.id j ∈ existing_ids \/
       Models.id j ∈ st_seen_ids st ∪ list_to_set (map e_id new)) /\
    (forall e, In e new ->
       (e_id e ∉ existing_ids) /\ (e_id e ∉ st_seen_ids st) /\
       exists j,
         In j (concat (map (fun i => Py.slice i (i + size) jobs) starts)) /\
         e = job_entry j) /\
    NoDup (map e_id new).
Proof.
  induction starts as [|i starts IH]; intros st; simpl.
  - exists [], 0. simpl. rewrite app_nil_r, !Nat.add_0_r.
    split; [destruct st; simpl; f_equal; set_solver|].
    repeat split; try tauto; constructor.
  - destruct (prepare_batch_spec existing_ids (Py.slice i (i + size) jobs)
                (st_seen_ids st) [] (st_skipped st))
      as [new1 [nskip1 [Heq1 [Hlen1 [Hcov1 [Hfresh1 Hnd1]]]]]].
    simpl in Heq1.
    set (st1 := {| st_collection := (st_collection st ++ new1)%list;
                   st_seen_ids := st_seen_ids st ∪ list_to_set (map e_id new1);
                   st_added := st_added st + length new1;
                   st_skipped := st_skipped st + nskip1 |}).
    assert (Hstep : add_batch existing_ids jobs size st i = st1).
    { unfold add_batch. rewrite Heq1. subst st1.
      destruct new1; [|reflexivity].
      simpl. now rewrite app_nil_r, Nat.add_0_r. }
    rewrite Hstep.
    destruct (IH st1) as [new2 [nskip2 [Heq2 [Hlen2 [Hcov2 [Hfresh2 Hnd2]]]]]].
    exists (new1 ++ new2)%list, (nskip1 + nskip2).
    rewrite Heq2. subst st1. simpl in *.
    rewrite !length_app, map_app, list_to_set_app_L.
    split; [f_equal; [now rewrite app_assoc|set_solver|lia|lia]|].
    split; [lia|]. split; [|split].
    + intros j Hin. apply in_app_or in Hin as [Hin|Hin].
      * destruct (Hcov1 j Hin) as [Hl|Hr]; [now left|right; set_solver].
      * destruct (Hcov2 j Hin) as [Hl|Hr]; [now left|right; set_solver].
    + intros e Hin. apply in_app_or in Hin as [Hin|Hin].
      * destruct (Hfresh1 e Hin) as [H1 [H2 [j [Hj Hej]]]].
        repeat split; [exact H1|exact H2|].
        exists j. split; [apply in_or_app; now left|exact Hej].
      * destruct (Hfresh2 e Hin) as [H1 [H2 [j [Hj Hej]]]].
        repeat split; [exact H1|set_solver|].
        exists j. split; [apply in_or_app; now right|exact Hej].
    + apply NoDup_app. split; [exact Hnd1|]. split; [|exact Hnd2].
      intros x Hx1 Hx2.
      apply list_elem_of_In, in_map_iff in Hx2 as [e [Hid He]].
      destruct (Hfresh2 e He) as [_ [H2 _]]. rewrite Hid in H2.
      apply H2. apply elem_of_union_r, elem_of_list_to_set. exact Hx1.
Qed.

(** The batches of [range(0, total, size)] cut the list of postings into
    consecutive pieces. *)
Lemma concat_slices {A : Type} (size : nat) :
  (0 < size)%nat ->
  forall (m : nat) (l : list A),
    (length l <= m * size)%nat ->
    concat (map (fun k => Py.slice (k * size) (k * size + size) l) (seq 0 m)) = l.
Proof.
  intros Hsize. induction m as [|m IH]; intros l Hlen.
  - destruct l; [reflexivity|simpl in Hlen; lia].
  - cbn [seq map concat]. rewrite <- seq_shift, map_map.
    transitivity (take size l ++ drop size l)%list; [|apply take_drop].
    f_equal.
    + unfold Py.slice. simpl. f_equal. lia.
    + etransitivity; [|apply (IH (drop size l)); rewrite length_drop; lia].
      f_equal. apply map_ext. intros k. unfold Py.slice.
      rewrite drop_drop.
      replace (S k * size + size - S k * size)%nat with size by lia.
      replace (k * size + size - k * size)%nat with size by lia.
      reflexivity.
Qed.

Lemma concat_batches {A : Type} (size : nat) (l : list A) :
  (0 < size)%nat ->
  concat (map (fun i => Py.slice i (i + size) l) (range_step (length l) size)) = l.
Proof.
  intros Hsize. unfold range_step. rewrite map_map.
  apply (concat_slices size Hsize).
  pose proof (Nat.div_mod_eq (length l + size - 1) size) as Hdm.
  pose proof (Nat.mod_upper_bound (length l + size - 1) size) as Hlt.
  nia.
Qed.

(** C8. With a positive batch size, [add_jobs] adds the postings whose
    id is neither in the collection nor met earlier in the call, each id
    once, and counts every other posting as skipped; afterwards every id
    of the list is indexed. A second [add_jobs] of the same list therefore
    adds no document, reports every record of the list as skipped and
    leaves the collection as the first call left it. *)
Theorem add_jobs_twice (c : collection) (jobs : list Models.JobPosting)
    (batch_size batch_size' : Z) :
  (0 < batch_size)%Z -> (0 < batch_size')%Z ->
  exists (new : list entry) (skipped : nat),
    add_jobs c jobs batch_size =
      Py.Return ((length new, skipped), (c ++ new)%list) /\
    length new + skipped = length jobs /\
    NoDup (map e_id new) /\
    (forall e, In e new ->
       ~ In (e_id e) (collection_ids c) /\
       exists j, In j jobs /\ e = job_entry j) /\
    (forall j, In j jobs -> In (Models.id j) (collection_ids (c ++ new)%list)) /\
    add_jobs (c ++ new)%list jobs batch_size' =
      Py.Return ((0, length jobs), (c ++ new)%list).
Proof.
  intros Hb Hb'. unfold add_jobs.
  destruct (batch_size =? 0)%Z eqn:E0; [lia|].
  destruct (batch_size <? 0)%Z eqn:E1; [lia|].
  destruct (batch_size' =? 0)%Z eqn:E0'; [lia|].
  destruct (batch_size' <? 0)%Z eqn:E1'; [lia|].
  set (ex := list_to_set (collection_ids c) : gset string).
  destruct (add_batches_spec ex jobs (Z.to_nat batch_size)
              (range_step (length jobs) (Z.to_nat batch_size))
              {| st_collection := c; st_seen_ids := ∅;
                 st_added := 0; st_skipped := 0 |})
    as [new [nskip [Heq [Hlen [Hcov [Hfresh Hnd]]]]]].
  rewrite concat_batches in Hlen, Hcov, Hfresh by lia.
  rewrite Heq. simpl.
  exists new, nskip.
  split; [reflexivity|]. split; [exact Hlen|]. split; [exact Hnd|].
  set (ex1 := list_to_set (collection_ids (c ++ new)%list) : gset string).
  assert (Hall : forall j, In j jobs -> Models.id j ∈ ex1).
  { intros j Hj. subst ex1 ex. unfold collection_ids in *.
    rewrite map_app, list_to_set_app_L.
    destruct (Hcov j Hj) as [Hl|Hr]; set_solver. }
  split; [|split].
  - intros e He. destruct (Hfresh e He) as [Hne [_ Hj]].
    split; [|exact Hj]. intros Hin. apply Hne. subst ex.
    apply (proj2 (elem_of_list_to_set (C := gset string) _ _)).
    now apply list_elem_of_In.
  - intros j Hj. apply list_elem_of_In.
    apply (proj1 (elem_of_list_to_set (C := gset string) _ _)).
    exact (Hall j Hj).
  - destruct (add_batches_spec ex1 jobs (Z.to_nat batch_size')
                (range_step (length jobs) (Z.to_nat batch_size'))
                {| st_collection := (c ++ new)%list; st_seen_ids := ∅;
                   st_added := 0; st_skipped := 0 |})
      as [new' [nskip' [Heq' [Hlen' [_ [Hfresh' _]]]]]].
    rewrite concat_batches in Hlen', Hfresh' by lia.
    rewrite Heq'. simpl.
    assert (Hnil : new' = []).
    { destruct new' as [|e rest]; [reflexivity|exfalso].
      destruct (Hfresh' e (or_introl eq_refl)) as [Hne [_ [j [Hj Hej]]]].
      apply Hne. subst e. simpl. now apply Hall. }
    subst new'. simpl in *. rewrite app_nil_r.
    repeat f_equal. lia.
Qed.

End AddJobs.

Lemma add_jobs_twice_witness :
  exists (new : list VectorStore.entry) (skipped : nat),
    VectorStore.add_jobs (RT := Demo.runtime) Demo.indexed
      [Demo.analyst; Demo.newcomer; Demo.newcomer; Demo.intern] 2 =
      Py.Return ((length new, skipped), (Demo.indexed ++ new)%list) /\
    VectorStore.add_jobs (RT := Demo.runtime) (Demo.indexed ++ new)%list
      [Demo.analyst; Demo.newcomer; Demo.newcomer; Demo.intern] 100 =
      Py.Return ((0, 4), (Demo.indexed ++ new)%list).
Proof.
  destruct (add_jobs_twice (RT := Demo.runtime) Demo.indexed
              [Demo.analyst; Demo.newcomer; Demo.newcomer; Demo.intern] 2 100)
    as [new [skipped [Hfirst [_ [_ [_ [_ Hsecond]]]]]]]; [lia|lia|].
  exists new, skipped. split; [exact Hfirst|exact Hsecond].
Defined.

(** ** Searching the relational store *)





Lemma contains_unfold (sub s : string) :
  Py.contains sub s =
  String.prefix sub s ||
  match s with
  | EmptyString => false
  | String _ s' => Py.contains sub s'
  end.
Proof.
  destruct s; cbn [Py.contains]; now destruct (String.prefix sub _).
Qed.


Section SearchJobs.
Context `{RT : Runtime}.
Import Database.


Lemma rows_to_jobs_In (uuids : nat -> string) (rows : list jobs_row) :
  forall (k : nat) (jobs : list Models.JobPosting),
    rows_to_jobs rows uuids k = Py.Return jobs ->
    length jobs = length rows /\
    forall j, In j jobs ->
      exists row uuid4, In row rows /\ _row_to_job row uuid4 = Py.Return j.
Proof.
  induction rows as [|row rows IH]; intros k jobs Hjobs; simpl in Hjobs.
  - injection Hjobs as <-. split; [reflexivity|]. intros j [].
  - unfold Py.bind in Hjobs.
    destruct (_row_to_job row (uuids k)) as [j0|e] eqn:Hrow; [|discriminate].
    destruct (rows_to_jobs rows uuids (S k)) as [js|e] eqn:Hrest; [|discriminate].
    injection Hjobs as <-. destruct (IH (S k) js Hrest) as [Hlen Hin].
    split; [simpl; now rewrite Hlen|].
    intros j [<-|Hj].
    + exists row, (uuids k). split; [now left|exact Hrow].
    + destruct (Hin j Hj) as [row' [u [Hr Hu]]].
      exists row', u. split; [now right|exact Hu].
Qed.

Lemma In_insert_desc (r x : jobs_row) (sorted : list jobs_row) :
  In x (insert_desc r sorted) <-> x = r \/ In x sorted.
Proof.
  induction sorted as [|y rest IH]; simpl.
  - intuition.
  - destruct (String.leb _ _); simpl; [intuition|]. rewrite IH. intuition.
Qed.

Lemma In_order_by (x : jobs_row) (rows : list jobs_row) :
  In x (order_by_scraped_at_desc rows) <-> In x rows.
Proof.
  unfold order_by_scraped_at_desc.
  induction rows as [|r rows IH]; simpl; [tauto|].
  rewrite In_insert_desc, IH. intuition.
Qed.

Lemma In_sql_limit {A : Type} (x : A) (n : Z) (rows : list A) :
  In x (sql_limit n rows) -> In x rows.
Proof.
  unfold sql_limit. destruct (n <? 0)%Z; [tauto|apply In_take].
Qed.



(** The skills post-filter runs on the rows fetched under the limit. *)
Lemma search_jobs_fetched (db : JobDatabase)
    (query company location : option string) (skills : option (list string))
    (experience_level : option string) (remote_only : bool)
    (min_salary : option Q) (limit : Z) (uuids : nat -> string)
    (results : list Models.JobPosting) :
  search_jobs db query company location skills experience_level remote_only
    min_salary limit uuids = Py.Return results ->
  exists fetched,
    rows_to_jobs
      (sql_limit limit
         (order_by_scraped_at_desc
            (List.filter
               (where_clause query company location experience_level
                  remote_only min_salary) (jobs db)))) uuids 0 =
      Py.Return fetched /\
    results =
      match skills with
      | Some (s :: ss) =>
          List.filter (has_any_skill (map Py.lower (s :: ss))) fetched
      | _ => fetched
      end.
Proof.
  unfold search_jobs, Py.bind. intros Hres.
  destruct (negb (fits_int64 limit)); [discriminate|].
  destruct (rows_to_jobs _ uuids 0) as [fetched|e]; [|discriminate].
  exists fetched. split; [reflexivity|].
  destruct skills as [[|s ss]|]; now injection Hres.
Qed.


End SearchJobs.


(** The count can stay below the limit although a matching posting is
    stored: the one row fetched under [limit = 1] lacks the skill. *)
Lemma search_jobs_limit_before_skills :
  Database.search_jobs (RT := Demo.runtime) Demo.store_with_newcomer None None
    None (Some ["sql"]) None false None 1 Demo.uuids = Py.Return [] /\
  exists j,
    Database.search_jobs (RT := Demo.runtime) Demo.store_with_newcomer None
      None None (Some ["sql"]) None false None 2 Demo.uuids = Py.Return [j] /\
    Models.title j = "Data Analyst".
Proof.
  split; [vm_compute; reflexivity|].
  eexists. split; [vm_compute; reflexivity|reflexivity].
Qed.


(** ** Identity of a posting across its dictionary and row forms *)

Section Identity.
Context `{RT : Runtime}.

Lemma laws_read_back `{!RuntimeLaws RT} (j : Models.JobPosting) :
  Spec.reads_back j.
Proof.
  unfold Spec.reads_back.
  repeat split; auto using fromisoformat_isoformat, isoformat_nonempty,
    json_loads_dumps, json_dumps_nonempty.
Qed.

Lemma truthy_str_nonempty (s : string) :
  s <> EmptyString -> Py.truthy_str s = true.
Proof.
  intros Hs. unfold Py.truthy_str. apply negb_true_iff.
  now apply String.eqb_neq.
Qed.

Lemma from_dict_to_dict (j : Models.JobPosting) (uuid4 : string) :
  Spec.reads_back j ->
  Models.from_dict (Models.to_dict j) uuid4 =
  Py.Return (Models.new (Models.fields_of j) uuid4).
Proof.
  intros [Hsa [_ [Hpd _]]]. unfold Models.from_dict, Models.to_dict; simpl.
  destruct (Models.posted_date j) as [d|] eqn:Hd; simpl.
  - destruct (Hpd d eq_refl) as [-> _]. simpl. rewrite Hsa. simpl.
    unfold Models.fields_of. now rewrite Hd.
  - rewrite Hsa. simpl. unfold Models.fields_of. now rewrite Hd.
Qed.

Lemma row_to_job_insert_values (j : Models.JobPosting) (uuid4 : string) :
  Spec.reads_back j ->
  Database._row_to_job (Database.insert_values j) uuid4 =
  Py.Return (Models.new (Models.fields_of j) uuid4).
Proof.
  intros [Hsa [Hsa0 [Hpd [Hjs Hjs0]]]].
  unfold Database._row_to_job, Database.insert_values; simpl.
  rewrite (truthy_str_nonempty _ Hjs0), Hjs. simpl.
  rewrite (truthy_str_nonempty _ Hsa0), Hsa.
  assert (Hremote : negb ((if Models.remote j then 1 else 0) =? 0)%Z =
                    Models.remote j) by now destruct (Models.remote j).
  destruct (Models.posted_date j) as [d|] eqn:Hd; simpl.
  - destruct (Hpd d eq_refl) as [Hrt Hne].
    rewrite (truthy_str_nonempty _ Hne), Hrt. simpl.
    unfold Models.fields_of. now rewrite Hd, Hremote.
  - unfold Models.fields_of. now rewrite Hd, Hremote.
Qed.

Lemma find_fresh_row (db : Database.JobDatabase) (r : Database.jobs_row) :
  Database.has_id db (Database.col_id r) = false ->
  List.find (fun x => String.eqb (Database.col_id x) (Database.col_id r))
    (Database.jobs db ++ [r]) = Some r.
Proof.
  unfold Database.has_id. induction (Database.jobs db) as [|x rows IH]; simpl.
  - now rewrite String.eqb_refl.
  - intros Hno. apply orb_false_iff in Hno as [Hx Hrest].
    rewrite Hx. now apply IH.
Qed.

(** C10. [from_dict] does not look at the id of the dictionary it is
    given, nor [_row_to_job] at the id of the row; rebuilding a posting
    from its dictionary form, from its row, or from the store it was just
    inserted into yields the posting the constructor builds from the same
    fields with a new draw [uuid4]: every field but [id] is the original
    one, and [id] is the hash prefix computed from title, company,
    location and the new draw. *)
Theorem rebuilt_posting_gets_new_id (j : Models.JobPosting) (uuid4 : string) :
  Spec.reads_back j ->
  (forall (data : Models.job_dict) (supplied : option string),
     Models.from_dict (Spec.with_id supplied data) uuid4 =
     Models.from_dict data uuid4) /\
  (forall (row : Database.jobs_row) (stored : string),
     Database._row_to_job (Spec.with_col_id stored row) uuid4 =
     Database._row_to_job row uuid4) /\
  Models.from_dict (Models.to_dict j) uuid4 =
    Py.Return (Models.new (Models.fields_of j) uuid4) /\
  Database._row_to_job (Database.insert_values j) uuid4 =
    Py.Return (Models.new (Models.fields_of j) uuid4) /\
  (forall db : Database.JobDatabase,
     Database.has_id db (Models.id j) = false ->
     Database.get_job (snd (Database.insert_job Database.no_faults db j))
       (Models.id j) uuid4 =
     Py.Return (Some (Models.new (Models.fields_of j) uuid4))) /\
  Models.fields_of (Models.new (Models.fields_of j) uuid4) = Models.fields_of j /\
  Models.id (Models.new (Models.fields_of j) uuid4) =
    Models.__post_init__ (Models.title j) (Models.company j) (Models.location j)
      uuid4.
Proof.
  intros Hback.
  split; [reflexivity|]. split; [reflexivity|].
  split; [now apply from_dict_to_dict|].
  split; [now apply row_to_job_insert_values|].
  split; [|split; reflexivity].
  intros db Hfresh. rewrite (insert_job_fresh db j Hfresh). simpl.
  unfold Database.get_job. simpl.
  change (Models.id j) with (Database.col_id (Database.insert_values j)).
  rewrite find_fresh_row by exact Hfresh.
  now rewrite row_to_job_insert_values.
Qed.

End Identity.

Lemma rebuilt_posting_gets_new_id_witness :
  Spec.reads_back (RT := Demo.runtime) Demo.analyst /\
  (exists j,
     Database.get_job (RT := Demo.runtime) Demo.store
       (Models.id Demo.analyst) "4b1d" = Py.Return (Some j) /\
     Models.fields_of j = Models.fields_of Demo.analyst /\
     Models.id j <> Models.id Demo.analyst).
Proof.
  assert (Hback : Spec.reads_back (RT := Demo.runtime) Demo.analyst).
  { unfold Spec.reads_back. repeat split; discriminate. }
  split; [exact Hback|].
  destruct (rebuilt_posting_gets_new_id (RT := Demo.runtime) Demo.analyst
              "4b1d" Hback) as [_ [_ [_ [Hrow [_ [Hfields _]]]]]].
  exists (Models.new (RT := Demo.runtime) (Models.fields_of Demo.analyst) "4b1d").
  split; [vm_compute; reflexivity|]. split; [exact Hfields|].
  vm_compute. discriminate.
Defined.

(** ** Skill and salary correlation *)

Section Correlation.
Import Analyzer.

Lemma skill_salary_correlation_at_most_15 (df : list frame_row)
    (result : list (string * pyfloat)) :
  skill_salary_correlation_of_frame df = Py.Return result ->
  (length result <= 15)%nat.
Proof.
  unfold skill_salary_correlation_of_frame, Py.bind.
  destruct (accumulate df []); [|discriminate].
  intros Hres. injection Hres as <-. apply firstn_le_length.
Qed.

Lemma In_insert_by_value (x y : string * pyfloat)
    (sorted : list (string * pyfloat)) :
  In y (insert_by_value x sorted) <-> y = x \/ In y sorted.
Proof.
  induction sorted as [|z rest IH]; simpl.
  - intuition.
  - destruct (flt _ _); simpl; [|intuition]. rewrite IH. intuition.
Qed.

Lemma In_sorted_desc (y : string * pyfloat) (items : list (string * pyfloat)) :
  In y (sorted_desc items) <-> In y items.
Proof.
  unfold sorted_desc. induction items as [|x items IH]; simpl; [tauto|].
  rewrite In_insert_by_value, IH. intuition.
Qed.

(** Every reported skill has at least five accumulated entries and is
    reported with their rounded mean. *)
Lemma skill_salary_correlation_entries (df : list frame_row)
    (result : list (string * pyfloat)) (skill : string) (v : pyfloat) :
  skill_salary_correlation_of_frame df = Py.Return result ->
  In (skill, v) result ->
  exists skill_salaries salaries,
    accumulate df [] = Py.Return skill_salaries /\
    In (skill, salaries) skill_salaries /\
    (5 <= length salaries)%nat /\
    v = fround0 (mean salaries).
Proof.
  unfold skill_salary_correlation_of_frame, Py.bind.
  destruct (accumulate df []) as [d|e]; [|discriminate].
  intros Hres Hin. injection Hres as <-.
  apply In_take in Hin. apply (proj1 (In_sorted_desc _ _)) in Hin.
  unfold skill_avg_salary in Hin.
  apply in_map_iff in Hin as [[k salaries] [Heq Hkv]].
  apply filter_In in Hkv as [Hkv Hlen]. apply Nat.leb_le in Hlen.
  simpl in *. injection Heq as <- <-.
  exists d, salaries. auto.
Qed.

(** In a frame whose salary columns hold numbers and [None] values
    side by side, the row of a posting without salary carries NaN, which
    passes the truth test on [salary_max]. *)
Lemma missing_salary_is_truthy_in_mixed_column :
  cell_truthy (column_cell false None) = true /\
  cell_truthy (column_cell true None) = false.
Proof. split; reflexivity. Qed.

(** C5 (the code departs from the claim). Of the five stored postings
    with the skill [python] only four have a salary ceiling, yet
    [get_skill_salary_correlation] keeps the skill: the posting without
    salary enters the accumulation as NaN and is counted as the fifth
    record, and the reported mean is NaN. *)
Theorem skill_salary_correlation_counts_missing_salary :
  get_skill_salary_correlation (RT := Demo.runtime) Demo.salary_store
    Demo.uuids = Py.Return [("python", NaN)] /\
  length
    (List.filter
       (fun r => bool_decide (is_Some (Database.col_salary_max r)))
       (Database.jobs Demo.salary_store)) = 4%nat /\
  length (Database.jobs Demo.salary_store) = 5%nat.
Proof. repeat split; vm_compute; reflexivity. Qed.

End Correlation.

(** ** Stores written by [insert_job] can be read *)

Section Readable.
Context `{RT : Runtime}.
Import Database.

Lemma insert_skills_jobs (faults : engine_faults) (job_id : string)
    (skills : list string) :
  forall (k : nat) (db db' : JobDatabase) (rc rc' : Z),
    insert_skills faults job_id k skills db rc = inr (db', rc') ->
    jobs db' = jobs db.
Proof.
  induction skills as [|s rest IH]; intros k db db' rc rc' Hins; simpl in Hins.
  - now injection Hins as <- _.
  - unfold execute in Hins. destruct (faults (StmtInsertSkill k)); [discriminate|].
    simpl in Hins. now rewrite (IH _ _ _ _ _ Hins).
Qed.

Lemma init_db_written : Spec.written_by_insert init_db.
Proof. intros r []. Qed.

Lemma insert_job_written (faults : engine_faults) (db : JobDatabase)
    (job : Models.JobPosting) :
  Spec.reads_back job ->
  Spec.written_by_insert db ->
  Spec.written_by_insert (snd (insert_job faults db job)).
Proof.
  intros Hjob Hdb. unfold insert_job.
  destruct (insert_job_try faults db job) as [e|[b db']] eqn:Htry; [exact Hdb|].
  simpl. unfold insert_job_try, execute, insert_or_ignore in Htry.
  destruct (faults StmtInsertJob); [discriminate|].
  destruct (has_id db (col_id (insert_values job))); simpl in Htry.
  - destruct (faults StmtCommit); [discriminate|]. now injection Htry as _ <-.
  - destruct (insert_skills _ _ _ _ _ _) as [e|[db2 rc]] eqn:Hskills;
      [discriminate|].
    destruct (faults StmtCommit); [discriminate|]. injection Htry as _ <-.
    apply insert_skills_jobs in Hskills. simpl in Hskills.
    intros r Hr. rewrite Hskills in Hr. apply in_app_or in Hr as [Hr|[<-|[]]].
    + now apply Hdb.
    + now exists job.
Qed.

Lemma rows_to_jobs_returns (uuids : nat -> string) (rows : list jobs_row) :
  (forall r, In r rows -> exists j, r = insert_values j /\ Spec.reads_back j) ->
  forall k, exists jobs, rows_to_jobs rows uuids k = Py.Return jobs.
Proof.
  induction rows as [|row rows IH]; intros Hrows k; simpl.
  - now exists [].
  - destruct (Hrows row (or_introl eq_refl)) as [j [-> Hback]].
    rewrite (row_to_job_insert_values j (uuids k) Hback). simpl.
    destruct (IH (fun r Hr => Hrows r (or_intror Hr)) (S k)) as [js ->].
    simpl. eauto.
Qed.

(** On a store written by [insert_job], [search_jobs] returns a list
    when the limit is a 64-bit integer. *)
Lemma search_jobs_returns (db : JobDatabase)
    (query company location : option string) (skills : option (list string))
    (experience_level : option string) (remote_only : bool)
    (min_salary : option Q) (limit : Z) (uuids : nat -> string) :
  Spec.written_by_insert db ->
  fits_int64 limit = true ->
  exists results,
    search_jobs db query company location skills experience_level remote_only
      min_salary limit uuids = Py.Return results.
Proof.
  intros Hdb Hfits. unfold search_jobs. rewrite Hfits. cbn [negb].
  destruct (rows_to_jobs_returns uuids
              (sql_limit limit
                 (order_by_scraped_at_desc
                    (List.filter
                       (where_clause query company location experience_level
                          remote_only min_salary) (jobs db))))) with (k := 0%nat)
    as [fetched ->].
  - intros r Hr. apply In_sql_limit, In_order_by, filter_In in Hr as [Hr _].
    now apply Hdb.
  - simpl. destruct skills as [[|s ss]|]; eauto.
Qed.

End Readable.

(** * Further properties of the relational store *)

Section StoreWrites.
Context `{RT : Runtime}.
Import Database.

Lemma lower_ascii_idempotent (c : ascii) :
  Py.lower_ascii (Py.lower_ascii c) = Py.lower_ascii c.
Proof.
  unfold Py.lower_ascii.
  destruct ((65 <=? nat_of_ascii c)%nat && (nat_of_ascii c <=? 90)%nat) eqn:Hup.
  - apply andb_true_iff in Hup as [H1 H2].
    apply Nat.leb_le in H1, H2.
    rewrite nat_ascii_embedding by lia.
    replace ((65 <=? nat_of_ascii c + 32)%nat &&
             (nat_of_ascii c + 32 <=? 90)%nat) with false; [reflexivity|].
    symmetry. apply andb_false_iff. right. apply Nat.leb_gt. lia.
  - now rewrite Hup.
Qed.

Lemma lower_idempotent (s : string) : Py.lower (Py.lower s) = Py.lower s.
Proof.
  induction s as [|c s IH]; simpl; [reflexivity|].
  now rewrite lower_ascii_idempotent, IH.
Qed.

Lemma has_id_In (db : JobDatabase) (i : string) :
  has_id db i = true <-> In i (map col_id (jobs db)).
Proof.
  unfold has_id. rewrite existsb_exists, in_map_iff. split.
  - intros [r [Hr Heq]]. apply String.eqb_eq in Heq. eauto.
  - intros [r [Heq Hr]]. exists r. split; [exact Hr|]. now apply String.eqb_eq.
Qed.

Lemma insert_skills_done (faults : engine_faults) (job_id : string)
    (skills : list string) :
  forall (k : nat) (db db' : JobDatabase) (rc rc' : Z),
    insert_skills faults job_id k skills db rc = inr (db', rc') ->
    insert_skills no_faults job_id k skills db rc = inr (db', rc').
Proof.
  induction skills as [|s rest IH]; intros k db db' rc rc' Hins; simpl in *.
  - exact Hins.
  - unfold execute in *. destruct (faults (StmtInsertSkill k)); [discriminate|].
    simpl in *. now apply IH.
Qed.

(** The two outcomes of a call of [insert_job]. *)
Lemma insert_job_cases (faults : engine_faults) (db : JobDatabase)
    (job : Models.JobPosting) :
  let result := insert_job faults db job in
  (fst result = false /\ snd result = db) \/
  (fst result = true /\
   has_id db (Models.id job) = false /\
   jobs (snd result) = (jobs db ++ [insert_values job])%list /\
   job_skills (snd result) = (job_skills db ++ Spec.skill_rows job)%list).
Proof.
  simpl. unfold insert_job.
  destruct (insert_job_try faults db job) as [e|[b db']] eqn:Htry;
    [now left|].
  simpl. unfold insert_job_try, execute, insert_or_ignore in Htry.
  destruct (faults StmtInsertJob); [discriminate|].
  cbn [col_id insert_values] in Htry.
  destruct (has_id db (Models.id job)) eqn:Hid; simpl in Htry.
  - destruct (faults StmtCommit); [discriminate|].
    injection Htry as <- <-. now left.
  - destruct (insert_skills faults _ _ _ _ _) as [e|[db2 rc]] eqn:Hskills;
      [discriminate|].
    destruct (faults StmtCommit); [discriminate|]. injection Htry as <- <-.
    apply insert_skills_done in Hskills.
    rewrite insert_skills_no_faults in Hskills. injection Hskills as <- <-.
    right. simpl. unfold Spec.skill_rows.
    repeat split. now destruct (Models.skills job).
Qed.

(** X1. A call of [insert_job] either changes nothing and returns
    [False], or it returns [True] and has appended the row of the posting
    together with all of its skill rows; a main row without its skill
    rows, or skill rows without the main row, are never left behind,
    whatever statement the engine fails. *)
Theorem insert_job_all_or_nothing (faults : engine_faults) (db : JobDatabase)
    (job : Models.JobPosting) :
  let result := insert_job faults db job in
  (fst result = false /\ snd result = db) \/
  (fst result = true /\
   has_id db (Models.id job) = false /\
   jobs (snd result) = (jobs db ++ [insert_values job])%list /\
   job_skills (snd result) = (job_skills db ++ Spec.skill_rows job)%list).
Proof.
  exact (insert_job_cases faults db job).
Qed.

Lemma insert_job_keeps (faults : engine_faults) (db : JobDatabase)
    (job : Models.JobPosting) :
  Spec.keys_unique db -> Spec.skills_belong db -> Spec.remote_is_flag db ->
  Spec.keys_unique (snd (insert_job faults db job)) /\
  Spec.skills_belong (snd (insert_job faults db job)) /\
  Spec.remote_is_flag (snd (insert_job faults db job)).
Proof.
  intros Hkeys Hskills Hflags.
  destruct (insert_job_cases faults db job)
    as [[_ Hsame]|[_ [Hid [Hjobs Hrows]]]];
    [simpl in Hsame; rewrite Hsame; auto|].
  split; [|split].
  - unfold Spec.keys_unique. rewrite Hjobs, map_app. simpl.
    apply List.NoDup_app; [exact Hkeys|repeat constructor; intros []|].
    intros x Hx [<-|[]]. apply has_id_In in Hx. simpl in Hx. congruence.
  - intros job_id skill Hin. rewrite Hrows in Hin.
    assert (Hmono : forall i, has_id db i = true ->
                              has_id (snd (insert_job faults db job)) i = true).
    { intros i Hi. apply has_id_In. rewrite Hjobs, map_app.
      apply in_or_app. left. now apply has_id_In. }
    apply in_app_or in Hin as [Hin|Hin].
    + destruct (Hskills job_id skill Hin) as [Hhas Hlow]. split; auto.
    + unfold Spec.skill_rows in Hin. apply in_map_iff in Hin as [s [Heq _]].
      injection Heq as <- <-. split; [|apply lower_idempotent].
      apply has_id_In. rewrite Hjobs, map_app. apply in_or_app. right.
      now left.
  - intros r Hr. rewrite Hjobs in Hr. apply in_app_or in Hr as [Hr|[<-|[]]].
    + now apply Hflags.
    + simpl. destruct (Models.remote job); auto.
Qed.

Lemma insert_many_keeps (faults : engine_faults) (jobs : list Models.JobPosting) :
  forall db : JobDatabase,
    Spec.keys_unique db -> Spec.skills_belong db -> Spec.remote_is_flag db ->
    Spec.keys_unique (snd (insert_many faults db jobs)) /\
    Spec.skills_belong (snd (insert_many faults db jobs)) /\
    Spec.remote_is_flag (snd (insert_many faults db jobs)).
Proof.
  induction jobs as [|job rest IH]; intros db Hkeys Hskills Hflags; simpl.
  - auto.
  - destruct (insert_job_keeps faults db job Hkeys Hskills Hflags)
      as [Hk1 [Hs1 Hf1]].
    destruct (insert_job faults db job) as [b db1]. simpl in *.
    specialize (IH db1 Hk1 Hs1 Hf1).
    destruct (insert_many faults db1 rest) as [[inserted skipped] db2].
    now destruct b.
Qed.

(** X2. Whatever sequence of [insert_job], [insert_many] and
    [clear_all] calls is run on a new database, with whatever engine
    failures, the ids of table [jobs] stay pairwise distinct, every row of
    [job_skills] refers to a stored posting and holds a lower-case skill,
    and column [remote] holds [0] or [1]. *)
Theorem store_invariants (calls : list Spec.store_call) :
  Spec.keys_unique (Spec.run_calls calls init_db) /\
  Spec.skills_belong (Spec.run_calls calls init_db) /\
  Spec.remote_is_flag (Spec.run_calls calls init_db).
Proof.
  unfold Spec.run_calls.
  assert (Hinit : Spec.keys_unique init_db /\ Spec.skills_belong init_db /\
                  Spec.remote_is_flag init_db).
  { split; [constructor|split; [intros ? ? []|intros ? []]]. }
  revert Hinit. generalize init_db as db.
  induction calls as [|c calls IH]; intros db [Hk [Hs Hf]]; simpl;
    [auto|].
  apply IH. destruct c as [faults job|faults jobs|]; simpl.
  - now apply insert_job_keeps.
  - now apply insert_many_keeps.
  - split; [constructor|split; [intros ? ? []|intros ? []]].
Qed.

(** X3. [insert_many] accounts for every posting as inserted or
    skipped, the table [jobs] grows by exactly the number reported as
    inserted, and the rows stored before are still there, unchanged and
    in place. *)
Theorem insert_many_accounting (faults : engine_faults)
    (jobs : list Models.JobPosting) (db : JobDatabase) :
  let '((inserted, skipped), db') := insert_many faults db jobs in
  (inserted + skipped = length jobs)%nat /\
  (length (Database.jobs db') = length (Database.jobs db) + inserted)%nat /\
  exists added, Database.jobs db' = (Database.jobs db ++ added)%list.
Proof.
  revert db. induction jobs as [|job rest IH]; intros db; simpl.
  - repeat split; [lia|]. exists []. now rewrite app_nil_r.
  - pose proof (insert_job_cases faults db job) as Hcases.
    destruct (insert_job faults db job) as [b db1]. simpl in Hcases.
    specialize (IH db1).
    destruct (insert_many faults db1 rest) as [[inserted skipped] db2].
    destruct IH as [Hsum [Hlen [added Hadded]]].
    destruct Hcases as [[-> ->]|[-> [_ [Hjobs _]]]].
    + repeat split; [lia|lia|]. now exists added.
    + rewrite Hjobs in *. rewrite length_app in Hlen. simpl in Hlen.
      repeat split; [lia|lia|].
      exists (insert_values job :: added). rewrite Hadded.
      now rewrite <- app_assoc.
Qed.

Lemma insert_many_has_ids (jobs : list Models.JobPosting) :
  forall (db : JobDatabase) (i : string),
    has_id db i = true \/ In i (map Models.id jobs) ->
    has_id (snd (insert_many no_faults db jobs)) i = true.
Proof.
  induction jobs as [|job rest IH]; intros db i Hi; simpl.
  - destruct Hi as [Hi|[]]. exact Hi.
  - pose proof (insert_job_cases no_faults db job) as Hcases.
    destruct (has_id db (Models.id job)) eqn:Hid.
    + rewrite (insert_job_present no_faults db job Hid) in *.
      specialize (IH db i).
      destruct (insert_many no_faults db rest) as [[inserted skipped] db2].
      simpl in *. apply IH. destruct Hi as [Hi|[<-|Hi]]; auto.
    + rewrite (insert_job_fresh db job Hid) in *.
      set (db1 := {| jobs := (Database.jobs db ++ [insert_values job])%list;
                     job_skills := (job_skills db ++ Spec.skill_rows job)%list |}).
      specialize (IH db1 i).
      destruct (insert_many no_faults db1 rest) as [[inserted skipped] db2].
      simpl in *. apply IH.
      destruct Hi as [Hi|[<-|Hi]]; [left|left|now right].
      * apply has_id_In. simpl. rewrite map_app. apply in_or_app. left.
        now apply has_id_In.
      * apply (has_id_app db (insert_values job)).
Qed.



End StoreWrites.

Section StoreReads.
Context `{RT : Runtime}.
Import Database.

Lemma insert_many_distinct (jobs : list Models.JobPosting) :
  forall db : JobDatabase,
    List.NoDup (map Models.id jobs) ->
    (forall j, In j jobs -> has_id db (Models.id j) = false) ->
    insert_many no_faults db jobs =
    ((length jobs, 0)%nat,
     {| jobs := (Database.jobs db ++ map insert_values jobs)%list;
        job_skills := (job_skills db ++ concat (map Spec.skill_rows jobs))%list |}).
Proof.
  induction jobs as [|job rest IH]; intros db Hnd Hfresh; simpl.
  - rewrite !app_nil_r. now destruct db.
  - rewrite (insert_job_fresh db job (Hfresh job (or_introl eq_refl))).
    inversion Hnd as [|x l Hnotin Hnd']; subst.
    rewrite IH; [simpl; now rewrite <- !app_assoc|exact Hnd'|].
    intros j Hj.
    destruct (has_id _ (Models.id j)) eqn:Hid; [exfalso|reflexivity].
    apply has_id_In in Hid. simpl in Hid. rewrite map_app in Hid.
    apply in_app_or in Hid as [Hid|[Hid|[]]].
    + apply has_id_In in Hid. rewrite Hfresh in Hid by now right. discriminate.
    + simpl in Hid. apply Hnotin. rewrite Hid. now apply in_map.
Qed.

(** X5. After [clear_all], loading postings with pairwise distinct
    ids inserts every one of them and skips none; the table [jobs] then
    holds their rows in the order of the list and [job_skills] their skill
    rows, and [get_stats] would count [len(jobs)] postings. *)
Theorem clear_then_insert_many (db : JobDatabase) (jobs : list Models.JobPosting) :
  List.NoDup (map Models.id jobs) ->
  insert_many no_faults (clear_all db) jobs =
    ((length jobs, 0)%nat,
     {| jobs := map insert_values jobs;
        job_skills := concat (map Spec.skill_rows jobs) |}) /\
  length (Database.jobs (snd (insert_many no_faults (clear_all db) jobs))) =
    length jobs.
Proof.
  intros Hnd.
  assert (Heq := insert_many_distinct jobs (clear_all db) Hnd
                   (fun j _ => eq_refl)).
  split; [exact Heq|]. rewrite Heq. simpl. now rewrite length_map.
Qed.

Lemma find_by_id (rows : list jobs_row) (job_id : string) :
  match List.find (fun r => String.eqb (col_id r) job_id) rows with
  | Some r => In r rows /\ col_id r = job_id
  | None => ~ In job_id (map col_id rows)
  end.
Proof.
  induction rows as [|r rows IH]; simpl; [tauto|].
  destruct (String.eqb (col_id r) job_id) eqn:Heq.
  - apply String.eqb_eq in Heq. auto.
  - apply String.eqb_neq in Heq.
    destruct (List.find _ rows); [tauto|]. intros [H|H]; tauto.
Qed.

(** X6. [get_job] answers a lookup of an id that is not stored with
    [None], raising nothing. On a store written by [insert_job] a lookup
    of a stored id returns the fields of a posting inserted under that id,
    as a new posting built with the draw [uuid4]. *)
Theorem get_job_lookup (db : JobDatabase) (job_id uuid4 : string) :
  Spec.written_by_insert db ->
  (has_id db job_id = false -> get_job db job_id uuid4 = Py.Return None) /\
  (has_id db job_id = true ->
   exists stored,
     In (insert_values stored) (jobs db) /\ Models.id stored = job_id /\
     get_job db job_id uuid4 =
       Py.Return (Some (Models.new (Models.fields_of stored) uuid4))).
Proof.
  intros Hdb. unfold get_job.
  pose proof (find_by_id (jobs db) job_id) as Hfind.
  destruct (List.find _ (jobs db)) as [r|].
  - destruct Hfind as [Hr Hid]. split.
    + intros Hno. exfalso.
      assert (Hyes : has_id db job_id = true).
      { apply has_id_In. rewrite <- Hid. now apply in_map. }
      congruence.
    + intros _. destruct (Hdb r Hr) as [stored [-> Hback]].
      exists stored. split; [exact Hr|]. split; [exact Hid|].
      now rewrite (row_to_job_insert_values stored uuid4 Hback).
  - split; [reflexivity|]. intros Hyes. apply has_id_In in Hyes. tauto.
Qed.

Lemma leb_trans (a b c : string) :
  String.leb a b = true -> String.leb b c = true -> String.leb a c = true.
Proof.
  unfold String.leb. intros Hab Hbc.
  pose proof (String_as_OT.compare_spec a b) as Sab.
  pose proof (String_as_OT.compare_spec b c) as Sbc.
  pose proof (String_as_OT.compare_spec a c) as Sac.
  change String_as_OT.compare with String.compare in *.
  destruct (String.compare a c); try reflexivity.
  inversion Sac as [| |Hca]. unfold String_as_OT.eq in *.
  destruct (String.compare a b); try discriminate;
  destruct (String.compare b c); try discriminate;
  inversion Sab; inversion Sbc; subst.
  - exfalso. eapply (StrictOrder_Irreflexive (R:=String_as_OT.lt)); eauto.
  - exfalso. eapply (StrictOrder_Irreflexive (R:=String_as_OT.lt)).
    eapply (StrictOrder_Transitive (R:=String_as_OT.lt)); eauto.
  - exfalso. eapply (StrictOrder_Irreflexive (R:=String_as_OT.lt)).
    eapply (StrictOrder_Transitive (R:=String_as_OT.lt)); eauto.
  - exfalso. eapply (StrictOrder_Irreflexive (R:=String_as_OT.lt)).
    eapply (StrictOrder_Transitive (R:=String_as_OT.lt)); [eassumption|].
    eapply (StrictOrder_Transitive (R:=String_as_OT.lt)); eauto.
Qed.

Lemma insert_desc_sorted (r : jobs_row) (sorted : list jobs_row) :
  StronglySorted Spec.newest_first sorted ->
  StronglySorted Spec.newest_first (insert_desc r sorted).
Proof.
  induction 1 as [|x rest Hsorted IH Hall]; simpl.
  - repeat constructor.
  - destruct (String.leb (col_scraped_at x) (col_scraped_at r)) eqn:Hle.
    + constructor; [now constructor|]. constructor; [exact Hle|].
      rewrite List.Forall_forall in *. intros y Hy.
      unfold Spec.newest_first in *. eapply leb_trans; [now apply Hall|exact Hle].
    + constructor; [exact IH|].
      rewrite List.Forall_forall in *. intros y Hy.
      apply In_insert_desc in Hy as [->|Hy]; [|now apply Hall].
      unfold Spec.newest_first.
      destruct (String.leb_total (col_scraped_at r) (col_scraped_at x));
        congruence.
Qed.

Lemma order_by_sorted (rows : list jobs_row) :
  StronglySorted Spec.newest_first (order_by_scraped_at_desc rows).
Proof.
  unfold order_by_scraped_at_desc.
  induction rows as [|r rows IH]; simpl; [constructor|].
  now apply insert_desc_sorted.
Qed.

Lemma length_insert_desc (r : jobs_row) (sorted : list jobs_row) :
  length (insert_desc r sorted) = S (length sorted).
Proof.
  induction sorted as [|x rest IH]; simpl; [reflexivity|].
  destruct (String.leb _ _); simpl; [reflexivity|now rewrite IH].
Qed.

Lemma length_order_by (rows : list jobs_row) :
  length (order_by_scraped_at_desc rows) = length rows.
Proof.
  unfold order_by_scraped_at_desc.
  induction rows as [|r rows IH]; simpl; [reflexivity|].
  now rewrite length_insert_desc, IH.
Qed.

Lemma StronglySorted_take {A : Type} (R : A -> A -> Prop) (n : nat) (l : list A) :
  StronglySorted R l -> StronglySorted R (take n l).
Proof.
  intros Hl. revert n. induction Hl as [|x l Hl IH Hall]; intros [|n]; simpl;
    try constructor; [apply IH|].
  rewrite List.Forall_forall in *. intros y Hy. apply Hall.
  now apply In_take in Hy.
Qed.

Lemma StronglySorted_filter {A : Type} (R : A -> A -> Prop) (f : A -> bool)
    (l : list A) :
  StronglySorted R l -> StronglySorted R (List.filter f l).
Proof.
  induction 1 as [|x l Hl IH Hall]; simpl; [constructor|].
  destruct (f x); [|exact IH]. constructor; [exact IH|].
  rewrite List.Forall_forall in *. intros y Hy.
  apply filter_In in Hy as [Hy _]. now apply Hall.
Qed.

Lemma rows_to_jobs_sorted (uuids : nat -> string) (rows : list jobs_row) :
  (forall r, In r rows -> exists j, r = insert_values j /\ Spec.reads_back j) ->
  StronglySorted Spec.newest_first rows ->
  forall (k : nat) (jobs : list Models.JobPosting),
    rows_to_jobs rows uuids k = Py.Return jobs ->
    StronglySorted Spec.scraped_not_before jobs /\
    forall j, In j jobs ->
      exists r, In r rows /\ col_scraped_at r = isoformat (Models.scraped_at j).
Proof.
  intros Hrows Hsorted. induction Hsorted as [|row rows Hsorted IH Hall];
    intros k jobs Hjobs; simpl in Hjobs.
  - injection Hjobs as <-. split; [constructor|intros j []].
  - destruct (Hrows row (or_introl eq_refl)) as [j0 [-> Hback]].
    rewrite (row_to_job_insert_values j0 (uuids k) Hback) in Hjobs.
    simpl in Hjobs. unfold Py.bind in Hjobs.
    destruct (rows_to_jobs rows uuids (S k)) as [js|e] eqn:Hrest;
      [|discriminate].
    injection Hjobs as <-.
    destruct (IH (fun r Hr => Hrows r (or_intror Hr)) (S k) js Hrest)
      as [Hjs Hkeys].
    split.
    + constructor; [exact Hjs|].
      rewrite List.Forall_forall in *. intros j Hj.
      destruct (Hkeys j Hj) as [r [Hr Hkey]].
      specialize (Hall r Hr). unfold Spec.newest_first in Hall.
      unfold Spec.scraped_not_before. simpl. now rewrite <- Hkey.
    + intros j [<-|Hj].
      * exists (insert_values j0). split; [now left|reflexivity].
      * destruct (Hkeys j Hj) as [r [Hr Hkey]]. exists r. split; [now right|exact Hkey].
Qed.

(** X7. On a store written by [insert_job], the postings returned by
    [search_jobs] (and so by [get_all_jobs]) come most recently scraped
    first: the ISO text of [scraped_at] never increases along the result,
    also after the skills post-filter. *)
Theorem search_jobs_newest_first (db : JobDatabase)
    (query company location : option string) (skills : option (list string))
    (experience_level : option string) (remote_only : bool)
    (min_salary : option Q) (limit : Z) (uuids : nat -> string)
    (results : list Models.JobPosting) :
  Spec.written_by_insert db ->
  search_jobs db query company location skills experience_level remote_only
    min_salary limit uuids = Py.Return results ->
  StronglySorted Spec.scraped_not_before results.
Proof.
  intros Hdb Hres.
  destruct (search_jobs_fetched _ _ _ _ _ _ _ _ _ _ _ Hres)
    as [fetched [Hfetched ->]].
  assert (Hsorted : StronglySorted Spec.scraped_not_before fetched).
  { eapply rows_to_jobs_sorted; [| |exact Hfetched].
    - intros r Hr. apply In_sql_limit, In_order_by, filter_In in Hr as [Hr _].
      now apply Hdb.
    - unfold sql_limit. destruct (limit <? 0)%Z;
        [|apply StronglySorted_take]; apply order_by_sorted. }
  destruct skills as [[|s ss]|]; try exact Hsorted.
  now apply StronglySorted_filter.
Qed.

Lemma filter_without_conditions (rows : list jobs_row) :
  List.filter (where_clause None None None None false None) rows = rows.
Proof.
  induction rows as [|r rows IH]; [reflexivity|].
  cbn [List.filter]. unfold where_clause at 1. simpl. now rewrite IH.
Qed.

(** X8. On a store written by [insert_job], [get_all_jobs] with a
    limit that is a 64-bit integer returns exactly [min(limit, number of
    rows)] postings when the limit is not negative, and every stored
    posting when it is negative. With any other limit the query fails and
    the call raises [sqlite3.IntegrityError], whatever the store holds. *)
Theorem get_all_jobs_count (db : JobDatabase) (limit : Z) (uuids : nat -> string) :
  Spec.written_by_insert db ->
  ((- 2 ^ 63 <= limit < 2 ^ 63)%Z ->
   exists results,
     get_all_jobs db limit uuids = Py.Return results /\
     length results =
       if (limit <? 0)%Z then length (jobs db)
       else Nat.min (Z.to_nat limit) (length (jobs db))) /\
  ((limit < - 2 ^ 63 \/ 2 ^ 63 <= limit)%Z ->
   get_all_jobs db limit uuids = Py.Raise Py.IntegrityError).
Proof.
  intros Hdb. split.
  - intros Hrange.
    assert (Hfits : fits_int64 limit = true).
    { unfold fits_int64. apply andb_true_iff.
      split; [apply Z.leb_le|apply Z.ltb_lt]; lia. }
    destruct (search_jobs_returns db None None None None None false None limit
                uuids Hdb Hfits) as [results Hres].
    exists results. split; [exact Hres|].
    destruct (search_jobs_fetched _ _ _ _ _ _ _ _ _ _ _ Hres)
      as [fetched [Hfetched ->]].
    destruct (rows_to_jobs_In uuids _ 0 fetched Hfetched) as [-> _].
    rewrite filter_without_conditions. unfold sql_limit.
    destruct (limit <? 0)%Z; [apply length_order_by|].
    now rewrite length_take, length_order_by.
  - intros Hout. unfold get_all_jobs, search_jobs.
    replace (fits_int64 limit) with false; [reflexivity|].
    symmetry. unfold fits_int64. apply andb_false_iff.
    destruct Hout; [left; apply Z.leb_gt|right; apply Z.ltb_ge]; lia.
Qed.

End StoreReads.

(** * Tallies and rankings *)

Section Tallies.

Lemma dict_count_incr (k k' : string) (d : list (string * nat)) :
  Spec.dict_count k' (Py.dict_incr k d) =
  if String.eqb k k' then S (Spec.dict_count k' d) else Spec.dict_count k' d.
Proof.
  induction d as [|[k0 n] rest IH]; simpl.
  - reflexivity.
  - destruct (String.eqb k0 k) eqn:E0; simpl.
    + apply String.eqb_eq in E0. subst k0.
      now destruct (String.eqb k k').
    + destruct (String.eqb k0 k') eqn:E1; [|exact IH].
      apply String.eqb_eq in E1. subst k0. now rewrite String.eqb_sym, E0.
Qed.

Lemma dict_incr_keys (k k' : string) (d : list (string * nat)) :
  In k' (map fst (Py.dict_incr k d)) <-> k' = k \/ In k' (map fst d).
Proof.
  induction d as [|[k0 n] rest IH]; simpl; [intuition|].
  destruct (String.eqb k0 k) eqn:E0; simpl.
  - apply String.eqb_eq in E0. subst k0. intuition.
  - rewrite IH. intuition.
Qed.

Lemma dict_incr_NoDup (k : string) (d : list (string * nat)) :
  List.NoDup (map fst d) -> List.NoDup (map fst (Py.dict_incr k d)).
Proof.
  induction d as [|[k0 n] rest IH]; simpl; intros Hnd.
  - repeat constructor. intros [].
  - inversion Hnd as [|x l Hnotin Hnd']; subst.
    destruct (String.eqb k0 k) eqn:E0; simpl; [now constructor|].
    constructor; [|now apply IH].
    rewrite dict_incr_keys. apply String.eqb_neq in E0. intuition.
Qed.

Lemma dict_count_In (d : list (string * nat)) :
  List.NoDup (map fst d) ->
  forall k n, In (k, n) d -> Spec.dict_count k d = n.
Proof.
  induction d as [|[k0 n0] rest IH]; simpl; intros Hnd k n Hin; [tauto|].
  inversion Hnd as [|x l Hnotin Hnd']; subst.
  destruct Hin as [Heq|Hin].
  - injection Heq as -> ->. now rewrite String.eqb_refl.
  - destruct (String.eqb k0 k) eqn:E0; [|now apply IH].
    apply String.eqb_eq in E0. subst k0. exfalso. apply Hnotin.
    change k with (fst (k, n)). now apply in_map.
Qed.

Lemma dict_count_positive (d : list (string * nat)) (k : string) :
  (0 < Spec.dict_count k d)%nat -> In (k, Spec.dict_count k d) d.
Proof.
  induction d as [|[k0 n0] rest IH]; simpl; intros Hpos; [lia|].
  destruct (String.eqb k0 k) eqn:E0.
  - apply String.eqb_eq in E0. subst k0. now left.
  - right. now apply IH.
Qed.

Lemma tally_fold {A : Type} (key : A -> string) (l : list A) :
  forall d : list (string * nat),
    List.NoDup (map fst d) ->
    (forall k, In k (map fst d) -> (0 < Spec.dict_count k d)%nat) ->
    let d' := fold_left (fun d x => Py.dict_incr (key x) d) l d in
    List.NoDup (map fst d') /\
    (forall k, In k (map fst d') -> (0 < Spec.dict_count k d')%nat) /\
    forall k, Spec.dict_count k d' =
              (Spec.dict_count k d + Spec.occurrences key k l)%nat.
Proof.
  induction l as [|x l IH]; intros d Hnd Hpos; simpl.
  - repeat split; auto. all: intros k; unfold Spec.occurrences; simpl; lia.
  - destruct (IH (Py.dict_incr (key x) d)) as [Hnd' [Hpos' Hcount]].
    + now apply dict_incr_NoDup.
    + intros k Hk. rewrite dict_count_incr.
      destruct (String.eqb (key x) k) eqn:E; [lia|].
      apply dict_incr_keys in Hk as [->|Hk]; [|now apply Hpos].
      now rewrite String.eqb_refl in E.
    + repeat split; auto. intros k. rewrite Hcount, dict_count_incr.
      unfold Spec.occurrences. simpl.
      destruct (String.eqb (key x) k); simpl; lia.
Qed.

(** A tally has one entry per key that occurs, holding the number of
    its occurrences. *)
Lemma tally_spec {A : Type} (key : A -> string) (l : list A) :
  List.NoDup (map fst (Py.tally key l)) /\
  forall k n, In (k, n) (Py.tally key l) <->
              n = Spec.occurrences key k l /\ (0 < n)%nat.
Proof.
  destruct (tally_fold key l []) as [Hnd [Hpos Hcount]];
    [constructor|intros k []|].
  fold (Py.tally key l) in *. split; [exact Hnd|].
  intros k n. split.
  - intros Hin. pose proof (dict_count_In _ Hnd k n Hin) as Hn.
    rewrite Hcount in Hn. simpl in Hn. split; [now symmetry|].
    rewrite <- Hn, <- (Nat.add_0_l (Spec.occurrences _ _ _)).
    change 0%nat with (Spec.dict_count k []) at 2. rewrite <- Hcount.
    apply Hpos. change k with (fst (k, n)). now apply in_map.
  - intros [-> Hpos']. specialize (Hcount k). simpl in Hcount.
    rewrite <- Hcount in *. now apply dict_count_positive.
Qed.

Lemma insert_by_count_perm (x : string * nat) (sorted : list (string * nat)) :
  Permutation (Py.insert_by_count x sorted) (x :: sorted).
Proof.
  induction sorted as [|y rest IH]; simpl; [reflexivity|].
  destruct (snd x <? snd y)%nat; [|reflexivity].
  rewrite IH. apply perm_swap.
Qed.

Lemma sorted_by_count_perm (items : list (string * nat)) :
  Permutation (Py.sorted_by_count items) items.
Proof.
  unfold Py.sorted_by_count. induction items as [|x items IH]; simpl;
    [reflexivity|].
  rewrite insert_by_count_perm. now constructor.
Qed.

Lemma insert_by_count_sorted (x : string * nat) (sorted : list (string * nat)) :
  StronglySorted Spec.count_not_below sorted ->
  StronglySorted Spec.count_not_below (Py.insert_by_count x sorted).
Proof.
  induction 1 as [|y rest Hsorted IH Hall]; simpl.
  - repeat constructor.
  - destruct (snd x <? snd y)%nat eqn:Hlt.
    + apply Nat.ltb_lt in Hlt. constructor; [exact IH|].
      rewrite List.Forall_forall in *. intros z Hz.
      apply (Permutation_in _ (insert_by_count_perm x rest)) in Hz.
      destruct Hz as [<-|Hz]; [unfold Spec.count_not_below; lia|now apply Hall].
    + apply Nat.ltb_ge in Hlt. constructor; [now constructor|].
      constructor; [exact Hlt|].
      rewrite List.Forall_forall in *. intros z Hz.
      specialize (Hall z Hz). unfold Spec.count_not_below in *. lia.
Qed.

Lemma sorted_by_count_sorted (items : list (string * nat)) :
  StronglySorted Spec.count_not_below (Py.sorted_by_count items).
Proof.
  unfold Py.sorted_by_count. induction items as [|x items IH]; simpl;
    [constructor|]. now apply insert_by_count_sorted.
Qed.

Lemma StronglySorted_split {A : Type} (R : A -> A -> Prop) (n : nat) (l : list A) :
  StronglySorted R l ->
  forall x y, In x (take n l) -> In y (drop n l) -> R x y.
Proof.
  intros Hl. revert n. induction Hl as [|a l Hl IH Hall]; intros n x y Hx Hy.
  - destruct n; destruct Hx.
  - destruct n as [|n]; simpl in *; [tauto|].
    destruct Hx as [<-|Hx]; [|eauto].
    rewrite List.Forall_forall in Hall. apply Hall.
    rewrite <- (take_drop n l). apply in_or_app. now right.
Qed.

(** The first [n] entries of a ranked tally: at most [n] of them, one
    per key, in descending order of count, each with the true number of
    occurrences of its key, and no key left out occurs more often than a
    key that is listed. *)
Lemma ranking_spec {A : Type} (key : A -> string) (l : list A) (n : nat) :
  let top := take n (Py.sorted_by_count (Py.tally key l)) in
  (length top <= n)%nat /\
  List.NoDup (map fst top) /\
  StronglySorted Spec.count_not_below top /\
  (forall k c, In (k, c) top ->
     c = Spec.occurrences key k l /\ (1 <= c)%nat) /\
  (forall k, (0 < Spec.occurrences key k l)%nat -> ~ In k (map fst top) ->
     forall k' c', In (k', c') top -> (Spec.occurrences key k l <= c')%nat).
Proof.
  intros top. subst top.
  destruct (tally_spec key l) as [Hnd Hspec].
  pose proof (sorted_by_count_perm (Py.tally key l)) as Hperm.
  pose proof (sorted_by_count_sorted (Py.tally key l)) as Hsorted.
  set (ranked := Py.sorted_by_count (Py.tally key l)) in *.
  assert (Hnd' : List.NoDup (map fst ranked)).
  { eapply Permutation_NoDup; [|exact Hnd]. symmetry.
    now apply Permutation_map. }
  split; [apply firstn_le_length|]. split; [|split; [|split]].
  - rewrite <- (take_drop n ranked), map_app in Hnd'.
    now apply NoDup_app_remove_r in Hnd'.
  - now apply StronglySorted_take.
  - intros k c Hin. apply In_take in Hin.
    apply (Permutation_in _ Hperm), Hspec in Hin. lia.
  - intros k Hocc Hout k' c' Hin.
    assert (Hk : In (k, Spec.occurrences key k l) ranked).
    { apply (Permutation_in _ (Permutation_sym Hperm)). now apply Hspec. }
    rewrite <- (take_drop n ranked) in Hk. apply in_app_or in Hk as [Hk|Hk].
    + exfalso. apply Hout. change k with (fst (k, Spec.occurrences key k l)).
      now apply in_map.
    + exact (StronglySorted_split _ n ranked Hsorted _ _ Hin Hk).
Qed.

End Tallies.

(** * Statistics of the relational store *)

Section Statistics.
Import Database.

Lemma sql_avg_some (l : list Q) : l <> [] -> exists a, sql_avg l = Some a.
Proof. destruct l; [congruence|simpl; eauto]. Qed.

Lemma salary_entries_cases (rows : list jobs_row) (levels : list string) :
  (exists es, salary_entries rows levels = Py.Return es) \/
  salary_entries rows levels = Py.Raise Py.TypeError.
Proof.
  induction levels as [|level rest IH]; simpl; [eauto|].
  unfold salary_entry.
  destruct (sql_avg _); [|now right].
  destruct (sql_avg _); [|now right]. simpl.
  destruct IH as [[es Hes]|Hes]; rewrite Hes; simpl; eauto.
Qed.

Lemma salary_entries_returns (rows : list jobs_row) (levels : list string) :
  (forall level, In level levels ->
     exists e, salary_entry rows level = Py.Return e) ->
  exists es, salary_entries rows levels = Py.Return es.
Proof.
  induction levels as [|level rest IH]; intros Hall; simpl; [eauto|].
  destruct (Hall level (or_introl eq_refl)) as [e ->]. simpl.
  destruct IH as [es ->]; [intros l Hl; apply Hall; now right|].
  simpl. eauto.
Qed.

Lemma salary_entry_error (rows : list jobs_row) (level : string) (e : Py.exn) :
  salary_entry rows level = Py.Raise e -> e = Py.TypeError.
Proof.
  unfold salary_entry. destruct (sql_avg _); [|congruence].
  destruct (sql_avg _); congruence.
Qed.

Lemma salary_entries_raises (rows : list jobs_row) (levels : list string)
    (level : string) :
  In level levels ->
  salary_entry rows level = Py.Raise Py.TypeError ->
  salary_entries rows levels = Py.Raise Py.TypeError.
Proof.
  induction levels as [|l rest IH]; intros Hin Hraise; simpl; [destruct Hin|].
  destruct Hin as [->|Hin]; [now rewrite Hraise|].
  destruct (salary_entry rows l) as [e|e] eqn:Hl; simpl.
  - now rewrite (IH Hin Hraise).
  - now rewrite (salary_entry_error rows l e Hl).
Qed.

Lemma salaried_In (db : JobDatabase) (r : jobs_row) :
  In r (List.filter (fun r => bool_decide (is_Some (col_salary_min r)))
          (jobs db)) <->
  In r (jobs db) /\ col_salary_min r <> None.
Proof.
  rewrite filter_In, bool_decide_eq_true. split; intros [Hr Hmin]; split; auto.
  - destruct Hmin as [x Hx]. congruence.
  - destruct (col_salary_min r); [eauto|congruence].
Qed.

Lemma omap_nonempty {A B : Type} (f : A -> option B) (l : list A) (x : A) (y : B) :
  In x l -> f x = Some y -> omap f l <> [].
Proof.
  intros Hx Hy Hnil.
  assert (Hin : y ∈ omap f l).
  { apply list_elem_of_omap. exists x. split; [now apply list_elem_of_In|exact Hy]. }
  rewrite Hnil in Hin. now apply not_elem_of_nil in Hin.
Qed.

Lemma In_remove_dups (x : string) (l : list string) :
  In x (remove_dups l) <-> In x l.
Proof.
  rewrite <- !list_elem_of_In. apply elem_of_remove_dups.
Qed.

Lemma remote_sums (rows : list jobs_row) :
  (forall r, In r rows -> col_remote r = 0%Z \/ col_remote r = 1%Z) ->
  let ones := foldr Z.add 0%Z
                (map (fun r => if (col_remote r =? 1)%Z then 1%Z else 0%Z) rows) in
  let zeros := foldr Z.add 0%Z
                 (map (fun r => if (col_remote r =? 0)%Z then 1%Z else 0%Z) rows) in
  (0 <= ones)%Z /\ (0 <= zeros)%Z /\ (ones + zeros = Z.of_nat (length rows))%Z.
Proof.
  induction rows as [|r rows IH]; intros Hflags; simpl; [lia|].
  destruct IH as [H1 [H0 Hsum]]; [intros x Hx; apply Hflags; now right|].
  destruct (Hflags r (or_introl eq_refl)) as [Hr|Hr]; rewrite Hr; simpl; lia.
Qed.

(** What [get_stats] returns on a store without open-ended salary ranges. *)
Lemma get_stats_outcome (db : JobDatabase) :
  Spec.floors_have_ceilings db ->
  exists st,
    get_stats db = Py.Return st /\
    total_jobs st = Z.of_nat (length (jobs db)) /\
    (jobs db = [] -> remote_distribution st = (None, None)) /\
    (jobs db <> [] -> Spec.remote_is_flag db ->
     exists remote onsite,
       remote_distribution st = (Some remote, Some onsite) /\
       (0 <= remote)%Z /\ (0 <= onsite)%Z /\
       (remote + onsite = total_jobs st)%Z).
Proof.
  intros Hceil. unfold get_stats.
  set (salaried := List.filter _ (jobs db)).
  destruct (salary_entries_returns salaried
              (remove_dups (map col_experience_level salaried)))
    as [es ->].
  - intros level Hlevel. apply (proj1 (In_remove_dups _ _)) in Hlevel.
    apply in_map_iff in Hlevel as [r [Hlev Hr]].
    assert (Hgroup : In r (List.filter
              (fun r => String.eqb (col_experience_level r) level) salaried)).
    { apply filter_In. split; [exact Hr|]. now apply String.eqb_eq. }
    apply salaried_In in Hr as [Hr Hmin].
    pose proof (Hceil r Hr Hmin) as Hmax.
    destruct (col_salary_min r) as [lo|] eqn:Hlo; [|congruence].
    destruct (col_salary_max r) as [hi|] eqn:Hhi; [|congruence].
    unfold salary_entry.
    destruct (sql_avg_some _ (omap_nonempty col_salary_min _ r lo Hgroup Hlo))
      as [a ->].
    destruct (sql_avg_some _ (omap_nonempty col_salary_max _ r hi Hgroup Hhi))
      as [b ->].
    eauto.
  - simpl. eexists. split; [reflexivity|]. simpl.
    split; [reflexivity|]. split.
    + intros ->. reflexivity.
    + intros Hne Hflags. unfold Spec.remote_is_flag in Hflags.
      destruct (jobs db) as [|r rows] eqn:Hrows; [congruence|].
      destruct (remote_sums (r :: rows) Hflags) as [H1 [H0 Hsum]].
      unfold sql_sum. cbn [map]. eexists _, _. split; [reflexivity|].
      cbn [map] in *. auto.
Qed.

(** X9. When every stored posting with a salary floor also has a
    salary ceiling, [get_stats] returns; [total_jobs] is the number of
    rows; on an empty table both remote counts are [None]; on a non-empty
    table whose [remote] column holds flags they are numbers that add up
    to [total_jobs]. *)
Theorem get_stats_returns (db : JobDatabase) :
  Spec.floors_have_ceilings db ->
  exists st,
    get_stats db = Py.Return st /\
    total_jobs st = Z.of_nat (length (jobs db)) /\
    (jobs db = [] -> remote_distribution st = (None, None)) /\
    (jobs db <> [] -> Spec.remote_is_flag db ->
     exists remote onsite,
       remote_distribution st = (Some remote, Some onsite) /\
       (0 <= remote)%Z /\ (0 <= onsite)%Z /\
       (remote + onsite = total_jobs st)%Z).
Proof.
  exact (get_stats_outcome db).
Qed.

(** X10. A stored posting with a salary floor whose experience level
    has no posting with both a floor and a ceiling makes [get_stats] raise
    [TypeError], and with it every accessor of the analytics that starts
    from [get_stats]: skill demand, top companies, experience
    distribution, salary by experience and remote statistics. *)
Theorem get_stats_salary_gap (db : JobDatabase) (top_n : Z) :
  Spec.salary_gap db ->
  get_stats db = Py.Raise Py.TypeError /\
  Analyzer.get_skill_demand db top_n = Py.Raise Py.TypeError /\
  Analyzer.get_top_companies db top_n = Py.Raise Py.TypeError /\
  Analyzer.get_experience_distribution db = Py.Raise Py.TypeError /\
  Analyzer.get_salary_by_experience db = Py.Raise Py.TypeError /\
  Analyzer.get_remote_stats db = Py.Raise Py.TypeError.
Proof.
  intros [r [Hr [Hmin Hgap]]].
  assert (Hstats : get_stats db = Py.Raise Py.TypeError).
  { unfold get_stats.
    set (salaried := List.filter _ (jobs db)).
    assert (Hsal : In r salaried) by now apply salaried_In.
    rewrite (salary_entries_raises salaried _ (col_experience_level r));
      [reflexivity| |].
    - apply (proj2 (In_remove_dups _ _)). now apply in_map.
    - unfold salary_entry.
      set (group := List.filter _ salaried).
      assert (Hnone : omap col_salary_max group = []).
      { destruct (omap col_salary_max group) as [|y ys] eqn:Hom; [reflexivity|].
        exfalso.
        assert (Hy : y ∈ omap col_salary_max group)
          by (rewrite Hom; apply list_elem_of_here).
        apply list_elem_of_omap in Hy as [r' [Hr' Hmax]].
        apply list_elem_of_In, filter_In in Hr' as [Hr' Hlev].
        apply String.eqb_eq in Hlev. apply salaried_In in Hr' as [Hr' Hmin'].
        rewrite (Hgap r' Hr' Hlev Hmin') in Hmax. discriminate. }
      rewrite Hnone. simpl. now destruct (sql_avg _). }
  unfold Analyzer.get_skill_demand, Analyzer.get_top_companies,
    Analyzer.get_experience_distribution, Analyzer.get_salary_by_experience,
    Analyzer.get_remote_stats.
  rewrite Hstats. repeat split; reflexivity.
Qed.

Lemma round_ndigits_between (ndigits : nat) (a b : Z) (q : Q) :
  (inject_Z a <= q)%Q -> (q <= inject_Z b)%Q ->
  (inject_Z a <= Py.round_ndigits ndigits q)%Q /\
  (Py.round_ndigits ndigits q <= inject_Z b)%Q.
Proof.
  intros Ha Hb. unfold Py.round_ndigits.
  set (s := (10 ^ Z.of_nat ndigits)%Z).
  assert (Hs : (0 < s)%Z) by (subst s; apply Z.pow_pos_nonneg; lia).
  assert (HsQ : (0 < inject_Z s)%Q).
  { replace 0%Q with (inject_Z 0) by reflexivity. now rewrite <- Zlt_Qlt. }
  destruct (round_half_even_between (a * s) (b * s) (q * inject_Z s))
    as [Hlo Hhi].
  - rewrite inject_Z_mult. nra.
  - rewrite inject_Z_mult. nra.
  - rewrite Zle_Qle, inject_Z_mult in Hlo, Hhi. split.
    + apply Qle_shift_div_l; [exact HsQ|exact Hlo].
    + apply Qle_shift_div_r; [exact HsQ|exact Hhi].
Qed.

Lemma percentage_bounds (part total : Z) :
  (0 <= part)%Z -> (part <= total)%Z ->
  (0 <= Analyzer.percentage part total)%Q /\
  (Analyzer.percentage part total <= 100)%Q.
Proof.
  intros Hpart Hle. unfold Analyzer.percentage.
  destruct (0 <? total)%Z eqn:Hpos; [|split; lra].
  apply Z.ltb_lt in Hpos.
  assert (HtQ : (0 < inject_Z total)%Q).
  { replace 0%Q with (inject_Z 0) by reflexivity. now rewrite <- Zlt_Qlt. }
  assert (HpQ : (0 <= inject_Z part)%Q).
  { replace 0%Q with (inject_Z 0) by reflexivity. now rewrite <- Zle_Qle. }
  assert (HleQ : (inject_Z part <= inject_Z total)%Q) by now rewrite <- Zle_Qle.
  assert (Hfrac0 : (0 <= inject_Z part / inject_Z total)%Q).
  { apply Qle_shift_div_l; [exact HtQ|lra]. }
  assert (Hfrac1 : (inject_Z part / inject_Z total <= 1)%Q).
  { apply Qle_shift_div_r; [exact HtQ|lra]. }
  apply (round_ndigits_between 1 0 100).
  - change (inject_Z 0) with 0%Q. nra.
  - change (inject_Z 100) with 100%Q. nra.
Qed.

Lemma sum_of_flags (test : jobs_row -> bool) (rows : list jobs_row) :
  foldr Z.add 0%Z (map (fun r => if test r then 1%Z else 0%Z) rows) =
  Z.of_nat (length (List.filter test rows)).
Proof.
  induction rows as [|r rows IH]; [reflexivity|].
  cbn [map foldr List.filter]. rewrite IH.
  destruct (test r); cbn [length]; lia.
Qed.

Lemma sql_sum_flags (test : jobs_row -> bool) (rows : list jobs_row) :
  rows <> [] ->
  sql_sum (map (fun r => if test r then 1%Z else 0%Z) rows) =
  Some (Z.of_nat (length (List.filter test rows))).
Proof.
  intros Hne. rewrite <- sum_of_flags.
  destruct rows as [|r rows]; [congruence|reflexivity].
Qed.

(** X11. On a non-empty store whose [remote] column holds flags and on
    which [get_stats] succeeds, [get_remote_stats] returns: its remote
    count is the number of stored postings with [remote = 1], its on-site
    count the number of those with [remote = 0], neither is negative and
    together they are the number of stored postings. *)
Theorem get_remote_stats_nonempty (db : JobDatabase) (st : stats) :
  jobs db <> [] ->
  Spec.remote_is_flag db ->
  get_stats db = Py.Return st ->
  exists rs,
    Analyzer.get_remote_stats db = Py.Return rs /\
    Analyzer.remote_count rs =
      Z.of_nat (length (List.filter (fun r => (col_remote r =? 1)%Z) (jobs db))) /\
    Analyzer.onsite_count rs =
      Z.of_nat (length (List.filter (fun r => (col_remote r =? 0)%Z) (jobs db))) /\
    (0 <= Analyzer.remote_count rs)%Z /\ (0 <= Analyzer.onsite_count rs)%Z /\
    (Analyzer.remote_count rs + Analyzer.onsite_count rs =
     Z.of_nat (length (jobs db)))%Z.
Proof.
  intros Hne Hflags Hst. unfold Analyzer.get_remote_stats. rewrite Hst.
  unfold get_stats, Py.bind in Hst.
  destruct (salary_entries _ _) as [by_level|]; [|discriminate].
  injection Hst as <-. cbn [Py.bind remote_distribution].
  pose proof (remote_sums (jobs db) Hflags) as Hsums. cbv zeta in Hsums.
  rewrite !sum_of_flags in Hsums.
  rewrite !sql_sum_flags by exact Hne. cbn [Analyzer.add_counts Py.bind].
  eexists. split; [reflexivity|].
  cbn [Analyzer.remote_count Analyzer.onsite_count].
  destruct Hsums as [H1 [H0 Hsum]]. auto.
Qed.

Lemma sum_counts_incr (k : string) (d : list (string * nat)) :
  list_sum (map snd (Py.dict_incr k d)) = S (list_sum (map snd d)).
Proof.
  induction d as [|[k0 n] rest IH]; simpl; [reflexivity|].
  destruct (String.eqb k0 k); simpl; [reflexivity|]. rewrite IH. lia.
Qed.

Lemma sum_counts_tally {A : Type} (key : A -> string) (l : list A) :
  list_sum (map snd (Py.tally key l)) = length l.
Proof.
  unfold Py.tally.
  assert (Hgen : forall d, list_sum (map snd
                   (fold_left (fun d x => Py.dict_incr (key x) d) l d)) =
                 (list_sum (map snd d) + length l)%nat).
  { induction l as [|x l IH]; intros d; simpl; [lia|].
    rewrite IH, sum_counts_incr. lia. }
  now rewrite Hgen.
Qed.

Lemma sum_counts_perm (a b : list (string * nat)) :
  Permutation a b -> list_sum (map snd a) = list_sum (map snd b).
Proof.
  induction 1; simpl; lia.
Qed.

(** X12. When [get_stats] succeeds, [get_skill_demand(top_n)] for
    [top_n >= 0] returns at most [min(top_n, 20)] entries, one per skill,
    in descending order of count; each count is the number of
    [job_skills] rows that hold the skill, and no skill left out of the
    first twenty has more rows than a listed one. *)
Theorem get_skill_demand_ranking (db : JobDatabase) (top_n : Z)
    (demand : list (string * nat)) :
  (0 <= top_n)%Z ->
  Analyzer.get_skill_demand db top_n = Py.Return demand ->
  (length demand <= Nat.min (Z.to_nat top_n) 20)%nat /\
  List.NoDup (map fst demand) /\
  StronglySorted Spec.count_not_below demand /\
  (forall skill c, In (skill, c) demand ->
     c = Spec.occurrences snd skill (job_skills db) /\ (1 <= c)%nat) /\
  (forall skill, (0 < Spec.occurrences snd skill (job_skills db))%nat ->
     ~ In skill (map fst (top_skills db)) ->
     forall skill' c', In (skill', c') demand ->
       (Spec.occurrences snd skill (job_skills db) <= c')%nat).
Proof.
  intros Hn. unfold Analyzer.get_skill_demand, Py.bind.
  destruct (get_stats db); [|discriminate]. intros Hres. injection Hres as <-.
  unfold Py.slice_to. destruct (0 <=? top_n)%Z eqn:E; [|lia].
  destruct (ranking_spec (@snd string string) (job_skills db) 20)
    as [Hlen [Hnd [Hsorted [Hcount Hbest]]]].
  fold (top_skills db) in *.
  split; [rewrite length_take; lia|]. split; [|split; [|split]].
  - rewrite <- (take_drop (Z.to_nat top_n) (top_skills db)), map_app in Hnd.
    now apply NoDup_app_remove_r in Hnd.
  - now apply StronglySorted_take.
  - intros skill c Hin. apply In_take in Hin. now apply Hcount.
  - intros skill Hocc Hout skill' c' Hin. apply In_take in Hin.
    now apply (Hbest skill Hocc Hout skill' c').
Qed.

(** X13. When [get_stats] succeeds, the counts reported by
    [get_experience_distribution] are those of the stored postings per
    experience level, in descending order, and they add up to the number
    of stored postings. *)
Theorem get_experience_distribution_total (db : JobDatabase)
    (dist : list (string * nat)) :
  Analyzer.get_experience_distribution db = Py.Return dist ->
  list_sum (map snd dist) = length (jobs db) /\
  StronglySorted Spec.count_not_below dist /\
  forall level c, In (level, c) dist <->
    c = Spec.occurrences col_experience_level level (jobs db) /\ (0 < c)%nat.
Proof.
  unfold Analyzer.get_experience_distribution, Py.bind.
  destruct (get_stats db); [|discriminate]. intros Hres. injection Hres as <-.
  unfold by_experience.
  pose proof (sorted_by_count_perm (Py.tally col_experience_level (jobs db)))
    as Hperm.
  split; [|split].
  - rewrite (sum_counts_perm _ _ Hperm). apply sum_counts_tally.
  - apply sorted_by_count_sorted.
  - intros level c. destruct (tally_spec col_experience_level (jobs db))
      as [_ Hspec].
    rewrite <- Hspec. split; apply Permutation_in;
      [exact Hperm|now symmetry].
Qed.

End Statistics.

(** * Examples for the properties of the relational store *)

Lemma insert_many_written `{RT : Runtime} (faults : Database.engine_faults)
    (jobs : list Models.JobPosting) :
  forall db : Database.JobDatabase,
    (forall j, In j jobs -> Spec.reads_back j) ->
    Spec.written_by_insert db ->
    Spec.written_by_insert (snd (Database.insert_many faults db jobs)).
Proof.
  induction jobs as [|job rest IH]; intros db Hback Hdb; simpl; [exact Hdb|].
  pose proof (insert_job_written faults db job (Hback job (or_introl eq_refl))
                Hdb) as Hdb1.
  destruct (Database.insert_job faults db job) as [b db1]. simpl in Hdb1.
  specialize (IH db1 (fun j Hj => Hback j (or_intror Hj)) Hdb1).
  destruct (Database.insert_many faults db1 rest) as [[inserted skipped] db2].
  now destruct b.
Qed.

Ltac demo_reads_back :=
  let j := fresh "j" in
  let Hj := fresh "Hj" in
  intros j Hj; simpl in Hj;
  repeat (destruct Hj as [<-|Hj];
          [unfold Spec.reads_back; repeat split; discriminate|]);
  destruct Hj.

Lemma demo_store_written :
  Spec.written_by_insert (RT := Demo.runtime) Demo.store.
Proof.
  apply insert_many_written; [demo_reads_back|apply init_db_written].
Qed.

Lemma demo_store_with_newcomer_written :
  Spec.written_by_insert (RT := Demo.runtime) Demo.store_with_newcomer.
Proof.
  apply insert_many_written; [demo_reads_back|apply init_db_written].
Qed.

Lemma demo_store_floors : Spec.floors_have_ceilings Demo.store.
Proof.
  intros r Hr. vm_compute in Hr.
  repeat (destruct Hr as [<-|Hr]; [vm_compute; congruence|]). destruct Hr.
Qed.

Lemma demo_store_flags : Spec.remote_is_flag Demo.store.
Proof.
  intros r Hr. vm_compute in Hr.
  repeat (destruct Hr as [<-|Hr]; [vm_compute; auto|]). destruct Hr.
Qed.

Lemma clear_then_insert_many_witness :
  Database.insert_many (RT := Demo.runtime) Database.no_faults
    (Database.clear_all Demo.store) Demo.fresh_batch =
    ((3, 0)%nat,
     {| Database.jobs :=
          map (Database.insert_values (RT := Demo.runtime)) Demo.fresh_batch;
        Database.job_skills := concat (map Spec.skill_rows Demo.fresh_batch) |}).
Proof.
  assert (Hnd : List.NoDup (map Models.id Demo.fresh_batch)).
  { vm_compute. repeat constructor; simpl; intuition discriminate. }
  exact (proj1 (clear_then_insert_many (RT := Demo.runtime) Demo.store
                  Demo.fresh_batch Hnd)).
Defined.

Lemma get_job_lookup_witness :
  Database.get_job (RT := Demo.runtime) Demo.store "no-such-id" "4b1d" =
    Py.Return None /\
  exists stored,
    Models.id stored = Models.id Demo.engineer /\
    Database.get_job (RT := Demo.runtime) Demo.store (Models.id Demo.engineer)
      "4b1d" =
    Py.Return (Some (Models.new (RT := Demo.runtime)
                       (Models.fields_of stored) "4b1d")).
Proof.
  split.
  - apply (proj1 (get_job_lookup (RT := Demo.runtime) Demo.store "no-such-id"
                    "4b1d" demo_store_written)). reflexivity.
  - destruct (proj2 (get_job_lookup (RT := Demo.runtime) Demo.store
                       (Models.id Demo.engineer) "4b1d" demo_store_written)
                eq_refl) as [stored [_ [Hid Hget]]].
    exists stored. split; [exact Hid|exact Hget].
Defined.

Lemma search_jobs_newest_first_witness :
  exists results,
    Database.search_jobs (RT := Demo.runtime) Demo.store_with_newcomer None
      None None None None true None 10 Demo.uuids = Py.Return results /\
    length results = 2%nat /\
    StronglySorted (Spec.scraped_not_before (RT := Demo.runtime)) results.
Proof.
  eexists. split; [vm_compute; reflexivity|]. split; [reflexivity|].
  apply (search_jobs_newest_first (RT := Demo.runtime) Demo.store_with_newcomer
           None None None None None true None 10 Demo.uuids _
           demo_store_with_newcomer_written eq_refl).
Defined.

Lemma get_all_jobs_count_witness :
  (exists results,
     Database.get_all_jobs (RT := Demo.runtime) Demo.store 2 Demo.uuids =
       Py.Return results /\
     length results = 2%nat) /\
  Database.get_all_jobs (RT := Demo.runtime) Demo.store (2 ^ 63) Demo.uuids =
    Py.Raise Py.IntegrityError.
Proof.
  destruct (get_all_jobs_count (RT := Demo.runtime) Demo.store 2 Demo.uuids
              demo_store_written) as [Hin _].
  destruct (get_all_jobs_count (RT := Demo.runtime) Demo.store (2 ^ 63)
              Demo.uuids demo_store_written) as [_ Hout].
  split.
  - destruct Hin as [results [Hres Hlen]]; [lia|].
    exists results. split; [exact Hres|exact Hlen].
  - apply Hout. right. lia.
Defined.

Lemma get_stats_returns_witness :
  exists st,
    Database.get_stats Demo.store = Py.Return st /\
    Database.total_jobs st = 3%Z /\
    Database.remote_distribution st = (Some 1%Z, Some 2%Z).
Proof.
  destruct (get_stats_returns Demo.store demo_store_floors)
    as [st [Hst [Htotal _]]].
  exists st. split; [exact Hst|]. split; [exact Htotal|].
  vm_compute in Hst. injection Hst as <-. reflexivity.
Defined.

Lemma get_stats_salary_gap_witness :
  Spec.salary_gap Demo.store_with_gap /\
  Database.get_stats Demo.store_with_gap = Py.Raise Py.TypeError /\
  Analyzer.get_skill_demand Demo.store_with_gap 10 = Py.Raise Py.TypeError.
Proof.
  assert (Hgap : Spec.salary_gap Demo.store_with_gap).
  { eexists. split; [left; reflexivity|]. split; [discriminate|].
    intros r' [<-|[]] _ _. reflexivity. }
  split; [exact Hgap|].
  destruct (get_stats_salary_gap Demo.store_with_gap 10 Hgap)
    as [Hstats [Hdemand _]].
  split; assumption.
Defined.

Lemma get_remote_stats_nonempty_witness :
  ~ Spec.floors_have_ceilings Demo.store_mixed /\
  exists rs,
    Analyzer.get_remote_stats Demo.store_mixed = Py.Return rs /\
    Analyzer.remote_count rs = 1%Z /\ Analyzer.onsite_count rs = 1%Z.
Proof.
  split.
  - intros Hceil.
    refine (Hceil (Database.insert_values (RT := Demo.runtime) Demo.open_ended)
              _ _ eq_refl).
    + vm_compute. auto.
    + vm_compute. discriminate.
  - assert (Hne : Database.jobs Demo.store_mixed <> [])
      by (vm_compute; discriminate).
    assert (Hflags : Spec.remote_is_flag Demo.store_mixed).
    { intros r Hr. vm_compute in Hr.
      repeat (destruct Hr as [<-|Hr]; [vm_compute; auto|]). destruct Hr. }
    destruct (get_remote_stats_nonempty Demo.store_mixed _ Hne Hflags eq_refl)
      as [rs [Hrs [Hremote [Honsite _]]]].
    exists rs. split; [exact Hrs|]. split; [exact Hremote|exact Honsite].
Defined.

Lemma get_skill_demand_ranking_witness :
  exists demand,
    Analyzer.get_skill_demand Demo.store 2 = Py.Return demand /\
    (length demand <= 2)%nat /\
    StronglySorted Spec.count_not_below demand.
Proof.
  eexists. split; [vm_compute; reflexivity|].
  destruct (get_skill_demand_ranking Demo.store 2 _ ltac:(lia) eq_refl)
    as [Hlen [_ [Hsorted _]]].
  split; [exact Hlen|exact Hsorted].
Defined.

Lemma get_experience_distribution_total_witness :
  exists dist,
    Analyzer.get_experience_distribution Demo.store_levels = Py.Return dist /\
    map fst dist = ["Mid"; "Lead"] /\
    list_sum (map snd dist) = 3%nat.
Proof.
  eexists. split; [vm_compute; reflexivity|]. split; [reflexivity|].
  exact (proj1 (get_experience_distribution_total Demo.store_levels _ eq_refl)).
Defined.

(** * Further properties of the semantic index *)

Section AddJobsMore.
Context `{RT : Runtime}.
Import VectorStore.

Lemma prepare_batch_pending (existing_ids : gset string)
    (batch : list Models.JobPosting) :
  forall (seen_ids : gset string) (pending : list entry) (skipped : nat),
    prepare_batch existing_ids batch seen_ids pending skipped =
    let '(seen, new, skipped') :=
      prepare_batch existing_ids batch seen_ids [] skipped in
    (seen, (pending ++ new)%list, skipped').
Proof.
  induction batch as [|job rest IH]; intros seen_ids pending skipped; simpl.
  - now rewrite app_nil_r.
  - destruct (bool_decide (Models.id job ∈ existing_ids) ||
              bool_decide (Models.id job ∈ seen_ids)).
    + apply IH.
    + rewrite IH.
      rewrite (IH ({[Models.id job]} ∪ seen_ids) [job_entry job] skipped).
      destruct (prepare_batch existing_ids rest _ [] skipped)
        as [[seen new] skipped'].
      now rewrite <- app_assoc.
Qed.

Lemma prepare_batch_app (existing_ids : gset string)
    (b1 b2 : list Models.JobPosting) :
  forall (seen_ids : gset string) (pending : list entry) (skipped : nat),
    prepare_batch existing_ids (b1 ++ b2) seen_ids pending skipped =
    let '(seen, pending', skipped') :=
      prepare_batch existing_ids b1 seen_ids pending skipped in
    prepare_batch existing_ids b2 seen pending' skipped'.
Proof.
  induction b1 as [|job rest IH]; intros seen_ids pending skipped; simpl.
  - reflexivity.
  - destruct (bool_decide (Models.id job ∈ existing_ids) ||
              bool_decide (Models.id job ∈ seen_ids)); apply IH.
Qed.

(** The loop over the batches does what one pass over all postings
    does. *)
Lemma add_batches_flat (existing_ids : gset string)
    (jobs : list Models.JobPosting) (size : nat) (starts : list nat) :
  forall st : add_state,
    fold_left (add_batch existing_ids jobs size) starts st =
    let '(seen, new, skipped) :=
      prepare_batch existing_ids
        (concat (map (fun i => Py.slice i (i + size) jobs) starts))
        (st_seen_ids st) [] (st_skipped st) in
    {| st_collection := (st_collection st ++ new)%list;
       st_seen_ids := seen;
       st_added := st_added st + length new;
       st_skipped := skipped |}.
Proof.
  induction starts as [|i starts IH]; intros st; simpl.
  - rewrite app_nil_r, Nat.add_0_r. now destruct st.
  - rewrite IH. rewrite prepare_batch_app. unfold add_batch.
    destruct (prepare_batch existing_ids (Py.slice i (i + size) jobs)
                (st_seen_ids st) [] (st_skipped st))
      as [[seen1 new1] skipped1].
    rewrite (prepare_batch_pending existing_ids _ seen1 new1 skipped1).
    destruct new1 as [|e new1]; simpl.
    + destruct (prepare_batch existing_ids _ seen1 [] skipped1)
        as [[seen2 new2] skipped2]. reflexivity.
    + destruct (prepare_batch existing_ids _ seen1 [] skipped1)
        as [[seen2 new2] skipped2]. simpl.
      rewrite <- app_assoc, length_app. simpl. f_equal. lia.
Qed.

(** [add_jobs] with any positive batch size, as one pass. *)
Lemma add_jobs_one_pass (c : collection) (jobs : list Models.JobPosting)
    (batch_size : Z) :
  (0 < batch_size)%Z ->
  add_jobs c jobs batch_size =
  let '(_, new, skipped) :=
    prepare_batch (list_to_set (collection_ids c)) jobs ∅ [] 0 in
  Py.Return ((length new, skipped), (c ++ new)%list).
Proof.
  intros Hb. unfold add_jobs.
  destruct (batch_size =? 0)%Z eqn:E0; [lia|].
  destruct (batch_size <? 0)%Z eqn:E1; [lia|].
  rewrite add_batches_flat, concat_batches by lia. simpl.
  now destruct (prepare_batch _ jobs ∅ [] 0) as [[seen new] skipped].
Qed.

(** X14. The batch size does not change what [add_jobs] does: for any
    two positive batch sizes the call returns the same counts and leaves
    the same collection. *)
Theorem add_jobs_batch_size_irrelevant (c : collection)
    (jobs : list Models.JobPosting) (batch_size batch_size' : Z) :
  (0 < batch_size)%Z -> (0 < batch_size')%Z ->
  add_jobs c jobs batch_size = add_jobs c jobs batch_size'.
Proof.
  intros Hb Hb'. now rewrite !add_jobs_one_pass.
Qed.

(** X15. [add_jobs] adds one document per distinct id of the list that
    is not yet indexed and never touches an indexed entry; added and
    skipped postings account for the whole list; a collection with
    pairwise distinct ids keeps them pairwise distinct. *)
Theorem add_jobs_adds_distinct_new_ids (c c1 : collection)
    (jobs : list Models.JobPosting) (batch_size : Z) (added skipped : nat) :
  (0 < batch_size)%Z ->
  add_jobs c jobs batch_size = Py.Return ((added, skipped), c1) ->
  added =
    size ((list_to_set (map Models.id jobs) : gset string) ∖
          list_to_set (collection_ids c)) /\
  (added + skipped = length jobs)%nat /\
  (exists new, c1 = (c ++ new)%list /\ length new = added) /\
  (List.NoDup (collection_ids c) -> List.NoDup (collection_ids c1)).
Proof.
  intros Hb. unfold add_jobs.
  destruct (batch_size =? 0)%Z eqn:E0; [lia|].
  destruct (batch_size <? 0)%Z eqn:E1; [lia|].
  set (ex := list_to_set (collection_ids c) : gset string).
  destruct (add_batches_spec ex jobs (Z.to_nat batch_size)
              (range_step (length jobs) (Z.to_nat batch_size))
              {| st_collection := c; st_seen_ids := ∅;
                 st_added := 0; st_skipped := 0 |})
    as [new [nskip [Heq [Hlen [Hcov [Hfresh Hnd]]]]]].
  rewrite concat_batches in Hlen, Hcov, Hfresh by lia.
  rewrite Heq. simpl. intros Hres. injection Hres as <- <- <-.
  split; [|split; [exact Hlen|split; [now exists new|]]].
  - assert (Hset : (list_to_set (map Models.id jobs) : gset string) ∖ ex =
                   list_to_set (map e_id new)).
    { apply set_eq. intros x. rewrite elem_of_difference, !elem_of_list_to_set.
      split.
      - intros [Hx Hnex]. apply list_elem_of_In, in_map_iff in Hx as [j [<- Hj]].
        destruct (Hcov j Hj) as [Hl|Hr]; [contradiction|].
        apply elem_of_union in Hr as [Hr|Hr]; [set_solver|].
        now apply elem_of_list_to_set in Hr.
      - intros Hx. apply list_elem_of_In, in_map_iff in Hx as [e [<- He]].
        destruct (Hfresh e He) as [Hne [_ [j [Hj ->]]]].
        split; [|exact Hne]. apply list_elem_of_In. simpl. now apply in_map. }
    rewrite Hset, size_list_to_set by exact Hnd. now rewrite length_map.
  - intros Hc. unfold collection_ids. rewrite map_app.
    apply List.NoDup_app; [exact Hc|now apply NoDup_ListNoDup|].
    intros x Hx Hx'. apply in_map_iff in Hx' as [e [<- He]].
    destruct (Hfresh e He) as [Hne _]. apply Hne. subst ex.
    apply (proj2 (elem_of_list_to_set (C := gset string) _ _)).
    now apply list_elem_of_In.
Qed.

End AddJobsMore.

Section SearchMore.
Context `{IX : VectorStore.AnnIndex}.
Import VectorStore.

Lemma process_results_no_floor (min_salary : option Q) (hits : list hit) :
  (forall h, In h hits -> below_floor min_salary (h_metadata h) = false) ->
  process_results min_salary hits = map to_result hits.
Proof.
  induction hits as [|h hits IH]; intros Hall; simpl; [reflexivity|].
  rewrite (Hall h) by now left. f_equal. apply IH. intros h' Hh'.
  apply Hall. now right.
Qed.

Lemma process_results_sublist (min_salary : option Q) (hits : list hit) :
  sublist (map result_id (process_results min_salary hits)) (map h_id hits).
Proof.
  induction hits as [|h hits IH]; simpl; [constructor|].
  destruct (below_floor min_salary (h_metadata h)); simpl.
  - now apply sublist_cons.
  - now apply sublist_skip.
Qed.

Lemma slice_to_sublist {A : Type} (n : Z) (l : list A) :
  sublist (Py.slice_to n l) l.
Proof.
  unfold Py.slice_to. destruct (0 <=? n)%Z; apply sublist_take.
Qed.

Lemma map_slice_to {A B : Type} (f : A -> B) (n : Z) (l : list A) :
  map f (Py.slice_to n l) = Py.slice_to n (map f l).
Proof.
  unfold Py.slice_to. rewrite length_map.
  destruct (0 <=? n)%Z; symmetry; apply firstn_map.
Qed.

Lemma drop_one_take {A : Type} (n : nat) (l : list A) :
  drop 1 (take (S n) l) = take n (drop 1 l).
Proof.
  destruct l as [|x l]; simpl; [now destruct n|]. now rewrite !drop_0.
Qed.

(** X16. [search] never reorders: the ids of its results are a
    subsequence of the ids of the candidates the index returned, in the
    index's order; and without a salary floor (none given, or zero) the
    results are exactly the first candidates, none removed. *)
Theorem search_keeps_ranking (c : collection) (query : string) (n : Z)
    (experience_level : option string) (remote_only : bool)
    (min_salary : option Q) (hits : list hit) :
  collection_query c query (n * 2)
    (where_conditions experience_level remote_only) = Py.Return hits ->
  exists results,
    search c query n experience_level remote_only min_salary =
      Py.Return results /\
    sublist (map result_id results) (map h_id hits) /\
    (Py.truthy_opt_num min_salary = false ->
     results = Py.slice_to n (map to_result hits)).
Proof.
  intros Hq. exists (Py.slice_to n (process_results min_salary hits)).
  split; [apply search_returns; exact Hq|]. split.
  - rewrite map_slice_to.
    transitivity (map result_id (process_results min_salary hits));
      [apply slice_to_sublist|apply process_results_sublist].
  - intros Hfloor. f_equal. apply process_results_no_floor. intros h _.
    unfold below_floor. destruct min_salary as [floor|]; [|reflexivity].
    simpl in Hfloor. now rewrite Hfloor.
Qed.

(** X17. [find_similar_jobs] for an id that is not indexed returns the
    empty list without asking the index: the answer is the same for every
    index, also one that fails on every query. *)
Theorem find_similar_jobs_unknown_id (c : collection) (job_id : string)
    (n : Z) :
  ~ In job_id (collection_ids c) ->
  find_similar_jobs c job_id n = Py.Return [].
Proof.
  intros Hnew. unfold find_similar_jobs, collection_get_documents.
  replace (List.filter (fun e => String.eqb (e_id e) job_id) c) with (@nil entry);
    [reflexivity|].
  symmetry. induction c as [|e c IH]; simpl; [reflexivity|].
  destruct (String.eqb (e_id e) job_id) eqn:E.
  - apply String.eqb_eq in E. exfalso. apply Hnew. now left.
  - apply IH. intros Hin. apply Hnew. now right.
Qed.

(** X18. [find_similar_jobs] for an indexed posting asks the index for
    [2 * (n + 1)] neighbours of the posting's stored document and returns
    the candidates after the first one, at most [n] of them: the first
    candidate is dropped whichever posting it is. *)
Theorem find_similar_jobs_drops_first (c : collection) (job_id doc : string)
    (others : list string) (n : Z) (hits : list hit) :
  (0 <= n)%Z ->
  collection_get_documents c job_id = doc :: others ->
  collection_query c doc ((n + 1) * 2) None = Py.Return hits ->
  exists results,
    find_similar_jobs c job_id n = Py.Return results /\
    results = take (Z.to_nat n) (map to_result (drop 1 hits)) /\
    (length results <= Z.to_nat n)%nat.
Proof.
  intros Hn Hdoc Hq. unfold find_similar_jobs. rewrite Hdoc.
  rewrite (search_returns c doc (n + 1) None false None hits) by exact Hq.
  simpl. eexists. split; [reflexivity|].
  assert (Heq : drop 1 (Py.slice_to (n + 1) (process_results None hits)) =
                take (Z.to_nat n) (map to_result (drop 1 hits))).
  { rewrite process_results_no_floor by reflexivity.
    unfold Py.slice_to. destruct (0 <=? n + 1)%Z eqn:E; [|lia].
    replace (Z.to_nat (n + 1)) with (S (Z.to_nat n)) by lia.
    rewrite drop_one_take. f_equal.
    destruct hits; simpl; [reflexivity|now rewrite !drop_0]. }
  split; [exact Heq|]. rewrite Heq. apply firstn_le_length.
Qed.

End SearchMore.

(** X19. [get_collection_stats]: the total is the number of documents;
    the remote count does not exceed it; the counts per experience level
    add up to it; and [top_companies] lists at most ten companies, one
    entry each, in descending order of count, each with the true number
    of its documents, and no company left out has more documents than a
    listed one. *)
Theorem get_collection_stats_counts (c : VectorStore.collection) :
  let stats := VectorStore.get_collection_stats c in
  let company := fun e => VectorStore.m_company (VectorStore.e_metadata e) in
  VectorStore.total_documents stats = length c /\
  (VectorStore.remote_count stats <= VectorStore.total_documents stats)%nat /\
  list_sum (map snd (VectorStore.experience_levels stats)) =
    VectorStore.total_documents stats /\
  (length (VectorStore.top_companies stats) <= 10)%nat /\
  List.NoDup (map fst (VectorStore.top_companies stats)) /\
  StronglySorted Spec.count_not_below (VectorStore.top_companies stats) /\
  (forall k n, In (k, n) (VectorStore.top_companies stats) ->
     n = Spec.occurrences company k c /\ (1 <= n)%nat) /\
  (forall k, (0 < Spec.occurrences company k c)%nat ->
     ~ In k (map fst (VectorStore.top_companies stats)) ->
     forall k' n', In (k', n') (VectorStore.top_companies stats) ->
       (Spec.occurrences company k c <= n')%nat).
Proof.
  intros stats company. subst stats. simpl.
  split; [reflexivity|]. split; [apply List.filter_length_le|].
  split; [apply sum_counts_tally|].
  exact (ranking_spec company c 10).
Qed.

(** Examples for the properties of the semantic index *)

Lemma add_jobs_batch_size_irrelevant_witness :
  VectorStore.add_jobs (RT := Demo.runtime) Demo.indexed
    [Demo.newcomer; Demo.analyst; Demo.newcomer] 1 =
  VectorStore.add_jobs (RT := Demo.runtime) Demo.indexed
    [Demo.newcomer; Demo.analyst; Demo.newcomer] 100.
Proof.
  apply (add_jobs_batch_size_irrelevant (RT := Demo.runtime)); lia.
Defined.

Lemma add_jobs_adds_distinct_new_ids_witness :
  exists c1,
    VectorStore.add_jobs (RT := Demo.runtime) Demo.indexed
      [Demo.newcomer; Demo.analyst; Demo.newcomer] 2 =
      Py.Return ((1%nat, 2%nat), c1) /\
    List.NoDup (VectorStore.collection_ids c1).
Proof.
  eexists. split; [vm_compute; reflexivity|].
  refine (proj2 (proj2 (proj2
    (add_jobs_adds_distinct_new_ids (RT := Demo.runtime) Demo.indexed _
       [Demo.newcomer; Demo.analyst; Demo.newcomer] 2 1 2 _ _))) _).
  - lia.
  - vm_compute. reflexivity.
  - vm_compute. repeat constructor; simpl; intuition discriminate.
Defined.

Lemma search_keeps_ranking_witness :
  exists results,
    VectorStore.search (IX := Demo.index) Demo.indexed "python" 2 None false
      (Some 100000%Q) = Py.Return results /\
    sublist (map VectorStore.result_id results)
      (map VectorStore.h_id Demo.candidates).
Proof.
  destruct (search_keeps_ranking (IX := Demo.index) Demo.indexed "python" 2
              None false (Some 100000%Q) Demo.candidates)
    as [results [Hs [Hsub _]]]; [vm_compute; reflexivity|].
  now exists results.
Defined.

Lemma find_similar_jobs_unknown_id_witness :
  VectorStore.find_similar_jobs (IX := Demo.failing_index) Demo.indexed
    (Models.id Demo.newcomer) 5 = Py.Return [].
Proof.
  apply (find_similar_jobs_unknown_id (IX := Demo.failing_index)).
  vm_compute. intuition discriminate.
Defined.

Lemma find_similar_jobs_drops_first_witness :
  exists results,
    VectorStore.find_similar_jobs (IX := Demo.index) Demo.indexed
      (Models.id Demo.engineer) 1 = Py.Return results /\
    map VectorStore.result_id results = [Models.id Demo.engineer].
Proof.
  destruct (find_similar_jobs_drops_first (IX := Demo.index) Demo.indexed
              (Models.id Demo.engineer)
              (VectorStore._job_to_document (RT := Demo.runtime) Demo.engineer) [] 1
              (take 3 Demo.candidates))
    as [results [Hf [Heq _]]].
  - lia.
  - vm_compute. reflexivity.
  - vm_compute. reflexivity.
  - exists results. split; [exact Hf|]. rewrite Heq. vm_compute. reflexivity.
Defined.

(** * Loading both stores *)

Section Loading.
Context `{RT : Runtime}.

Lemma first_new_length (jobs : list Models.JobPosting) :
  forall known : gset string,
    (length (Spec.first_new known jobs) <= length jobs)%nat.
Proof.
  induction jobs as [|job rest IH]; intros known; simpl; [lia|].
  destruct (bool_decide (Models.id job ∈ known)); simpl.
  - specialize (IH known). lia.
  - specialize (IH ({[Models.id job]} ∪ known)). lia.
Qed.

Lemma has_id_known (db : Database.JobDatabase) (i : string) :
  Database.has_id db i =
  bool_decide (i ∈ (list_to_set (map Database.col_id (Database.jobs db))
                    : gset string)).
Proof.
  destruct (Database.has_id db i) eqn:Hid; symmetry.
  - apply bool_decide_eq_true. apply elem_of_list_to_set, list_elem_of_In.
    now apply has_id_In.
  - apply bool_decide_eq_false. intros Hin.
    apply elem_of_list_to_set, list_elem_of_In, has_id_In in Hin. congruence.
Qed.

(** [insert_many] on a healthy engine appends the rows of the postings
    with a new id, each id at its first occurrence, in their order. *)
Lemma insert_many_first_new (jobs : list Models.JobPosting) :
  forall db : Database.JobDatabase,
    let new :=
      Spec.first_new (list_to_set (map Database.col_id (Database.jobs db)))
        jobs in
    Database.insert_many Database.no_faults db jobs =
    ((length new, length jobs - length new)%nat,
     {| Database.jobs :=
          (Database.jobs db ++ map Database.insert_values new)%list;
        Database.job_skills :=
          (Database.job_skills db ++ concat (map Spec.skill_rows new))%list |}).
Proof.
  induction jobs as [|job rest IH]; intros db; simpl.
  - rewrite !app_nil_r. now destruct db.
  - rewrite <- has_id_known.
    destruct (Database.has_id db (Models.id job)) eqn:Hid.
    + rewrite (insert_job_present Database.no_faults db job Hid).
      rewrite IH. simpl.
      pose proof (first_new_length rest
        (list_to_set (map Database.col_id (Database.jobs db)))) as Hlen.
      repeat f_equal. lia.
    + rewrite (insert_job_fresh db job Hid). rewrite IH. simpl.
      rewrite map_app. simpl.
      replace (list_to_set (map Database.col_id (Database.jobs db) ++
                            [Models.id job]) : gset string)
        with ({[Models.id job]} ∪
              list_to_set (map Database.col_id (Database.jobs db))
              : gset string)
        by (rewrite list_to_set_app_L; set_solver).
      rewrite <- !app_assoc. reflexivity.
Qed.

Lemma prepare_batch_first_new (existing_ids : gset string)
    (jobs : list Models.JobPosting) :
  forall (seen_ids : gset string) (skipped : nat),
    let new := Spec.first_new (existing_ids ∪ seen_ids) jobs in
    exists seen,
      VectorStore.prepare_batch existing_ids jobs seen_ids [] skipped =
      (seen, map VectorStore.job_entry new,
       (skipped + (length jobs - length new))%nat).
Proof.
  induction jobs as [|job rest IH]; intros seen_ids skipped; cbn -[Nat.sub].
  - exists seen_ids. now rewrite Nat.add_0_r.
  - destruct (decide (Models.id job ∈ existing_ids ∪ seen_ids)) as [Hin|Hout].
    + rewrite (bool_decide_eq_true_2 _ Hin).
      replace (bool_decide (Models.id job ∈ existing_ids) ||
               bool_decide (Models.id job ∈ seen_ids)) with true.
      * destruct (IH seen_ids (S skipped)) as [seen ->]. exists seen.
        pose proof (first_new_length rest (existing_ids ∪ seen_ids)) as Hlen.
        f_equal. lia.
      * symmetry. apply orb_true_iff. rewrite !bool_decide_eq_true.
        now apply elem_of_union.
    + rewrite (bool_decide_eq_false_2 _ Hout).
      replace (bool_decide (Models.id job ∈ existing_ids) ||
               bool_decide (Models.id job ∈ seen_ids)) with false.
      * rewrite prepare_batch_pending.
        destruct (IH ({[Models.id job]} ∪ seen_ids) skipped) as [seen ->].
        exists seen. cbn -[Nat.sub].
        replace (existing_ids ∪ ({[Models.id job]} ∪ seen_ids))
          with ({[Models.id job]} ∪ (existing_ids ∪ seen_ids))
          by set_solver.
        reflexivity.
      * symmetry. apply orb_false_iff. rewrite !bool_decide_eq_false.
        set_solver.
Qed.

(** [add_jobs] with a positive batch size appends the entries of the
    postings with a new id, each id at its first occurrence, in their
    order. *)
Lemma add_jobs_first_new (c : VectorStore.collection)
    (jobs : list Models.JobPosting) (batch_size : Z) :
  (0 < batch_size)%Z ->
  let new :=
    Spec.first_new (list_to_set (VectorStore.collection_ids c)) jobs in
  VectorStore.add_jobs c jobs batch_size =
  Py.Return ((length new, length jobs - length new)%nat,
             (c ++ map VectorStore.job_entry new)%list).
Proof.
  intros Hb. simpl. rewrite add_jobs_one_pass by exact Hb.
  destruct (prepare_batch_first_new
              (list_to_set (VectorStore.collection_ids c)) jobs ∅ 0)
    as [seen ->].
  replace (list_to_set (VectorStore.collection_ids c) ∪ ∅ : gset string)
    with (list_to_set (VectorStore.collection_ids c) : gset string)
    by set_solver.
  now rewrite length_map.
Qed.

(** X20. The refresh keeps the two stores aligned: when it clears them
    first, or when the relational store and the vector store hold the
    same ids in the same order, both stores take in the same postings, so
    the two counts of new records it prints are equal, no larger than the
    number of postings, and the stores again hold the same ids in the same
    order. *)
Theorem refresh_keeps_stores_aligned (jobs : list Models.JobPosting)
    (clear_first : bool) (db : Database.JobDatabase)
    (vs : VectorStore.collection) :
  (clear_first = false ->
   map Database.col_id (Database.jobs db) = VectorStore.collection_ids vs) ->
  exists n db1 vs1,
    Refresh.refresh_with_sample_data jobs clear_first db vs =
      Py.Return ((n, n), (db1, vs1)) /\
    (n <= length jobs)%nat /\
    map Database.col_id (Database.jobs db1) = VectorStore.collection_ids vs1 /\
    (forall job, In job jobs ->
       In (Models.id job) (VectorStore.collection_ids vs1)).
Proof.
  intros Hsync. unfold Refresh.refresh_with_sample_data.
  set (db0 := if clear_first then Database.clear_all db else db).
  set (vs0 := if clear_first then VectorStore.clear vs else vs).
  assert (Hsync0 : map Database.col_id (Database.jobs db0) =
                   VectorStore.collection_ids vs0).
  { subst db0 vs0. destruct clear_first; [reflexivity|now apply Hsync]. }
  clearbody db0 vs0. clear Hsync.
  pose proof (insert_many_has_ids jobs db0) as Hids.
  rewrite insert_many_first_new in *. rewrite add_jobs_first_new by lia.
  rewrite Hsync0 in *. simpl.
  set (new := Spec.first_new (list_to_set (VectorStore.collection_ids vs0)) jobs)
    in *.
  eexists _, _, _. split; [reflexivity|]. split; [apply first_new_length|].
  assert (Hsame : map Database.col_id
                    (Database.jobs db0 ++ map Database.insert_values new)%list =
                  VectorStore.collection_ids
                    (vs0 ++ map VectorStore.job_entry new)%list).
  { rewrite map_app, Hsync0. unfold VectorStore.collection_ids.
    rewrite map_app, !map_map. reflexivity. }
  simpl. split; [exact Hsame|].
  intros job Hjob. rewrite <- Hsame.
  specialize (Hids (Models.id job) (or_intror (in_map Models.id _ _ Hjob))).
  simpl in Hids. now apply has_id_In in Hids.
Qed.

End Loading.

Lemma refresh_keeps_stores_aligned_witness :
  exists n db1 vs1,
    Refresh.refresh_with_sample_data (RT := Demo.runtime)
      [Demo.newcomer; Demo.analyst; Demo.newcomer] false Demo.store
      Demo.indexed = Py.Return ((n, n), (db1, vs1)) /\
    map Database.col_id (Database.jobs db1) = VectorStore.collection_ids vs1.
Proof.
  destruct (refresh_keeps_stores_aligned (RT := Demo.runtime)
              [Demo.newcomer; Demo.analyst; Demo.newcomer] false Demo.store
              Demo.indexed)
    as [n [db1 [vs1 [Hrun [_ [Hsame _]]]]]].
  - intros _. vm_compute. reflexivity.
  - exists n, db1, vs1. split; assumption.
Defined.

(** * Classifiers on text *)

Lemma append_cons (c : ascii) (a b : string) :
  String.append (String c a) b = String c (String.append a b).
Proof. reflexivity. Qed.

Lemma append_nil (b : string) : String.append EmptyString b = b.
Proof. reflexivity. Qed.

Lemma prefix_app_l (a b s : string) :
  String.prefix (String.append a b) s = true -> String.prefix a s = true.
Proof.
  revert s. induction a as [|c a IH]; intros s;
    rewrite ?append_cons, ?append_nil; cbn [String.prefix].
  - now destruct s.
  - destruct s as [|d s]; cbn [String.prefix]; [discriminate|].
    destruct (ascii_dec c d); [apply IH|discriminate].
Qed.

Lemma prefix_contains (b s : string) :
  String.prefix b s = true -> Py.contains b s = true.
Proof.
  intros Hp. now rewrite contains_unfold, Hp.
Qed.

Lemma contains_tail (b : string) (c : ascii) (s : string) :
  Py.contains b s = true -> Py.contains b (String c s) = true.
Proof.
  intros Hc. rewrite contains_unfold, Hc. apply orb_true_r.
Qed.

Lemma prefix_app_r (a b s : string) :
  String.prefix (String.append a b) s = true -> Py.contains b s = true.
Proof.
  revert s. induction a as [|c a IH]; intros s;
    rewrite ?append_cons, ?append_nil; cbn [String.prefix].
  - apply prefix_contains.
  - destruct s as [|d s]; cbn [String.prefix]; [discriminate|].
    destruct (ascii_dec c d); [|discriminate].
    intros Hp. apply contains_tail. now apply IH.
Qed.

(** A text that contains [a ++ b] contains [a] and contains [b]. *)
Lemma contains_app (a b s : string) :
  Py.contains (String.append a b) s = true ->
  Py.contains a s = true /\ Py.contains b s = true.
Proof.
  induction s as [|c s IH]; rewrite contains_unfold; intros Hc;
    apply orb_true_iff in Hc as [Hp|Hc].
  - split; [apply prefix_contains; eapply prefix_app_l|eapply prefix_app_r];
      exact Hp.
  - discriminate.
  - split; [apply prefix_contains; eapply prefix_app_l|eapply prefix_app_r];
      exact Hp.
  - destruct (IH Hc). split; now apply contains_tail.
Qed.

Lemma before_comma_no_comma (s : string) :
  Py.contains "," (Py.before_comma s) = false.
Proof.
  induction s as [|c s IH]; simpl; [reflexivity|].
  destruct (Ascii.eqb c ",") eqn:E; [reflexivity|].
  rewrite contains_unfold, IH. cbn [String.prefix].
  destruct (ascii_dec "," c) as [<-|Hne]; [|reflexivity].
  now rewrite Ascii.eqb_refl in E.
Qed.

Lemma before_comma_prefix (s : string) :
  exists rest, s = String.append (Py.before_comma s) rest /\
               (rest = EmptyString \/ String.prefix "," rest = true).
Proof.
  induction s as [|c s [rest [IH Hrest]]]; simpl.
  - exists EmptyString. now split; [|left].
  - destruct (Ascii.eqb c ",") eqn:E.
    + apply Ascii.eqb_eq in E as ->. exists (String "," s).
      split; [reflexivity|right]. cbn [String.prefix].
      destruct (ascii_dec "," ","); [now destruct s|congruence].
    + exists rest. rewrite append_cons.
      split; [now rewrite <- IH|exact Hrest].
Qed.

(** X21. [simplify_location] returns one of its seven fixed labels, or,
    when none of its keywords occurs in the lower-cased location, the
    text of the location up to its first comma; the result never
    contains a comma. A missing or empty location gives ["Unknown"]. *)
Theorem simplify_location_labels (loc : option string) :
  let result := Analyzer.simplify_location loc in
  Py.contains "," result = false /\
  (In result Spec.location_labels \/
   exists text rest,
     loc = Some text /\ text <> EmptyString /\
     text = String.append result rest /\
     (rest = EmptyString \/ String.prefix "," rest = true) /\
     forall kw, In kw Spec.location_keywords ->
                Py.contains kw (Py.lower text) = false) /\
  (loc = None \/ loc = Some EmptyString -> result = "Unknown").
Proof.
  simpl. split; [|split].
  - destruct loc as [text|]; [|reflexivity]. unfold Analyzer.simplify_location.
    repeat match goal with
           | |- context [if ?b then _ else _] => destruct b; try reflexivity
           end.
    apply before_comma_no_comma.
  - destruct loc as [text|]; [|left; simpl; tauto].
    unfold Analyzer.simplify_location.
    destruct text as [|c text]; [left; simpl; tauto|].
    cbn [Py.truthy_str negb].
    set (low := Py.lower (String c text)).
    change (negb (Py.truthy_str (String c text))) with false. cbv iota.
    destruct (Py.contains "remote" low) eqn:K1; [left; simpl; tauto|].
    destruct (Py.contains "san francisco" low) eqn:K2; [left; simpl; tauto|].
    destruct (Py.contains "sf" low) eqn:K3; [left; simpl; tauto|].
    destruct (Py.contains "new york" low) eqn:K4; [left; simpl; tauto|].
    destruct (Py.contains "nyc" low) eqn:K5; [left; simpl; tauto|].
    destruct (Py.contains "seattle" low) eqn:K6; [left; simpl; tauto|].
    destruct (Py.contains "austin" low) eqn:K7; [left; simpl; tauto|].
    destruct (Py.contains "los angeles" low) eqn:K8; [left; simpl; tauto|].
    destruct (Py.contains "la" low) eqn:K9; [left; simpl; tauto|].
    right. cbn [orb].
    destruct (before_comma_prefix (String c text)) as [rest [Heq Hrest]].
    exists (String c text), rest.
    split; [reflexivity|]. split; [discriminate|]. split; [exact Heq|].
    split; [exact Hrest|].
    intros kw Hkw. unfold Spec.location_keywords in Hkw. simpl in Hkw.
    repeat (destruct Hkw as [<-|Hkw]; [assumption|]). destruct Hkw.
  - intros [->| ->]; reflexivity.
Qed.

(** X22. The two collectors guess the experience level by the same
    scheme and both answer with one of five levels. They agree on every
    title whose lower-cased text contains none of the keywords that only
    the Remotive collector knows. Where they differ, the Arbeitnow
    collector says ["Mid"] and the Remotive collector says ["Senior"] or
    ["Entry"], or the Arbeitnow collector says ["Entry"] and the Remotive
    collector says ["Senior"]. *)
Theorem guess_experience_level_collectors (title : string) :
  let remotive := RealCollectors.RemotiveCollector._guess_experience_level title in
  let arbeitnow := RealCollectors.ArbeitnowCollector._guess_experience_level title in
  In remotive ["Principal"; "Lead"; "Senior"; "Entry"; "Mid"] /\
  In arbeitnow ["Principal"; "Lead"; "Senior"; "Entry"; "Mid"] /\
  (Py.contains "sr " (Py.lower title) = false ->
   Py.contains "jr " (Py.lower title) = false ->
   Py.contains "associate" (Py.lower title) = false ->
   remotive = arbeitnow) /\
  (remotive = arbeitnow \/
   (arbeitnow = "Mid" /\ (remotive = "Senior" \/ remotive = "Entry")) \/
   (arbeitnow = "Entry" /\ remotive = "Senior")).
Proof.
  unfold RealCollectors.RemotiveCollector._guess_experience_level,
    RealCollectors.ArbeitnowCollector._guess_experience_level,
    RealCollectors.any_in.
  cbn [existsb]. set (low := Py.lower title). cbv zeta.
  repeat match goal with
         | |- context [Py.contains ?kw low] =>
             destruct (Py.contains kw low); cbn [orb]
         end;
    cbn [In]; repeat split; try tauto; intros; try discriminate; tauto.
Qed.

(** * Skills read off the description *)

Section ExtractSkills.
Context `{SI : Models.SetIteration}.

(** X23. [extract_skills_from_description] stores the list it returns
    as the posting's skills and leaves the id alone. The list has no
    duplicates and holds exactly the entries of the fixed skill table
    that occur in the lower-cased description, so skills the posting
    carried before the call (tags set by a collector) are dropped unless
    the description names them. As entries are found by substring, a
    description that yields [javascript] also yields [java], and one
    that yields [postgresql] also yields [sql]. *)
Theorem extract_skills_from_description_spec (job : Models.JobPosting) :
  Models.set_iteration_laws SI ->
  let job' := fst (Models.extract_skills_from_description job) in
  let result := snd (Models.extract_skills_from_description job) in
  Models.skills job' = result /\
  Models.id job' = Models.id job /\
  List.NoDup result /\
  (forall s, In s result <->
             In s Models.common_skills /\
             Py.contains s (Py.lower (Models.description job)) = true) /\
  (forall old, ~ Py.contains old (Py.lower (Models.description job)) = true ->
               ~ In old result) /\
  (In "javascript" result -> In "java" result) /\
  (In "postgresql" result -> In "sql" result).
Proof.
  intros Hlaws. unfold Models.extract_skills_from_description.
  cbn [fst snd Models.skills Models.id Models.set_skills].
  set (found := List.filter _ Models.common_skills).
  destruct (Hlaws found) as [Hnd Hin].
  assert (Hmem : forall s, In s (Models.list_of_set found) <->
                   In s Models.common_skills /\
                   Py.contains s (Py.lower (Models.description job)) = true).
  { intros s. rewrite Hin. subst found.
    exact (filter_In
             (fun s0 => Py.contains s0 (Py.lower (Models.description job)))
             s Models.common_skills). }
  split; [reflexivity|]. split; [reflexivity|]. split; [exact Hnd|].
  split; [exact Hmem|]. split; [|split].
  - intros old Hno Hold. apply Hmem in Hold. tauto.
  - intros Hjs. apply Hmem in Hjs as [_ Hjs]. apply Hmem.
    split; [simpl; tauto|].
    change "javascript" with (String.append "java" "script") in Hjs.
    now apply contains_app in Hjs.
  - intros Hpg. apply Hmem in Hpg as [_ Hpg]. apply Hmem.
    split; [simpl; tauto|].
    change "postgresql" with (String.append "postgre" "sql") in Hpg.
    now apply contains_app in Hpg.
Qed.

End ExtractSkills.

Lemma demo_set_iteration_laws : Models.set_iteration_laws Demo.set_iteration.
Proof.
  intros l. split; [apply NoDup_ListNoDup, NoDup_remove_dups|].
  intros x. apply In_remove_dups.
Qed.

Lemma extract_skills_from_description_spec_witness :
  snd (Models.extract_skills_from_description (SI := Demo.set_iteration)
         Demo.tagged) = ["javascript"; "java"; "sql"; "postgresql"] /\
  ~ In "vue"
      (snd (Models.extract_skills_from_description (SI := Demo.set_iteration)
              Demo.tagged)).
Proof.
  split; [vm_compute; reflexivity|].
  refine (proj1 (proj2 (proj2 (proj2 (proj2
    (extract_skills_from_description_spec (SI := Demo.set_iteration)
       Demo.tagged demo_set_iteration_laws))))) "vue" _).
  vm_compute. discriminate.
Defined.

(** * Further accessors of the statistics *)

Section MoreStatistics.
Import Database.

Lemma salary_entries_levels (rows : list jobs_row) (levels : list string) :
  forall es, salary_entries rows levels = Py.Return es -> map fst es = levels.
Proof.
  induction levels as [|level rest IH]; intros es; simpl.
  - intros Hes. now injection Hes as <-.
  - unfold salary_entry.
    destruct (sql_avg _); [|discriminate].
    destruct (sql_avg _); [|discriminate]. simpl.
    destruct (salary_entries rows rest) as [es'|]; [|discriminate]. simpl.
    intros Hes. injection Hes as <-. simpl. f_equal. now apply IH.
Qed.

(** X24. When [get_stats] succeeds, [get_top_companies(top_n)] for
    [top_n >= 0] returns at most [min(top_n, 10)] entries, one per
    company, in descending order of count; each count is the number of
    stored postings of the company, and no company left out of the first
    ten has more postings than a listed one. *)
Theorem get_top_companies_ranking (db : JobDatabase) (top_n : Z)
    (ranking : list (string * nat)) :
  (0 <= top_n)%Z ->
  Analyzer.get_top_companies db top_n = Py.Return ranking ->
  (length ranking <= Nat.min (Z.to_nat top_n) 10)%nat /\
  List.NoDup (map fst ranking) /\
  StronglySorted Spec.count_not_below ranking /\
  (forall company c, In (company, c) ranking ->
     c = Spec.occurrences col_company company (jobs db) /\ (1 <= c)%nat) /\
  (forall company, (0 < Spec.occurrences col_company company (jobs db))%nat ->
     ~ In company (map fst (top_companies db)) ->
     forall company' c', In (company', c') ranking ->
       (Spec.occurrences col_company company (jobs db) <= c')%nat).
Proof.
  intros Hn. unfold Analyzer.get_top_companies, Py.bind.
  destruct (get_stats db); [|discriminate]. intros Hres. injection Hres as <-.
  unfold Py.slice_to. destruct (0 <=? top_n)%Z eqn:E; [|lia].
  destruct (ranking_spec col_company (jobs db) 10)
    as [Hlen [Hnd [Hsorted [Hcount Hbest]]]].
  fold (top_companies db) in *.
  split; [rewrite length_take; lia|]. split; [|split; [|split]].
  - rewrite <- (take_drop (Z.to_nat top_n) (top_companies db)), map_app in Hnd.
    now apply NoDup_app_remove_r in Hnd.
  - now apply StronglySorted_take.
  - intros company c Hin. apply In_take in Hin. now apply Hcount.
  - intros company Hocc Hout company' c' Hin. apply In_take in Hin.
    now apply (Hbest company Hocc Hout company' c').
Qed.

(** X25. When [get_salary_by_experience] returns, its table has one
    entry per experience level, and a level is listed exactly when some
    stored posting of that level has a salary floor: levels whose
    postings all lack a floor do not appear. *)
Theorem get_salary_by_experience_levels (db : JobDatabase)
    (table : list (string * (Q * Q))) :
  Analyzer.get_salary_by_experience db = Py.Return table ->
  List.NoDup (map fst table) /\
  forall level,
    In level (map fst table) <->
    exists r, In r (jobs db) /\ col_experience_level r = level /\
              col_salary_min r <> None.
Proof.
  unfold Analyzer.get_salary_by_experience, get_stats, Py.bind.
  set (salaried := List.filter _ (jobs db)).
  destruct (salary_entries salaried _) as [es|] eqn:Hes; [|discriminate].
  intros Hres. injection Hres as <-. simpl.
  apply salary_entries_levels in Hes. rewrite Hes. split.
  - apply NoDup_ListNoDup, NoDup_remove_dups.
  - intros level. rewrite In_remove_dups, in_map_iff. split.
    + intros [r [Hlevel Hr]]. apply salaried_In in Hr as [Hr Hmin].
      exists r. auto.
    + intros [r [Hr [Hlevel Hmin]]]. exists r. split; [exact Hlevel|].
      apply salaried_In. auto.
Qed.

End MoreStatistics.

Lemma get_top_companies_ranking_witness :
  exists ranking,
    Analyzer.get_top_companies Demo.store 5 = Py.Return ranking /\
    map fst ranking = ["Initech"; "Acme"] /\
    StronglySorted Spec.count_not_below ranking /\
    forall company c, In (company, c) ranking ->
      c = Spec.occurrences Database.col_company company
            (Database.jobs Demo.store).
Proof.
  eexists. split; [vm_compute; reflexivity|]. split; [reflexivity|].
  destruct (get_top_companies_ranking Demo.store 5 _ ltac:(lia) eq_refl)
    as [_ [_ [Hsorted [Hcount _]]]].
  split; [exact Hsorted|].
  intros company c Hin. now apply Hcount.
Defined.

Lemma get_salary_by_experience_levels_witness :
  exists table,
    Analyzer.get_salary_by_experience Demo.store_levels = Py.Return table /\
    length table = 2%nat /\
    In "Mid" (map fst table) /\ In "Lead" (map fst table) /\
    List.NoDup (map fst table).
Proof.
  eexists. split; [vm_compute; reflexivity|]. split; [reflexivity|].
  split; [simpl; tauto|]. split; [simpl; tauto|].
  exact (proj1 (get_salary_by_experience_levels Demo.store_levels _ eq_refl)).
Defined.
